(** * cuckoo_distributed: a shallow embedding of the pipeline workers

    The development follows the layout of the repository:

    - [lib] core ([Core], [QueueHandler], [NackOnError], message schemas),
    - [lib] Sandbox client ([CuckooConn], [GetStatus], [NewTask]),
    - [lib] Repository client ([CritsConn], [NewSample], [AddResults], ...),
    - [feed_cuckoo] ([handleSubmit]), [overseer] ([handleFailed], [dumpMsg]),
    - [parse_and_submit] ([processReportInfo], [processReportSignatures],
      [processReportBehavior]).

    Go values are embedded as follows.  A [[]byte] and a [string] are both a
    Rocq [string] (a sequence of bytes).  A Go [int] is a [Z]; where the code
    does arithmetic on it the 64-bit wrap-around is written out ([GoInt]).
    A nil-able pointer is an [option].  An [error] is the [option] of its
    [Error()] text.  A Go map that is shared between records lives in a heap
    of attribute maps and is referred to by its location. *)

From Stdlib Require Import ZArith Lia.
From stdpp Require Import base option list strings pretty gmap fin_maps fin_sets.

#[local] Set Warnings "-clear-no-such-hyp".

Local Open Scope string_scope.
Local Open Scope list_scope.
Local Open Scope Z_scope.

(** ** Go runtime conventions *)

Definition error : Type := string.

(** The line feed that [Println] and the format strings end with. *)
Definition nl : string := String (Ascii.ascii_of_nat 10) EmptyString.

Module GoInt.
(** Go's [int] on the 64-bit targets the workers are built for. *)
Definition min_int : Z := - 2 ^ 63.
Definition max_int : Z := 2 ^ 63 - 1.
Definition wrap (z : Z) : Z := (z + 2 ^ 63) mod 2 ^ 64 - 2 ^ 63.
Definition add (x y : Z) : Z := wrap (x + y).
(** Integer division truncates toward zero. *)
Definition div (x y : Z) : Z := wrap (Z.quot x y).
(** [strconv.Itoa], also what the verb [%d] prints. *)
Definition Itoa (z : Z) : string := pretty z.
End GoInt.

(** [strconv.FormatBool]. *)
Definition FormatBool (b : bool) : string := if b then "true" else "false".

(** ** A state monad with panics

    [Panic] is a Go run-time panic (it unwinds the goroutine; nothing in the
    workers recovers).  [Stalled] is a run that is still blocked when the
    scripted environment has no further answer: the worker is waiting. *)

Inductive Res (S A : Type) : Type :=
| Ok (a : A) (s : S)
| Panic (msg : string) (s : S)
| Stalled (s : S).
Arguments Ok {S A} a s.
Arguments Panic {S A} msg s.
Arguments Stalled {S A} s.

Definition M (S A : Type) : Type := S -> Res S A.

Definition ret {S A} (a : A) : M S A := fun s => Ok a s.

Definition bind {S A B} (m : M S A) (k : A -> M S B) : M S B :=
  fun s =>
    match m s with
    | Ok a s' => k a s'
    | Panic msg s' => Panic msg s'
    | Stalled s' => Stalled s'
    end.

Definition panic {S A} (msg : string) : M S A := fun s => Panic msg s.
Definition stalled {S A} : M S A := fun s => Stalled s.
Definition get {S} : M S S := fun s => Ok s s.
Definition put {S} (s : S) : M S unit := fun _ => Ok tt s.
Definition modify {S} (f : S -> S) : M S unit := fun s => Ok tt (f s).

Notation "'let*' x ':=' m 'in' k" := (bind m (fun x => k))
  (at level 10, x name, m at level 100, k at level 200).
Notation "'let*' ' p ':=' m 'in' k" := (bind m (fun x => match x with p => k end))
  (at level 10, p strict pattern, m at level 100, k at level 200).

(** The state a run ends in, whatever its outcome. *)
Definition final {S A} (r : Res S A) : S :=
  match r with Ok _ s | Panic _ s | Stalled s => s end.

(** The run-time panic of a nil dereference. *)
Definition nil_deref : string :=
  "runtime error: invalid memory address or nil pointer dereference".

(** ** Attribute maps

    Values that the Reporter stores in an attribute map
    ([map[string]interface{}]): strings, ints, bools and the argument list of
    an API call. *)
Record CkoTasksReportBhvPcsCallArg : Type := {
  arg_Name : string;
  arg_Value : string;
}.

Inductive value : Type :=
| VStr (s : string)
| VInt (z : Z)
| VBool (b : bool)
| VArgs (args : list (option CkoTasksReportBhvPcsCallArg)).

(** A [map[string]interface{}] is a reference: records that were given the
    same map see each other's writes.  The maps live in a heap, a record
    holds the location of its map. *)
Abbreviation loc := nat.
Abbreviation attrs := (gmap string value).
Abbreviation heap := (list (gmap string value)).

Definition make_map : M heap loc := fun h => Ok (length h) (h ++ [∅])%list.

Definition map_set (m : loc) (k : string) (v : value) : M heap unit :=
  modify (fun h => alter (<[k := v]>) m h).

Definition map_get (m : loc) : M heap attrs :=
  fun h => Ok (default ∅ (h !! m)) h.

(** ** The world outside a worker: broker, clock, file system *)

Inductive level : Type := Warning | Info | Debug.

(** An [amqp.Delivery]: what the handlers read of it. *)
Record Delivery : Type := {
  DeliveryTag : N;
  RoutingKey : string;
  Body : string;
}.

(** What an HTTP round trip comes back with: no response at all, a response
    whose body cannot be read, or a response. *)
Inductive HttpResult : Type :=
| HttpFail (e : error)
| HttpReadFail (code : Z) (status : string) (e : error)
| HttpResp (code : Z) (status : string) (body : string).

Inductive event : Type :=
| EvLog (l : level) (text : string)
| EvQueueDeclare (queue : string)
| EvPublish (queue : string) (body : string)
| EvAck (tag : N) (multiple : bool)
| EvNack (tag : N) (multiple requeue : bool)
| EvSleep (seconds : Z)
| EvGet (url : string) (answer : HttpResult)
| EvNewTask (url fileName fileBytes : string) (params : gmap string string)
| EvCreateFile (name : string)
| EvWriteFile (name content : string)
| EvPrint (text : string)
| EvRequest (method url : string) (form : list (string * string)) (answer : HttpResult)
| EvUpload (url fileName fileData : string) (fields : gmap string string)
    (answer : HttpResult).

(** [w_faults] scripts the broker and the file system: the head is the error
    (if any) of the next fallible call; an empty script means every further
    call succeeds.  [w_now] is the wall clock in Unix seconds, [w_fs] the
    files that exist, by path, [w_heap] the attribute maps the process has
    made. *)
Record World : Type := {
  w_events : list event;
  w_faults : list (option error);
  w_now : Z;
  w_fs : gmap string string;
  w_heap : list (gmap string value);
}.

Definition set_events (tr : list event) (w : World) : World :=
  {| w_events := tr; w_faults := w_faults w; w_now := w_now w;
     w_fs := w_fs w; w_heap := w_heap w |}.
Definition set_faults (fl : list (option error)) (w : World) : World :=
  {| w_events := w_events w; w_faults := fl; w_now := w_now w;
     w_fs := w_fs w; w_heap := w_heap w |}.
Definition set_now (t : Z) (w : World) : World :=
  {| w_events := w_events w; w_faults := w_faults w; w_now := t;
     w_fs := w_fs w; w_heap := w_heap w |}.
Definition set_fs (fs : gmap string string) (w : World) : World :=
  {| w_events := w_events w; w_faults := w_faults w; w_now := w_now w;
     w_fs := fs; w_heap := w_heap w |}.
Definition set_heap (h : list (gmap string value)) (w : World) : World :=
  {| w_events := w_events w; w_faults := w_faults w; w_now := w_now w;
     w_fs := w_fs w; w_heap := h |}.

Definition emit (e : event) : M World unit :=
  modify (fun w => set_events (w_events w ++ [e])%list w).

(** The outcome of the next fallible call. *)
Definition fault : M World (option error) :=
  fun w => Ok (mjoin (head (w_faults w))) (set_faults (tail (w_faults w)) w).

Definition log (l : level) (text : string) : M World unit := emit (EvLog l text).

(** [time.Sleep]: the clock moves on. *)
Definition Sleep (seconds : Z) : M World unit :=
  let* _ := emit (EvSleep seconds) in
  modify (fun w => set_now (w_now w + seconds) w).

(** [time.Now().Unix()]. *)
Definition Now_Unix : M World Z := fun w => Ok (w_now w) w.

(** A computation on the attribute maps alone, run inside the world. *)
Definition lift_heap {A} (m : M (list (gmap string value)) A) : M World A :=
  fun w =>
    match m (w_heap w) with
    | Ok a h => Ok a (set_heap h w)
    | Panic msg h => Panic msg (set_heap h w)
    | Stalled h => Stalled (set_heap h w)
    end.

Definition set_file (name content : string) : M World unit :=
  modify (fun w => set_fs (<[name := content]> (w_fs w)) w).

(** [os.OpenFile] with [O_RDWR|O_CREATE]: the file exists afterwards; one
    that was there keeps its content. *)
Definition OpenFile_create (name : string) : M World (option error) :=
  let* _ := emit (EvCreateFile name) in
  let* err := fault in
  match err with
  | Some e => ret (Some e)
  | None =>
      let* w := get in
      let* _ := set_file name (default "" (w_fs w !! name)) in
      ret None
  end.

(** [File.Write] at the start of a file just created. *)
Definition File_Write (name content : string) : M World (option error) :=
  let* _ := emit (EvWriteFile name content) in
  let* err := fault in
  match err with
  | Some e => ret (Some e)
  | None => let* _ := set_file name content in ret None
  end.

(** [File.Write] at the start of a file that is open: the bytes take the
    place of the first bytes of the file, what comes after them stays. *)
Definition File_Write_over (name content : string) : M World (option error) :=
  let* _ := emit (EvWriteFile name content) in
  let* err := fault in
  match err with
  | Some e => ret (Some e)
  | None =>
      let* w := get in
      let old := default "" (w_fs w !! name) in
      let* _ := set_file name
                  (content +:+ String.substring (String.length content)
                                 (String.length old - String.length content) old) in
      ret None
  end.

(** [ioutil.ReadAll] of a file just opened: its content; a read that fails
    hands over nothing. *)
Definition File_ReadAll (name : string) : M World (string * option error) :=
  let* err := fault in
  match err with
  | Some e => ret ("", Some e)
  | None => let* w := get in ret (default "" (w_fs w !! name), None)
  end.

(** [os.Remove]: a file that is not there is an error. *)
Definition Remove (name : string) : M World (option error) :=
  let* w := get in
  match w_fs w !! name with
  | None => ret (Some ("remove " +:+ name +:+ ": no such file or directory"))
  | Some _ =>
      let* err := fault in
      match err with
      | Some e => ret (Some e)
      | None =>
          let* _ := modify (fun w => set_fs (delete name (w_fs w)) w) in
          ret None
      end
  end.

(** Broker operations of [amqp.Channel] and [amqp.Delivery]. *)
Definition Channel_Publish (queue body : string) : M World (option error) :=
  let* _ := emit (EvPublish queue body) in fault.

Definition Channel_QueueDeclare (queue : string) : M World (option error) :=
  let* _ := emit (EvQueueDeclare queue) in fault.

Definition Delivery_Ack (msg : Delivery) (multiple : bool) : M World (option error) :=
  let* _ := emit (EvAck (DeliveryTag msg) multiple) in fault.

Definition Delivery_Nack (msg : Delivery) (multiple requeue : bool)
  : M World (option error) :=
  let* _ := emit (EvNack (DeliveryTag msg) multiple requeue) in fault.

(** What a run did to messages on the broker: publish, ack, nack. *)
Definition is_bus (e : event) : bool :=
  match e with
  | EvPublish _ _ | EvAck _ _ | EvNack _ _ _ => true
  | _ => false
  end.

Definition bus_events (tr : list event) : list event := List.filter is_bus tr.

(** A world in which nothing has happened yet. *)
Definition World_init (faults : list (option error)) (now : Z)
    (fs : gmap string string) : World :=
  {| w_events := []; w_faults := faults; w_now := now; w_fs := fs; w_heap := [] |}.

(** The events of [w'] that [w] does not have yet. *)
Definition events_since (w w' : World) : list event :=
  drop (length (w_events w)) (w_events w').

(** ** lib: message schemas *)

Record CritsData : Type := {
  CritsURL : string;
  AnalysisId : string;
  ObjectType : string;
  ObjectId : string;
  Username : string;
  ApiKey : string;
  MD5 : string;
  Source : string;
}.

Record FailedMsg : Type := {
  Service : string;
  Queue : string;
  Error : string;
  Desc : string;
  Msg : string;
}.

Record DistributedCuckooReq : Type := {
  Payload : gmap string string;
  File : option (gmap string string);
  dcr_CritsData : option CritsData;
}.

Record FeedCuckooReq : Type := {
  fcr_TaskId : Z;
  fcr_CuckooURL : string;
  fcr_CritsData : option CritsData;
}.

(** What [check_results] hands to [parse_and_submit]. *)
Record CheckResultsReq : Type := {
  crr_CuckooURL : string;
  crr_TaskId : Z;
  crr_CritsData : option CritsData;
}.

(** The Overseer's [genericMsg]: the context under either spelling. *)
Record genericMsg : Type := {
  gm_CritsData : option CritsData;
  gm_CritsDataJ : option CritsData;
}.

Record CrtDefaultResponse : Type := {
  ReturnCode : Z;
  ErrorMsg : string;
  Message : string;
  Id : string;
  Type_ : string;
}.

Definition CrtDefaultResponse_zero : CrtDefaultResponse :=
  {| ReturnCode := 0; ErrorMsg := ""; Message := ""; Id := ""; Type_ := "" |}.

(** The Sandbox's status record ([lib/cuckoo.go]). *)
Record CkoStatusTasks : Type := { Running : Z; Pending : Z }.
Record CkoStatusSamples : Type := { Total : Z; Free : Z; Used : Z }.
Record CkoStatusDiskspace : Type := { Analyses : option CkoStatusSamples }.
Record CkoStatus : Type := {
  Tasks : option CkoStatusTasks;
  Diskspace : option CkoStatusDiskspace;
}.

(** The Sandbox's view of one task. *)
Record CkoTasksViewTask : Type := { view_Status : string }.
Record CkoTasksViewResp : Type := { Task : option CkoTasksViewTask }.

(** ** encoding/json

    The codecs of the message types are taken as an interface: the workers
    only pass encoded bodies along, and no property below depends on the
    bytes.  [json.Marshal] returns the bytes and an error; [json.Unmarshal]
    returns the (possibly partly) filled target and an error. *)

Class GoJson : Type := {
  json_Marshal_FailedMsg : FailedMsg -> string * option error;
  json_Unmarshal_FailedMsg : string -> FailedMsg * option error;
  json_Unmarshal_genericMsg : string -> genericMsg * option error;
  json_Marshal_FeedCuckooReq : FeedCuckooReq -> string * option error;
  json_Unmarshal_CrtDefaultResponse : string -> CrtDefaultResponse * option error;
  json_Unmarshal_CkoStatus : string -> CkoStatus * option error;
  json_Unmarshal_CkoTasksCreateResp : string -> Z * option error;
  json_Marshal_attrs : gmap string value -> string * option error;
  json_Marshal_strings : list string -> string * option error;
}.

(** [strconv.Unquote], taken as an interface as well. *)
Class GoStrconv : Type := {
  strconv_Unquote : string -> string * option error;
}.

(** The codecs of the other messages, and [base64.StdEncoding.DecodeString]
    (which hands over what it decoded before the error). *)
Class GoCodecs : Type := {
  json_Unmarshal_DistributedCuckooReq : string -> DistributedCuckooReq * option error;
  json_Unmarshal_FeedCuckooReq : string -> FeedCuckooReq * option error;
  json_Marshal_CheckResultsReq : CheckResultsReq -> string * option error;
  json_Unmarshal_CheckResultsReq : string -> CheckResultsReq * option error;
  json_Unmarshal_CkoTasksViewResp : string -> CkoTasksViewResp * option error;
  base64_DecodeString : string -> string * option error;
}.

(** ** lib: the core *)

Record QueueHandler : Type := { qh_Queue : string }.

Record Core : Type := {
  ServiceName : string;
  failed : QueueHandler;
}.

(** [FailOnError]: warn and panic on a non-nil error. *)
Definition FailOnError (err : option error) (msg : string) : M World unit :=
  match err with
  | Some e =>
      let* _ := log Warning (msg +:+ ": " +:+ e +:+ nl) in
      panic (msg +:+ ": " +:+ e +:+ nl)
  | None => ret tt
  end.

(** [SetupQueue]: declare a durable queue and hand back its handler. *)
Definition SetupQueue (queue : string) : M World QueueHandler :=
  let* _ := (if decide (queue = "")
             then log Warning ("Queue name is empty! A persistent and anonymous queue will be created." +:+ nl)
             else ret tt) in
  let* _ := log Debug ("Creating new queue handler for " +:+ queue +:+ nl) in
  let* err := fault in
  let* _ := FailOnError err "Failed to open channel" in
  let* err := Channel_QueueDeclare queue in
  let* _ := FailOnError err "Failed to declare queue" in
  ret {| qh_Queue := queue |}.

(** The line [Send] logs: the first 700 bytes of the message. *)
Definition Dispatched (msg : string) : string :=
  let i := if (700 <? String.length msg)%nat
           then String.substring 0 700 msg +:+ " [...]"
           else msg in
  "Dispatched " +:+ i +:+ nl.

(** [QueueHandler.Send]: publish, panic when the broker refuses, log. *)
Definition Send (q : QueueHandler) (msg : string) : M World unit :=
  let* err := Channel_Publish (qh_Queue q) msg in
  let* _ := FailOnError err "Failed to publish a message" in
  log Info (Dispatched msg).

Section Core.
Context `{GoJson}.

(** [NackOnError]: on a non-nil error, hand the delivery to the failed
    queue, reject it without requeue and tell the caller to stop. *)
Definition NackOnError (c : Core) (err : option error) (desc : string)
    (msg : Delivery) : M World bool :=
  match err with
  | Some e =>
      let* _ := log Warning ("[NACK] " +:+ desc +:+ " " +:+ e +:+ nl) in
      let '(jm, err) :=
        json_Marshal_FailedMsg
          {| Service := ServiceName c;
             Queue := RoutingKey msg;
             Error := e;
             Desc := desc;
             Msg := Body msg |} in
      let* _ := (match err with
                 | Some e' => log Warning (e' +:+ nl)
                 | None => ret tt
                 end) in
      let* _ := Send (failed c) jm in
      let* err := Delivery_Nack msg false false in
      let* _ := (match err with
                 | Some e' => log Warning ("Sending NACK failed! " +:+ e' +:+ nl)
                 | None => ret tt
                 end) in
      ret true
  | None => ret false
  end.

(** The envelope [NackOnError] publishes for a delivery, and what it does on
    the broker: the envelope to the failed queue, then the nack. *)
Definition FailedEnvelope (c : Core) (msg : Delivery) (e desc : string) : string :=
  fst (json_Marshal_FailedMsg
         {| Service := ServiceName c; Queue := RoutingKey msg;
            Error := e; Desc := desc; Msg := Body msg |}).

Definition rejected (c : Core) (msg : Delivery) (desc : string) (bus : list event)
  : Prop :=
  exists e,
    bus = [EvPublish (qh_Queue (failed c)) (FailedEnvelope c msg e desc);
           EvNack (DeliveryTag msg) false false].
End Core.

(** [Validate] of the three request types and of the failed envelope. *)
Definition DistributedCuckooReq_Validate (r : DistributedCuckooReq) : option error :=
  match File r with
  | None => Some "File map doesn't exist!"
  | Some f =>
      match f !! "name", f !! "data" with
      | Some fN, Some fD =>
          if decide (fN = "" \/ fD = "")
          then Some "file map layout invalid!"
          else match dcr_CritsData r with
               | None => Some "crits struct doesn't exist!"
               | Some _ => None
               end
      | _, _ => Some "file map layout invalid!"
      end
  end.

Definition FeedCuckooReq_Validate (r : FeedCuckooReq) : option error :=
  if decide (fcr_CuckooURL r = "" \/ fcr_TaskId r = 0)
  then Some "No CuckooURL / TaskId!"
  else match fcr_CritsData r with
       | None => Some "crits struct doesn't exist!"
       | Some _ => None
       end.

Definition FailedMsg_Validate (r : FailedMsg) : option error :=
  if decide (Service r = "" \/ Queue r = "")
  then Some "Queue or Service unknown!"
  else None.

Definition CheckResultsReq_Validate (r : CheckResultsReq) : option error :=
  if decide (crr_CuckooURL r = "" \/ crr_TaskId r = 0)
  then Some "No CuckooURL / TaskId!"
  else match crr_CritsData r with
       | None => Some "crits struct doesn't exist!"
       | Some _ => None
       end.

(** Dereferencing a pointer that may be nil. *)
Definition deref {S A} (p : option A) : M S A :=
  match p with
  | Some a => ret a
  | None => panic nil_deref
  end.

(** [Core.FastGet]: GET, read the body, decode it into the target.  The
    result is the body ([None] is a nil slice), the status code, the error,
    and the target as the decoder left it ([zero] when it never ran). *)
Definition FastGet {T} (unmarshal : option (string -> T * option error)) (zero : T)
    (url : string) (http : HttpResult)
  : M World (option string * Z * option error * T) :=
  let* _ := log Debug ("Getting " +:+ url +:+ nl) in
  let* _ := emit (EvGet url http) in
  match http with
  | HttpFail e => ret (None, 0, Some e, zero)
  | HttpReadFail _ _ e => ret (None, 0, Some e, zero)
  | HttpResp code _ respBody =>
      let '(r, err) := match unmarshal with
                       | Some f => f respBody
                       | None => (zero, None)
                       end in
      let* _ := log Debug ("Done getting " +:+ url +:+ nl) in
      ret (Some respBody, code, err, r)
  end.

(** ** lib: the Sandbox client *)

Record CuckooConn : Type := { cko_URL : string }.

Definition CkoStatus_zero : CkoStatus := {| Tasks := None; Diskspace := None |}.

Section Cuckoo.
Context `{GoJson}.

(** [GetStatus]: the status record, or nil and the error.  When the
    request went through with a status other than 200, [err] is nil where
    its text is asked for. *)
Definition GetStatus (cko : CuckooConn) (http : HttpResult)
  : M World (option CkoStatus * option error) :=
  let* '(resp, status, err, r) :=
    FastGet (Some json_Unmarshal_CkoStatus) CkoStatus_zero
            (cko_URL cko +:+ "/cuckoo/status") http in
  if decide (err <> None \/ status <> 200) then
    match resp with
    | Some body =>
        let* e := deref err in
        ret (None, Some (e +:+ " -> [" +:+ GoInt.Itoa status +:+ "] " +:+ body))
    | None => ret (None, err)
    end
  else ret (Some r, None).

(** [NewTask]: upload the sample as multipart form data (writing the form
    into a memory buffer does not fail) and read the task id back.  The
    elapsed time is left out of the log line. *)
Definition NewTask (cko : CuckooConn) (fileBytes fileName : string)
    (params : gmap string string) (http : HttpResult)
  : M World (Z * option error) :=
  let* _ := emit (EvNewTask (cko_URL cko +:+ "/tasks/create/file")
                            fileName fileBytes params) in
  match http with
  | HttpFail e => ret (0, Some e)
  | HttpReadFail code status e =>
      if decide (code <> 200) then ret (0, Some status) else ret (0, Some e)
  | HttpResp code status respBody =>
      if decide (code <> 200) then ret (0, Some status)
      else
        let '(id, err) := json_Unmarshal_CkoTasksCreateResp respBody in
        match err with
        | Some e => ret (0, Some e)
        | None =>
            let* _ := log Debug ("Uploaded " +:+ fileName +:+ " to cuckoo" +:+ nl) in
            ret (id, None)
        end
  end.
End Cuckoo.

Section CuckooTasks.
Context `{GoJson} `{GoCodecs}.

(** [GetPending]: the number of pending tasks of the status record. *)
Definition GetPending (cko : CuckooConn) (http : HttpResult)
  : M World (Z * option error) :=
  let* '(resp, status, err, r) :=
    FastGet (Some json_Unmarshal_CkoStatus) CkoStatus_zero
            (cko_URL cko +:+ "/cuckoo/status") http in
  if decide (err <> None \/ status <> 200) then
    match resp with
    | Some body =>
        let* e := deref err in
        ret (0, Some (e +:+ " -> [" +:+ GoInt.Itoa status +:+ "] " +:+ body))
    | None => ret (0, err)
    end
  else
    let* tasks := deref (Tasks r) in
    ret (Pending tasks, None).

(** [TaskStatus]: the status text of a task. *)
Definition TaskStatus (cko : CuckooConn) (id : Z) (http : HttpResult)
  : M World (string * option error) :=
  let* '(resp, status, err, r) :=
    FastGet (Some json_Unmarshal_CkoTasksViewResp) {| Task := None |}
            (cko_URL cko +:+ "/tasks/view/" +:+ GoInt.Itoa id) http in
  if decide (err <> None \/ status <> 200) then
    match resp with
    | Some body =>
        let* e := deref err in
        ret ("", Some (e +:+ " -> [" +:+ GoInt.Itoa status +:+ "] " +:+ body))
    | None => ret ("", err)
    end
  else
    let* task := deref (Task r) in
    ret (view_Status task, None).

(** [DeleteTask]: nothing is decoded, so an error means that no answer came;
    a status other than 200 is an error of its own. *)
Definition DeleteTask (cko : CuckooConn) (id : Z) (http : HttpResult)
  : M World (option error) :=
  let* '(resp, status, err, _) :=
    FastGet (T := unit) None tt
            (cko_URL cko +:+ "/tasks/delete/" +:+ GoInt.Itoa id) http in
  match err with
  | Some e =>
      match resp with
      | Some body =>
          ret (Some (e +:+ " -> [" +:+ GoInt.Itoa status +:+ "] " +:+ body))
      | None => ret (Some e)
      end
  | None =>
      if decide (status <> 200)
      then ret (Some (GoInt.Itoa status +:+ " - Response code not 200"))
      else ret None
  end.

(** [GetDropped]: the archive of the dropped files, as it came.  The
    elapsed time is left out of the log line. *)
Definition GetDropped (cko : CuckooConn) (id : Z) (http : HttpResult)
  : M World (string * option error) :=
  let* '(resp, status, err, _) :=
    FastGet (T := unit) None tt
            (cko_URL cko +:+ "/tasks/report/" +:+ GoInt.Itoa id +:+ "/dropped") http in
  if decide (err <> None \/ status <> 200) then
    match resp with
    | Some body =>
        let* e := deref err in
        ret ("", Some (e +:+ " -> [" +:+ GoInt.Itoa status +:+ "] " +:+ body))
    | None => ret ("", err)
    end
  else
    let* _ := log Debug ("Downloaded dropped files " +:+ GoInt.Itoa id
                           +:+ " from cuckoo" +:+ nl) in
    ret (default "" resp, None).
End CuckooTasks.

(** ** feed_cuckoo *)

Module feed_cuckoo.

Record Feeder : Type := {
c : Core;
cuckoo : CuckooConn;
producer : QueueHandler;
checkFreeSpace : bool;
maxPending : Z;
}.

Section Feeder.
Context `{GoJson}.

(** The condition of the slowdown loop, with Go's short-circuit [||] and
    [&&]: only the fields that are evaluated are dereferenced. *)
Definition slowdown_cond (f : Feeder) (cStatus : option CkoStatus) : M World bool :=
  let* st := deref cStatus in
  let* tasks := deref (Tasks st) in
  if maxPending f <=? Pending tasks then ret true
  else if checkFreeSpace f then
    let* diskspace := deref (Diskspace st) in
    let* analyses := deref (Analyses diskspace) in
    ret (Free analyses <=? 256 * 1024 * 1024)
  else ret false.

(** The line the loop body logs. *)
Definition slowdown_text (pending free : Z) : string :=
  "Slowdown: " +:+ GoInt.Itoa pending +:+ " pending jobs, "
    +:+ GoInt.Itoa (GoInt.div (GoInt.div free 1024) 1024)
    +:+ " MB free space" +:+ nl.

(** The slowdown loop of [handleSubmit].  [polls] are the answers to the
    status requests still to come; the error of [GetStatus] is dropped. *)
Fixpoint slowdown_loop (f : Feeder) (cStatus : option CkoStatus)
    (polls : list HttpResult) : M World unit :=
  let* busy := slowdown_cond f cStatus in
  if busy : bool then
    let* st := deref cStatus in
    let* tasks := deref (Tasks st) in
    let* diskspace := deref (Diskspace st) in
    let* analyses := deref (Analyses diskspace) in
    let* _ := log Info (slowdown_text (Pending tasks) (Free analyses)) in
    let* _ := Sleep 30 in
    match polls with
    | [] => stalled
    | http :: polls' =>
        let* '(cStatus', _) := GetStatus (cuckoo f) http in
        slowdown_loop f cStatus' polls'
    end
  else ret tt.

(** What [handleSubmit] does after the loop: upload, hand over, ack. *)
Definition handleSubmit_upload (f : Feeder) (m : DistributedCuckooReq)
    (fileBytes : string) (msg : Delivery) (upload : HttpResult) : M World unit :=
  let* '(id, err) :=
    NewTask (cuckoo f) fileBytes
            (default "" (File m ≫= (.!! "name"))) (Payload m) upload in
  let* stop := NackOnError (c f) err "Uploading sample to cuckoo failed!" msg in
  if stop : bool then ret tt else
  let '(fcReq, err) :=
    json_Marshal_FeedCuckooReq
      {| fcr_TaskId := id;
         fcr_CuckooURL := cko_URL (cuckoo f);
         fcr_CritsData := dcr_CritsData m |} in
  let* stop := NackOnError (c f) err "Could not create feedCuckooReq!" msg in
  if stop : bool then ret tt else
  let* _ := Send (producer f) fcReq in
  let* err := Delivery_Ack msg false in
  match err with
  | Some e => log Warning ("Sending ACK failed! " +:+ e +:+ nl)
  | None => ret tt
  end.

(** What [handleSubmit] does once it holds the answer of the first
    [GetStatus]: the record is kept, the error is not looked at. *)
Definition handleSubmit_from (f : Feeder) (m : DistributedCuckooReq)
    (fileBytes : string) (msg : Delivery)
    (first : option CkoStatus * option error)
    (polls : list HttpResult) (upload : HttpResult) : M World unit :=
  let '(cStatus, _) := first in
  let* _ := slowdown_loop f cStatus polls in
  handleSubmit_upload f m fileBytes msg upload.

(** [handleSubmit]: poll, wait while the Sandbox is at its limit, upload,
    hand the task to [check_results]. *)
Definition handleSubmit (f : Feeder) (m : DistributedCuckooReq)
    (fileBytes : string) (msg : Delivery)
    (polls : list HttpResult) (upload : HttpResult) : M World unit :=
  match polls with
  | [] => stalled
  | http :: polls' =>
      let* first := GetStatus (cuckoo f) http in
      handleSubmit_from f m fileBytes msg first polls' upload
  end.

(** The record a status request hands to the Feeder: the decoded body of an
    answer with status 200, nil otherwise. *)
Definition polled (http : HttpResult) : option CkoStatus :=
  match http with
  | HttpResp code _ body =>
      let '(r, err) := json_Unmarshal_CkoStatus body in
      if decide (err <> None \/ code <> 200) then None else Some r
  | _ => None
  end.

(** Both conditions pass: fewer pending tasks than [maxPending] and, when
    the check is on, more than 256 MiB free. *)
Definition passes (f : Feeder) (st : CkoStatus) : bool :=
  match Tasks st with
  | Some tasks =>
      (Pending tasks <? maxPending f) &&
      (if checkFreeSpace f then
         match Diskspace st ≫= Analyses with
         | Some analyses => 256 * 1024 * 1024 <? Free analyses
         | None => false
         end
       else true)
  | None => false
  end.

(** A record with every part present. *)
Definition populated (st : CkoStatus) : Prop :=
  is_Some (Tasks st) /\ is_Some (Diskspace st ≫= Analyses).

(** A trace is allowed when every upload in it comes while the status
    polled last passes. *)
Fixpoint uploads_allowed (f : Feeder) (last : option CkoStatus)
    (tr : list event) : bool :=
  match tr with
  | [] => true
  | EvGet _ http :: tr' => uploads_allowed f (polled http) tr'
  | EvNewTask _ _ _ _ :: tr' =>
      match last with
      | Some st => passes f st && uploads_allowed f last tr'
      | None => false
      end
  | _ :: tr' => uploads_allowed f last tr'
  end.

(** The status polled last, at the end of a trace. *)
Fixpoint last_polled (last : option CkoStatus) (tr : list event)
  : option CkoStatus :=
  match tr with
  | [] => last
  | EvGet _ http :: tr' => last_polled (polled http) tr'
  | _ :: tr' => last_polled last tr'
  end.

(** The events of one [GetStatus]. *)
Definition GetStatus_events (cko : CuckooConn) (http : HttpResult) : list event :=
  let url := cko_URL cko +:+ "/cuckoo/status" in
  [EvLog Debug ("Getting " +:+ url +:+ nl); EvGet url http]
    ++ match http with
       | HttpResp _ _ _ => [EvLog Debug ("Done getting " +:+ url +:+ nl)]
       | _ => []
       end.

(** A status request that handed over a nil record. *)
Definition failed_poll (e : event) : Prop :=
  exists url http, e = EvGet url http /\ polled http = None.

Definition is_upload (e : event) : bool :=
  match e with EvNewTask _ _ _ _ => true | _ => false end.

Definition is_poll (e : event) : bool :=
  match e with EvGet _ _ => true | _ => false end.

(** Neither a status request nor an upload. *)
Definition aside (e : event) : Prop := is_upload e = false /\ is_poll e = false.
End Feeder.

Section FeederMain.
Context `{GoJson} `{GoCodecs}.

(** [parseMsg]: decode the request, validate it, decode the file; what
    passes goes to [handleSubmit].  The handler that the source starts with
    [go] is run to its end. *)
Definition parseMsg (f : Feeder) (msg : Delivery)
    (polls : list HttpResult) (upload : HttpResult) : M World unit :=
  let '(m, err) := json_Unmarshal_DistributedCuckooReq (Body msg) in
  let* stop := NackOnError (c f) err "Could not decode json!" msg in
  if stop : bool then ret tt else
  let* stop := NackOnError (c f) (DistributedCuckooReq_Validate m)
                 "Error in msg from Crits service!" msg in
  if stop : bool then ret tt else
  let '(fileBytes, err) :=
    base64_DecodeString (default "" (File m ≫= (.!! "data"))) in
  let* stop := NackOnError (c f) err "Couldn't decode msg!" msg in
  if stop : bool then ret tt else
  handleSubmit f m fileBytes msg polls upload.

(** The request a delivery carries when it passes the three checks, with
    the bytes of its file. *)
Definition accepted (msg : Delivery) : option (DistributedCuckooReq * string) :=
  let '(m, err) := json_Unmarshal_DistributedCuckooReq (Body msg) in
  match err, DistributedCuckooReq_Validate m with
  | None, None =>
      match base64_DecodeString (default "" (File m ≫= (.!! "data"))) with
      | (fileBytes, None) => Some (m, fileBytes)
      | (_, Some _) => None
      end
  | _, _ => None
  end.

(** A request to the Sandbox: a status poll or an upload. *)
Definition is_sandbox (e : event) : bool := is_poll e || is_upload e.

(** The task id the Sandbox gives in the answer to an upload. *)
Definition uploaded (upload : HttpResult) : option Z :=
  match upload with
  | HttpResp code _ body =>
      if decide (code = 200) then
        match json_Unmarshal_CkoTasksCreateResp body with
        | (id, None) => Some id
        | (_, Some _) => None
        end
      else None
  | _ => None
  end.

(** What the Feeder hands to the Watcher for a request and a task id. *)
Definition pending (f : Feeder) (m : DistributedCuckooReq) (id : Z) : FeedCuckooReq :=
  {| fcr_TaskId := id;
     fcr_CuckooURL := cko_URL (cuckoo f);
     fcr_CritsData := dcr_CritsData m |}.
End FeederMain.

End feed_cuckoo.

(** ** overseer *)

Module overseer.

(** The process-wide variables of the Overseer. *)
Record Overseer : Type := {
c : Core;
dumpDir : string;
producers : gmap string QueueHandler;
failedMap : gmap string Z;
}.

Definition set_failedMap (o : Overseer) (m : gmap string Z) : Overseer :=
{| c := c o; dumpDir := dumpDir o; producers := producers o; failedMap := m |}.

Definition set_producers (o : Overseer) (m : gmap string QueueHandler) : Overseer :=
{| c := c o; dumpDir := dumpDir o; producers := m; failedMap := failedMap o |}.

(** The search of [dumpMsg] for a free file name: [base] followed by the
  counter, the counter going up while the name is taken.  [fuel] bounds the
  number of names tried. *)
Fixpoint dump_search (fuel : nat) (baseFileName : string) (counter : Z)
  (fs : gmap string string) : option string :=
match fuel with
| O => None
| S fuel' =>
    let fileName := baseFileName +:+ GoInt.Itoa counter in
    if bool_decide (fs !! fileName = None) then Some fileName
    else dump_search fuel' baseFileName (GoInt.add counter 1) fs
end.

(** [dumpMsg]: write the body of the delivery to a new file of the dump
  directory and acknowledge it.  A directory of [n] files has a free name
  among the first [n + 1] ([dump_search_free] below), so the search is
  given that many tries. *)
Definition dumpMsg (o : Overseer) (msg : Delivery) : M World unit :=
let* now := Now_Unix in
let baseFileName := dumpDir o +:+ "/" +:+ GoInt.Itoa now +:+ "_" in
let* w := get in
match dump_search (S (size (w_fs w))) baseFileName 0 (w_fs w) with
| None => stalled
| Some fileName =>
    let* err := OpenFile_create fileName in
    let* _ := FailOnError err "Couldn't create new file!" in
    let* err := File_Write fileName (Body msg) in
    let* _ := FailOnError err "Couldn't write to the file!" in
    let* _ := Delivery_Ack msg false in
    ret tt
end.

Section Overseer.
Context `{GoJson} `{GoStrconv}.

(** [resubmit]: send the embedded body back to the queue it came from,
    through a producer that is set up on first use. *)
Definition resubmit (o : Overseer) (failed : FailedMsg) (msg : Delivery)
  : M World (Overseer * option error) :=
  let s := match strconv_Unquote (Msg failed) with
           | (s, None) => s
           | (_, Some _) => Msg failed
           end in
  let* o := match producers o !! Queue failed with
            | Some _ => ret o
            | None =>
                let* q := SetupQueue (Queue failed) in
                ret (set_producers o (<[Queue failed := q]> (producers o)))
            end in
  let* _ := emit (EvPrint (s +:+ nl)) in
  let* q := deref (producers o !! Queue failed) in
  let* _ := Send q s in
  ret (o, None).

(** The analysis id of a decoded body, under either spelling of the
    context field. *)
Definition genericMsg_aid (payload : genericMsg) : option string :=
  match gm_CritsData payload with
  | Some cd => Some (AnalysisId cd)
  | None =>
      match gm_CritsDataJ payload with
      | Some cd => Some (AnalysisId cd)
      | None => None
      end
  end.

(** [handleFailed]: count the failure of the analysis; resubmit the first
    three times, dump from then on. *)
Definition handleFailed (o : Overseer) (failed : FailedMsg) (msg : Delivery)
  : M World Overseer :=
  let '(payload, err) := json_Unmarshal_genericMsg (Msg failed) in
  match err with
  | Some _ =>
      let* _ := log Info ("Couldn't decode genericMsg!" +:+ nl) in
      let* _ := dumpMsg o msg in
      ret o
  | None =>
      match genericMsg_aid payload with
      | None =>
          let* _ := log Info ("Couldn't find CritsData!" +:+ nl) in
          let* _ := dumpMsg o msg in
          ret o
      | Some aid =>
          let o := match failedMap o !! aid with
                   | Some _ => o
                   | None => set_failedMap o (<[aid := 0]> (failedMap o))
                   end in
          let o := set_failedMap o
                     (<[aid := GoInt.add (default 0 (failedMap o !! aid)) 1]>
                        (failedMap o)) in
          if 3 <? default 0 (failedMap o !! aid) then
            let* _ := log Info ("Msg failed three times, dumping!" +:+ nl) in
            let* _ := dumpMsg o msg in
            ret o
          else
            let* _ := Sleep 60 in
            let* '(o, err) := resubmit o failed msg in
            match err with
            | Some e =>
                let* _ := log Info ("Resubmiting failed! " +:+ e +:+ nl) in
                let* _ := dumpMsg o msg in
                ret o
            | None =>
                let* _ := Delivery_Ack msg false in
                ret o
            end
      end
  end.

(** [parseMsg]: decode the envelope; what cannot be decoded is dumped.
    The handler that the source starts with [go] is run to its end before
    the next delivery is taken. *)
Definition parseMsg (o : Overseer) (msg : Delivery) : M World Overseer :=
  let '(m, err) := json_Unmarshal_FailedMsg (Body msg) in
  match err with
  | Some _ =>
      let* _ := log Info ("parseMsg couldn't decode the msg body!" +:+ nl) in
      let* _ := dumpMsg o msg in
      ret o
  | None => handleFailed o m msg
  end.

(** The consumer loop over the deliveries of the failed queue. *)
Fixpoint consume (o : Overseer) (msgs : list Delivery) : M World Overseer :=
  match msgs with
  | [] => ret o
  | m :: msgs' => let* o' := parseMsg o m in consume o' msgs'
  end.

(** The analysis id a delivery carries: that of the context in the body
    embedded in its envelope, when both decode. *)
Definition delivery_aid (msg : Delivery) : option string :=
  let '(m, err) := json_Unmarshal_FailedMsg (Body msg) in
  match err with
  | Some _ => None
  | None =>
      let '(payload, err) := json_Unmarshal_genericMsg (Msg m) in
      match err with
      | Some _ => None
      | None => genericMsg_aid payload
      end
  end.

(** The envelope of a delivery, and the body [resubmit] sends for it: the
    embedded body, unquoted when it is a quoted string. *)
Definition envelope (msg : Delivery) : FailedMsg :=
  fst (json_Unmarshal_FailedMsg (Body msg)).

Definition resubmit_body (failed : FailedMsg) : string :=
  match strconv_Unquote (Msg failed) with
  | (s, None) => s
  | (_, Some _) => Msg failed
  end.

(** Every producer the Overseer holds sends to the queue it is filed
    under; the variables as the process starts with them. *)
Definition producers_ok (o : Overseer) : Prop :=
  forall k q, producers o !! k = Some q -> qh_Queue q = k.

Definition Overseer_init (c : Core) (dumpDir : string) : Overseer :=
  {| c := c; dumpDir := dumpDir; producers := ∅; failedMap := ∅ |}.

(** How many of [msgs] carry the analysis id [aid]. *)
Definition seen (aid : string) (msgs : list Delivery) : nat :=
  length (filter (fun m => delivery_aid m = Some aid) msgs).

(** The count the Overseer holds for an analysis. *)
Definition count (o : Overseer) (aid : string) : Z :=
  default 0 (failedMap o !! aid).

(** The two ways a delivery is disposed of, as a step from [w] to [w']:
    sent back to the queue of its envelope and acknowledged, the dump
    directory untouched; or written to one new file of the dump directory
    and acknowledged, nothing published. *)
Definition republished (msg : Delivery) (w w' : World) : Prop :=
  bus_events (events_since w w') =
    [EvPublish (Queue (envelope msg)) (resubmit_body (envelope msg));
     EvAck (DeliveryTag msg) false] /\
  w_fs w' = w_fs w.

Definition dumped (dir : string) (msg : Delivery) (w w' : World) : Prop :=
  bus_events (events_since w w') = [EvAck (DeliveryTag msg) false] /\
  exists name n,
    name = (dir +:+ "/" +:+ GoInt.Itoa (w_now w) +:+ "_") +:+ GoInt.Itoa n /\
    w_fs w !! name = None /\
    w_fs w' = <[name := Body msg]> (w_fs w).
End Overseer.

(** An entry of the listing of [ioutil.ReadDir]. *)
Record FileInfo : Type := {
fi_Name : string;
IsDir : bool;
}.

(** The loop of [resubmitDumped] over the listing of the dump directory:
  every entry that is no directory is opened (and so made, when it is not
  there), read, sent and removed. *)
Fixpoint resubmitDumped_loop (o : Overseer) (failed : QueueHandler)
  (files : list FileInfo) : M World unit :=
match files with
| [] => ret tt
| f :: files' =>
    if IsDir f then resubmitDumped_loop o failed files'
    else
      let fname := dumpDir o +:+ "/" +:+ fi_Name f in
      let* err := OpenFile_create fname in
      let* _ := FailOnError err "Couldn't open file!" in
      let* '(contents, err) := File_ReadAll fname in
      let* _ := FailOnError err "Couldn't read file!" in
      let* _ := Send failed contents in
      let* _ := Remove fname in
      resubmitDumped_loop o failed files'
end.

(** [resubmitDumped]: send the dumped bodies back to the failed queue.
  [files] is what [ioutil.ReadDir] lists (its error is dropped). *)
Definition resubmitDumped (o : Overseer) (queue : string) (files : list FileInfo)
: M World unit :=
let* failed := SetupQueue queue in
resubmitDumped_loop o failed files.

(** [testDumpDir]: write, read back and remove a test file. *)
Definition testDumpDir (o : Overseer) : M World unit :=
let fileName := dumpDir o +:+ "/__test" in
let fileContent := "testing is so much fun!" in
let* _ := Remove fileName in
let* err := OpenFile_create fileName in
let* _ := FailOnError err "Testing the dump dir failed! Couldn't create new file!" in
let* err := File_Write_over fileName fileContent in
let* _ := FailOnError err "Testing the dump dir failed! Couldn't write to the file!" in
let* err := OpenFile_create fileName in
let* _ := FailOnError err "Testing the dump dir failed! Couldn't write to the file!" in
let* '(contents, _) := File_ReadAll fileName in
let* _ := (if decide (contents <> fileContent)
           then FailOnError (Some "Testing the dump dir failed! Couldn't read from the file!") ""
           else ret tt) in
let* _ := Remove fileName in
ret tt.

(** The path [resubmitDumped] opens for an entry of the listing, and the
    entries it opens: those that are no directory. *)
Definition dump_path (o : Overseer) (f : FileInfo) : string :=
  dumpDir o +:+ "/" +:+ fi_Name f.

Definition regular (files : list FileInfo) : list FileInfo :=
  List.filter (fun f => negb (IsDir f)) files.

(** The queues declared in a trace. *)
Definition declared (tr : list event) : list string :=
  omap (fun e => match e with EvQueueDeclare q => Some q | _ => None end) tr.

End overseer.

(** ** check_results *)

Module check_results.

Record watchElem : Type := {
Req : FeedCuckooReq;
Msg : Delivery;
}.

(** The process-wide variables of the Watcher. *)
Record Watcher : Type := {
c : Core;
producer : QueueHandler;
wbr : Z;
watchMap : gmap string watchElem;
}.

Definition set_watchMap (wt : Watcher) (m : gmap string watchElem) : Watcher :=
{| c := c wt; producer := producer wt; wbr := wbr wt; watchMap := m |}.

(** [time.Sleep(time.Second * time.Duration(wbr))]: the duration is an
  [int64] of nanoseconds, and a duration that is not positive does not
  sleep.  The clock counts whole seconds. *)
Definition Sleep_seconds (n : Z) : M World unit :=
let waitDuration := GoInt.wrap (1000000000 * n) in
if 0 <? waitDuration then Sleep (waitDuration / 1000000000) else ret tt.

Section Watcher.
Context `{GoJson} `{GoCodecs}.

(** [parseMsg]: decode and validate the hand-over of the Feeder; what
    passes is put into the table under its analysis id.  The delivery is
    neither acked nor nacked here. *)
Definition parseMsg (wt : Watcher) (msg : Delivery) : M World Watcher :=
  let '(m, err) := json_Unmarshal_FeedCuckooReq (Body msg) in
  let* stop := NackOnError (c wt) err "Could not decode json!" msg in
  if stop : bool then ret wt else
  let* stop := NackOnError (c wt) (FeedCuckooReq_Validate m)
                 "Error in msg from feed_cuckoo service!" msg in
  if stop : bool then ret wt else
  let* cd := deref (fcr_CritsData m) in
  ret (set_watchMap wt (<[AnalysisId cd := {| Req := m; Msg := msg |}]> (watchMap wt))).

(** The body of the inner loop of [checkLoop], for the entry [v] under the
    key [k]; [http] answers the status request. *)
Definition check (wt : Watcher) (k : string) (v : watchElem) (http : HttpResult)
  : M World Watcher :=
  let* _ := Sleep_seconds (wbr wt) in
  let cuckoo := {| cko_URL := fcr_CuckooURL (Req v) |} in
  let* '(status, err) := TaskStatus cuckoo (fcr_TaskId (Req v)) http in
  let* stop := NackOnError (c wt) err "Couldn't get cuckoo status of task!" (Msg v) in
  if stop : bool then ret (set_watchMap wt (delete k (watchMap wt))) else
  if decide (status <> "reported") then ret wt else
  let '(crMsg, err) :=
    json_Marshal_CheckResultsReq
      {| crr_CuckooURL := fcr_CuckooURL (Req v);
         crr_TaskId := fcr_TaskId (Req v);
         crr_CritsData := fcr_CritsData (Req v) |} in
  let* stop := NackOnError (c wt) err "Could not create CheckResultsReq!" (Msg v) in
  if stop : bool then ret (set_watchMap wt (delete k (watchMap wt))) else
  let* _ := Send (producer wt) crMsg in
  let* err := Delivery_Ack (Msg v) false in
  let* _ := (match err with
             | Some e => log Warning ("Sending ACK failed! " +:+ e +:+ nl)
             | None => ret tt
             end) in
  ret (set_watchMap wt (delete k (watchMap wt))).

(** One pass of [checkLoop] over the table.  Go leaves the order of a
    [range] over a map open: [order] is the order in which the keys come,
    and a key that is no longer in the table is passed over.  [answers] are
    the answers to the status requests of the pass. *)
Fixpoint check_range (wt : Watcher) (order : list string) (answers : list HttpResult)
  : M World Watcher :=
  match order with
  | [] => ret wt
  | k :: order' =>
      match watchMap wt !! k with
      | None => check_range wt order' answers
      | Some v =>
          match answers with
          | [] => stalled
          | http :: answers' =>
              let* wt' := check wt k v http in
              check_range wt' order' answers'
          end
      end
  end.

Definition check_pass (wt : Watcher) (order : list string) (answers : list HttpResult)
  : M World Watcher :=
  let* _ := Sleep_seconds (wbr wt) in
  check_range wt order answers.

(** The consumer loop over the deliveries of the pending queue. *)
Fixpoint consume (wt : Watcher) (msgs : list Delivery) : M World Watcher :=
  match msgs with
  | [] => ret wt
  | m :: msgs' => let* wt' := parseMsg wt m in consume wt' msgs'
  end.

(** The hand-over a delivery carries when it passes the two checks, with
    its context. *)
Definition watched (msg : Delivery) : option (FeedCuckooReq * CritsData) :=
  let '(m, err) := json_Unmarshal_FeedCuckooReq (Body msg) in
  match err, FeedCuckooReq_Validate m with
  | None, None => pair m <$> fcr_CritsData m
  | _, _ => None
  end.

(** The status the Sandbox reports in an answer that [TaskStatus] takes. *)
Definition reported_status (http : HttpResult) : option string :=
  match http with
  | HttpResp code _ body =>
      match json_Unmarshal_CkoTasksViewResp body with
      | (r, None) => if decide (code = 200) then view_Status <$> Task r else None
      | (_, Some _) => None
      end
  | _ => None
  end.

(** What the Watcher hands to the Reporter for an entry. *)
Definition ready (v : watchElem) : CheckResultsReq :=
  {| crr_CuckooURL := fcr_CuckooURL (Req v);
     crr_TaskId := fcr_TaskId (Req v);
     crr_CritsData := fcr_CritsData (Req v) |}.

(** The deliveries settled in a trace (acked or nacked), by tag, in order. *)
Definition settled (tr : list event) : list N :=
  omap (fun e => match e with
                 | EvAck t _ | EvNack t _ _ => Some t
                 | _ => None
                 end) tr.

(** The table holds, under [k], a delivery with the tag [t]. *)
Definition tag_of (wt : Watcher) (k : string) (t : N) : Prop :=
  exists v, watchMap wt !! k = Some v /\ DeliveryTag (Msg v) = t.
End Watcher.

End check_results.

(** ** lib: the Repository client *)

Record CritsConn : Type := {
  crt_URL : string;
  crt_Data : CritsData;
}.

(** A result record; [Data] is the attribute map (nil or a reference). *)
Record CrtResult : Type := {
  Subtype : string;
  Result : string;
  Data : option loc;
}.

(** [Core.NewCrits]: the client for the Repository of a context. *)
Definition NewCrits {S} (Data : option CritsData) : M S CritsConn :=
  let* d := deref Data in
  ret {| crt_URL := CritsURL d; crt_Data := d |}.

(** [Core.FastPostForm]: as [FastGet], with a form posted. *)
Definition FastPostForm {T} (unmarshal : option (string -> T * option error))
    (zero : T) (url : string) (data : list (string * string)) (http : HttpResult)
  : M World (option string * Z * option error * T) :=
  let* _ := log Debug ("Posting from to " +:+ url +:+ nl) in
  let* _ := emit (EvRequest "POST" url data http) in
  match http with
  | HttpFail e => ret (None, 0, Some e, zero)
  | HttpReadFail _ _ e => ret (None, 0, Some e, zero)
  | HttpResp code _ respBody =>
      let '(r, err) := match unmarshal with
                       | Some f => f respBody
                       | None => (zero, None)
                       end in
      let* _ := log Debug ("Done posting form to " +:+ url +:+ nl) in
      ret (Some respBody, code, err, r)
  end.

(** The loop of [AddResults] over one attribute map: every value that is a
    bool is replaced, under its key, by its text. *)
Definition stringify_bools (m : attrs) : attrs :=
  map_fold (fun k v acc =>
              match v with
              | VBool maybeBool => <[k := VStr (FormatBool maybeBool)]> acc
              | _ => acc
              end) m m.

Section Crits.
Context `{GoJson}.

(** The verdict the calls share on a decoded answer. *)
Definition default_failed (status : Z) (r : CrtDefaultResponse) : Prop :=
  status <> 200 \/ ReturnCode r <> 0 \/ ErrorMsg r <> "".

(** The part of the form that names the analysis. *)
Definition context_fields (crt : CritsConn) : list (string * string) :=
  [("analysis_id", AnalysisId (crt_Data crt));
   ("object_type", ObjectType (crt_Data crt));
   ("object_id", ObjectId (crt_Data crt));
   ("username", Username (crt_Data crt));
   ("api_key", ApiKey (crt_Data crt))].

(** What [Log], [AddResults], [MarkAsRunning] and [MarkAsFinished] do with
    the outcome of [FastPostForm]. *)
Definition default_verdict
    (res : option string * Z * option error * CrtDefaultResponse)
  : option error :=
  let '(resp, status, err, r) := res in
  match err with
  | Some e => Some e
  | None =>
      if decide (default_failed status r)
      then Some (GoInt.Itoa status +:+ " - " +:+ default "" resp)
      else None
  end.

Definition Log (crt : CritsConn) (lvl msg : string) (http : HttpResult)
  : M World (option error) :=
  let data := [("log_level", lvl); ("log_message", msg)] ++ context_fields crt in
  let* res := FastPostForm (Some json_Unmarshal_CrtDefaultResponse)
                CrtDefaultResponse_zero (crt_URL crt) data http in
  ret (default_verdict res).

(** [NewSample]: upload a dropped file.  [http] answers the one request
    the call makes (the log line for an empty file, the upload otherwise). *)
Definition NewSample (crt : CritsConn) (fileData fileName : string)
    (http : HttpResult) : M World (string * option error) :=
  let* _ := log Debug ("Uploading " +:+ fileName +:+ " to crits ["
                         +:+ AnalysisId (crt_Data crt) +:+ "]" +:+ nl) in
  if decide (String.length fileData = 0%nat) then
    let* _ := Log crt "info" ("Empty dropped file: " +:+ fileName) http in
    ret ("", Some "empty file")
  else
    let payload : gmap string string :=
      <["file_format" := "raw"]>
        (<["upload_type" := "file"]>
           (<["source" := Source (crt_Data crt)]>
              (<["api_key" := ApiKey (crt_Data crt)]>
                 (<["username" := Username (crt_Data crt)]> ∅)))) in
    let* _ := emit (EvUpload (crt_URL crt +:+ "/api/v1/samples/")
                             fileName fileData payload http) in
    match http with
    | HttpFail e => ret ("", Some e)
    | HttpReadFail _ _ e => ret ("", Some e)
    | HttpResp _ _ respBody =>
        let '(r, err) := json_Unmarshal_CrtDefaultResponse respBody in
        match err with
        | Some e => ret ("", Some e)
        | None =>
            if decide (ReturnCode r <> 0 \/ ErrorMsg r <> "")
            then ret ("", Some respBody)
            else ret (Id r, None)
        end
    end.

(** [ForgeRelationship]: relate the object of the context to [id]. *)
Definition ForgeRelationship (crt : CritsConn) (id : string) (http : HttpResult)
  : M World (option error) :=
  let* _ := log Debug ("Forging relationship with " +:+ id +:+ " and ["
                         +:+ AnalysisId (crt_Data crt) +:+ "]" +:+ nl) in
  let data := [("action", "forge_relationship"); ("right_type", "Sample");
               ("right_id", id); ("rel_type", "Related To")] in
  let* _ := emit (EvRequest "PATCH"
                    (crt_URL crt +:+ "/api/v1/samples/"
                       +:+ ObjectId (crt_Data crt) +:+ "/") data http) in
  match http with
  | HttpFail e => ret (Some e)
  | HttpReadFail _ _ e => ret (Some e)
  | HttpResp _ _ respBody =>
      let '(r, err) := json_Unmarshal_CrtDefaultResponse respBody in
      match err with
      | Some e => ret (Some (e +:+ " : " +:+ respBody))
      | None =>
          if decide ((ReturnCode r <> 0 /\ Message r <> "Relationship already exists")
                     \/ ErrorMsg r <> "")
          then ret (Some respBody)
          else ret None
      end
  end.

(** The loop of [AddResults] over the batch.  It stops at the first map
    that cannot be encoded. *)
Fixpoint AddResults_loop (results : list CrtResult)
    (arrResult arrResultType arrResultSubtype : list string)
  : M heap (error + list string * list string * list string) :=
  match results with
  | [] => ret (inr (arrResult, arrResultType, arrResultSubtype))
  | r :: results' =>
      let* enc :=
        match Data r with
        | Some m =>
            let* _ := modify (fun h : heap => alter stringify_bools m h) in
            let* data := map_get m in
            ret (json_Marshal_attrs data)
        | None => ret ("{}", None)
        end in
      match enc with
      | (_, Some err) => ret (inl err)
      | (result_type, None) =>
          AddResults_loop results'
            (arrResult ++ [Result r])
            (arrResultType ++ [result_type])
            (arrResultSubtype ++ [Subtype r])
      end
  end.

(** The form [AddResults] posts for the three arrays. *)
Definition AddResults_form (crt : CritsConn)
    (arrResultJ arrResultSubtypeJ arrResultTypeJ : string)
  : list (string * string) :=
  [("result_is_batch", "true");
   ("result", arrResultJ);
   ("result_subtype", arrResultSubtypeJ);
   ("result_type", arrResultTypeJ)] ++ context_fields crt.

(** [AddResults]: send a batch of results; nothing is sent for an empty
    batch.  The elapsed time is left out of the log line. *)
Definition AddResults (crt : CritsConn) (results : list CrtResult)
    (http : HttpResult) : M World (option error) :=
  match results with
  | [] => ret None
  | _ =>
      let* arrs := lift_heap (AddResults_loop results [] [] []) in
      match arrs with
      | inl err => ret (Some err)
      | inr (arrResult, arrResultType, arrResultSubtype) =>
          match json_Marshal_strings arrResult with
          | (_, Some err) => ret (Some err)
          | (arrResultJ, None) =>
          match json_Marshal_strings arrResultType with
          | (_, Some err) => ret (Some err)
          | (arrResultTypeJ, None) =>
          match json_Marshal_strings arrResultSubtype with
          | (_, Some err) => ret (Some err)
          | (arrResultSubtypeJ, None) =>
              let data := AddResults_form crt arrResultJ arrResultSubtypeJ
                            arrResultTypeJ in
              let* res := FastPostForm (Some json_Unmarshal_CrtDefaultResponse)
                            CrtDefaultResponse_zero
                            (crt_URL crt +:+ "/api/v1/services/") data http in
              match default_verdict res with
              | Some e => ret (Some e)
              | None =>
                  let* _ := log Debug ("Added "
                              +:+ GoInt.Itoa (Z.of_nat (length results))
                              +:+ " results to ["
                              +:+ AnalysisId (crt_Data crt) +:+ "]" +:+ nl) in
                  ret None
              end
          end end end
      end
  end.

(** What the conversion makes of one value. *)
Definition stringify (v : value) : value :=
  match v with
  | VBool b => VStr (FormatBool b)
  | _ => v
  end.

(** [h] is [h0] with some of its maps converted. *)
Definition converted (h0 h : heap) : Prop :=
  Forall2 (fun m0 m : attrs => m = m0 \/ m = stringify <$> m0) h0 h.

(** The entry of the [result_type] array for a record, the maps being those
    of [h0] when [AddResults] is called: the text [{}] for a nil map, the
    encoding of the converted map otherwise. *)
Definition result_type_of (h0 : heap) (r : CrtResult) (result_type : string) : Prop :=
  match Data r with
  | None => result_type = "{}"
  | Some m =>
      json_Marshal_attrs (stringify <$> default ∅ (h0 !! m)) = (result_type, None)
  end.

(** The requests to the Repository in a trace. *)
Definition is_request (e : event) : bool :=
  match e with EvRequest _ _ _ _ => true | _ => false end.

Definition requests (tr : list event) : list event := List.filter is_request tr.

(** An encoder reported an error. *)
Definition encoder_failed : Prop :=
  (exists m s e, json_Marshal_attrs m = (s, Some e)) \/
  (exists l s e, json_Marshal_strings l = (s, Some e)).

Definition no_bool (m : attrs) : Prop :=
  forall k v, m !! k = Some v -> forall b, v <> VBool b.







End Crits.


(** ** encoding/json on a raw value

    [info.machine] is kept as a [json.RawMessage] and decoded twice by the
    Reporter.  The raw message of a decoded report is a JSON value, or empty
    when the field was absent.  The two decoders below follow the rules of
    [json.Unmarshal] for a string target and for a struct target with the one
    field [name]: null leaves the target as it is and is no error; a value of
    another kind is an [UnmarshalTypeError] and leaves the target; object
    keys match the field name whatever their letter case, later keys
    overwrite earlier ones, and a type error in one field does not stop the
    others from being decoded. *)

Local Unset Elimination Schemes.
Inductive json : Type :=
| JNull
| JBool (b : bool)
| JNumber (literal : string)
| JString (s : string)
| JArray (elements : list json)
| JObject (members : list (string * json)).
Local Set Elimination Schemes.

Module RawMessage.
Definition unexpected_end : error := "unexpected end of JSON input".
Definition type_error (kind target : string) : error :=
  "json: cannot unmarshal " +:+ kind +:+ " into Go value of type " +:+ target.

Definition kind (v : json) : string :=
  match v with
  | JNull => "null"
  | JBool _ => "bool"
  | JNumber _ => "number"
  | JString _ => "string"
  | JArray _ => "array"
  | JObject _ => "object"
  end.

(** [json.Unmarshal(raw, &s)] for [s] a string. *)
Definition Unmarshal_string (raw : option json) (target : string)
  : string * option error :=
  match raw with
  | None => (target, Some unexpected_end)
  | Some (JString s) => (s, None)
  | Some JNull => (target, None)
  | Some v => (target, Some (type_error (kind v) "string"))
  end.

Definition lower (a : Ascii.ascii) : Ascii.ascii :=
  let n := Ascii.nat_of_ascii a in
  if ((65 <=? n) && (n <=? 90))%nat then Ascii.ascii_of_nat (n + 32) else a.

Fixpoint fold_case (s : string) : string :=
  match s with
  | EmptyString => EmptyString
  | String a s' => String (lower a) (fold_case s')
  end.

(** Decoding the members of an object into the field [name]. *)
Fixpoint Unmarshal_name_members (members : list (string * json))
    (name : string) (saved : option error) : string * option error :=
  match members with
  | [] => (name, saved)
  | (key, v) :: members' =>
      if decide (fold_case key = "name") then
        match v with
        | JString s => Unmarshal_name_members members' s saved
        | JNull => Unmarshal_name_members members' name saved
        | _ =>
            Unmarshal_name_members members' name
              (match saved with
               | Some e => Some e
               | None => Some (type_error (kind v)
                                 "lib.CkoTasksReportInfoMachine.name of type string")
               end)
        end
      else Unmarshal_name_members members' name saved
  end.
End RawMessage.

(** ** lib: the report of a task *)

Record CkoTasksReportInfoMachine : Type := { machine_Name : string }.

Record CkoTasksReportInfo : Type := {
  Started : string;
  Ended : string;
  info_Id : Z;
  Machine : option json;
}.

Record CkoTasksReportSignature : Type := {
  Severity : Z;
  Description : string;
  sig_Name : string;
}.

Record CkoTasksReportBhvPcsCall : Type := {
  Category : string;
  Status : bool;
  Return : string;
  Timestamp : string;
  ThreadId : string;
  Repeated : Z;
  Api : string;
  Arguments : list (option CkoTasksReportBhvPcsCallArg);
  call_Id : Z;
}.

Record CkoTasksReportBhvPcs : Type := {
  pcs_Name : string;
  pcs_Id : Z;
  ParentId : Z;
  FirstSeen : string;
  Calls : list (option CkoTasksReportBhvPcsCall);
}.

Record CkoTasksReportBhvSummary : Type := {
  Files : option (list string);
  Keys : option (list string);
  Mutexes : option (list string);
}.

Record CkoTasksReportBehavior : Type := {
  Processes : option (list (option CkoTasksReportBhvPcs));
  Summary : option CkoTasksReportBhvSummary;
}.

(** [json.Unmarshal(raw, mStruct)] for the machine struct. *)
Definition Unmarshal_machine (raw : option json) (target : CkoTasksReportInfoMachine)
  : CkoTasksReportInfoMachine * option error :=
  match raw with
  | None => (target, Some RawMessage.unexpected_end)
  | Some JNull => (target, None)
  | Some (JObject members) =>
      let '(name, err) :=
        RawMessage.Unmarshal_name_members members (machine_Name target) None in
      ({| machine_Name := name |}, err)
  | Some v =>
      (target, Some (RawMessage.type_error (RawMessage.kind v)
                       "lib.CkoTasksReportInfoMachine"))
  end.

(** The report of a task, as far as the Reporter reads it. *)
Record CkoTasksReport : Type := {
  rep_Info : option CkoTasksReportInfo;
  rep_Signatures : option (list (option CkoTasksReportSignature));
  rep_Behavior : option CkoTasksReportBehavior;
}.

(** An entry of the archive of dropped files: the type flag and the name of
    its header, and what [ioutil.ReadAll] reads of it (its error is
    dropped). *)
Record TarEntry : Type := {
  Typeflag : Ascii.ascii;
  hdr_Name : string;
  entry_Data : string;
}.

Definition TypeReg : Ascii.ascii := Ascii.ascii_of_nat 48.
Definition TypeRegA : Ascii.ascii := Ascii.zero.

(** What the Reporter takes from libraries: the decoder of the report;
    the [bzip2] and [tar] readers, as the entries [untar.Next] hands over
    until the archive ends, with the error that ended it (nil for
    [io.EOF]); [filepath.Base]; the MD5 sum in hexadecimal. *)
Class GoReport : Type := {
  json_Unmarshal_CkoTasksReport : string -> CkoTasksReport * option error;
  untar_bzip2 : string -> list TarEntry * option error;
  filepath_Base : string -> string;
  md5_Sum_hex : string -> string;
}.

(** [TaskReport]: the report of a task, or nil and the error.  The elapsed
    time is left out of the log line. *)
Definition TaskReport `{GoReport} (cko : CuckooConn) (id : Z) (http : HttpResult)
  : M World (option CkoTasksReport * option error) :=
  let* '(resp, status, err, r) :=
    FastGet (Some json_Unmarshal_CkoTasksReport)
            {| rep_Info := None; rep_Signatures := None; rep_Behavior := None |}
            (cko_URL cko +:+ "/tasks/report/" +:+ GoInt.Itoa id) http in
  if decide (err <> None \/ status <> 200) then
    match resp with
    | Some body =>
        let* e := deref err in
        ret (None, Some (e +:+ " -> [" +:+ GoInt.Itoa status +:+ "] " +:+ body))
    | None => ret (None, err)
    end
  else
    let* _ := log Debug ("Downloaded report " +:+ GoInt.Itoa id
                           +:+ " from cuckoo" +:+ nl) in
    ret (Some r, None).

(** ** parse_and_submit *)

Module parse_and_submit.

(** The machine name [processReportInfo] settles on. *)
Definition machine_name (raw : option json) : string :=
let machineString := "" in
let '(machineString, err) := RawMessage.Unmarshal_string raw machineString in
let machineString :=
  if decide (err <> None \/ machineString = "") then "FAILED" else machineString in
let mStruct := {| machine_Name := "" |} in
let '(mStruct, err) := Unmarshal_machine raw mStruct in
if decide (err = None) then machine_Name mStruct else machineString.

(** [processReportInfo]: one [info] record. *)
Definition processReportInfo (i : option CkoTasksReportInfo) : M heap (list CrtResult) :=
match i with
| None => ret []
| Some i =>
    let machineString := machine_name (Machine i) in
    let* resMap := make_map in
    let* _ := map_set resMap "started" (VStr (Started i)) in
    let* _ := map_set resMap "ended" (VStr (Ended i)) in
    let* _ := map_set resMap "analysis_id" (VStr (GoInt.Itoa (info_Id i))) in
    ret [{| Subtype := "info"; Result := machineString; Data := Some resMap |}]
end.

(** The loop of [processReportSignatures]: [resMap] is the one map made
  before the loop; every record is given that map. *)
Fixpoint signatures_loop (resMap : loc) (sigs : list (option CkoTasksReportSignature))
: M heap (list CrtResult) :=
match sigs with
| [] => ret []
| sig :: sigs' =>
    let* sig := deref sig in
    let* _ := map_set resMap "severity" (VStr (GoInt.Itoa (Severity sig))) in
    let* _ := map_set resMap "name" (VStr (sig_Name sig)) in
    let r := {| Subtype := "signature";
                Result := Description sig;
                Data := Some resMap |} in
    let* res := signatures_loop resMap sigs' in
    ret (r :: res)
end.

(** [processReportSignatures]: one [signature] record per signature. *)
Definition processReportSignatures
  (sigs : option (list (option CkoTasksReportSignature))) : M heap (list CrtResult) :=
match sigs with
| None => ret []
| Some sigs =>
    let* resMap := make_map in
    signatures_loop resMap sigs
end.

Section Behavior.
(** The cap of the configuration file. *)
Variable pushApiCallsMax : Z.

(** The first loop of [processReportBehavior]: one [process] record per
    process, all of them given the map made before the loop. *)
Fixpoint processes_loop (resMap : loc) (ps : list (option CkoTasksReportBhvPcs))
  : M heap (list CrtResult) :=
  match ps with
  | [] => ret []
  | p :: ps' =>
      let* p := deref p in
      let* _ := map_set resMap "process_id" (VStr (GoInt.Itoa (pcs_Id p))) in
      let* _ := map_set resMap "parent_id" (VStr (GoInt.Itoa (ParentId p))) in
      let* _ := map_set resMap "first_seen" (VStr (FirstSeen p)) in
      let r := {| Subtype := "process"; Result := pcs_Name p; Data := Some resMap |} in
      let* res := processes_loop resMap ps' in
      ret (r :: res)
  end.

(** The attributes of an [api_call] record. *)
Definition call_attrs (procDescription : string) (c : CkoTasksReportBhvPcsCall)
  : attrs :=
  <["arguments" := VArgs (Arguments c)]>
    (<["process" := VStr procDescription]>
       (<["id" := VInt (call_Id c)]>
          (<["api" := VStr (Api c)]>
             (<["repeated" := VInt (Repeated c)]>
                (<["thread_id" := VStr (ThreadId c)]>
                   (<["timestamp" := VStr (Timestamp c)]>
                      (<["return" := VStr (Return c)]>
                         (<["status" := VBool (Status c)]>
                            (<["category" := VStr (Category c)]> ∅))))))))).

(** The inner loop over the calls of one process.  It leaves at the first
    call that finds the counter at the cap; each record has a map of its
    own.  The result is the records and the counter. *)
Fixpoint calls_loop (procDescription : string)
    (calls : list (option CkoTasksReportBhvPcsCall)) (pushCounter : Z)
  : M heap (list CrtResult * Z) :=
  match calls with
  | [] => ret ([], pushCounter)
  | c :: calls' =>
      if pushApiCallsMax <=? pushCounter then ret ([], pushCounter)
      else
        let* c := deref c in
        let* resMap := make_map in
        let* _ := modify (fun h : heap =>
                            <[resMap := call_attrs procDescription c]> h) in
        let r := {| Subtype := "api_call"; Result := Api c; Data := Some resMap |} in
        let* '(res, pushCounter') :=
          calls_loop procDescription calls' (GoInt.add pushCounter 1) in
        ret (r :: res, pushCounter')
  end.

Definition procDescription_of (p : CkoTasksReportBhvPcs) : string :=
  pcs_Name p +:+ " (" +:+ GoInt.Itoa (pcs_Id p) +:+ ")".

(** The second loop: the calls of every process, in turn. *)
Fixpoint api_calls_loop (ps : list (option CkoTasksReportBhvPcs)) (pushCounter : Z)
  : M heap (list CrtResult) :=
  match ps with
  | [] => ret []
  | p :: ps' =>
      let* p := deref p in
      let* '(res, pushCounter') :=
        calls_loop (procDescription_of p) (Calls p) pushCounter in
      let* res' := api_calls_loop ps' pushCounter' in
      ret (res ++ res')
  end.

Definition summary_records (subtype : string) (l : option (list string))
  : list CrtResult :=
  (fun b => {| Subtype := subtype; Result := b; Data := None |}) <$> default [] l.

(** [processReportBehavior]: processes, API calls up to the cap, and the
    files, registry keys and mutexes of the summary. *)
Definition processReportBehavior (behavior : option CkoTasksReportBehavior)
  : M heap (list CrtResult) :=
  match behavior with
  | None => ret []
  | Some behavior =>
      let* resMap := make_map in
      let* res1 := processes_loop resMap (default [] (Processes behavior)) in
      let* res2 := api_calls_loop (default [] (Processes behavior)) 0 in
      let* summary := deref (Summary behavior) in
      ret (res1 ++ res2
             ++ summary_records "file" (Files summary)
             ++ summary_records "registry_key" (Keys summary)
             ++ summary_records "mutex" (Mutexes summary))
  end.

(** An [api_call] record. *)
Definition is_api_call (r : CrtResult) : bool :=
  bool_decide (Subtype r = "api_call").

(** The calls of the processes, in the order of the two loops: process by
    process, call by call; each with the description of its process.  A nil
    call keeps its place. *)
Definition call_slots (ps : list CkoTasksReportBhvPcs)
  : list (option (string * CkoTasksReportBhvPcsCall)) :=
  List.flat_map
    (fun p => List.map (option_map (pair (procDescription_of p))) (Calls p)) ps.

(** [r] is the record of the call [pc], its attributes being those of the
    call in the heap [h]. *)
Definition is_call_record (h : heap) (r : CrtResult)
    (pc : string * CkoTasksReportBhvPcsCall) : Prop :=
  Subtype r = "api_call" /\ Result r = Api pc.2 /\
  exists m, Data r = Some m /\ h !! m = Some (call_attrs pc.1 pc.2).

(** No nil pointer in the section. *)
Definition well_formed (behavior : CkoTasksReportBehavior) : Prop :=
  Forall (fun p => exists p', p = Some p' /\ Forall is_Some (Calls p'))
         (default [] (Processes behavior)) /\
  is_Some (Summary behavior).
End Behavior.

(** The attributes the loop of [processReportSignatures] leaves in its map. *)
Definition signatures_attrs (sigs : list CkoTasksReportSignature) : attrs :=
  foldl (fun m sig =>
           <["name" := VStr (sig_Name sig)]>
             (<["severity" := VStr (GoInt.Itoa (Severity sig))]> m)) ∅ sigs.

(** The attributes the first loop of [processReportBehavior] leaves in its
    map. *)
Definition processes_attrs (ps : list CkoTasksReportBhvPcs) : attrs :=
  foldl (fun m p =>
           <["first_seen" := VStr (FirstSeen p)]>
             (<["parent_id" := VStr (GoInt.Itoa (ParentId p))]>
                (<["process_id" := VStr (GoInt.Itoa (pcs_Id p))]> m))) ∅ ps.

(** The attributes of a record, in a heap. *)
Definition attrs_of (h : heap) (r : CrtResult) : option attrs :=
  Data r ≫= (h !!.).

(** C4 as it is worded, for a list of signatures without a nil entry: one
    record per signature, in order, with the subtype, the description, and a
    map that holds the severity and the name of that signature. *)
Definition signature_records_claimed : Prop :=
  forall (sigs : list CkoTasksReportSignature) (h : heap),
  exists res h',
    processReportSignatures (Some (Some <$> sigs)) h = Ok res h' /\
    Forall2 (fun r sig =>
               Subtype r = "signature" /\ Result r = Description sig /\
               exists m, attrs_of h' r = Some m /\
                         m !! "severity" = Some (VStr (GoInt.Itoa (Severity sig))) /\
                         m !! "name" = Some (VStr (sig_Name sig)))
            res sigs.

(** C8 as it is worded. *)
Definition machine_name_claimed : Prop :=
  (forall s, machine_name (Some (JString s)) = s) /\
  (forall members name,
      RawMessage.Unmarshal_name_members members "" None = (name, None) ->
      machine_name (Some (JObject members)) = name) /\
  machine_name None = "FAILED" /\
  (forall raw,
      snd (RawMessage.Unmarshal_string raw "") <> None ->
      snd (Unmarshal_machine raw {| machine_Name := "" |}) <> None ->
      machine_name raw = "FAILED").

(** The worker itself ([package main]). *)
Module main.

(** The process-wide variables of the Reporter; [producer] is nil when no
  producer queue is configured. *)
Record Reporter : Type := {
c : Core;
producer : option QueueHandler;
cuckooCleanup : bool;
pushApiCallsMax : Z;
enabledParsers : gmap string bool;
}.

Section Reporter.
Context `{GoJson} `{GoCodecs} `{GoReport}.

(** The loop of [processDropped] over the entries of the archive.
    [answers] are, for each entry that is a regular file, the answer to the
    request of [NewSample] and the answer to the request of
    [ForgeRelationship].  The result is the records and the error; the loop
    is left without an error only at the end of the archive. *)
Fixpoint dropped_loop (crits : CritsConn) (entries : list TarEntry)
    (eof : option error) (answers : list (HttpResult * HttpResult))
    (results : list CrtResult) : M World (list CrtResult * option error) :=
  match entries with
  | [] => ret (results, eof)
  | hdr :: entries' =>
      if decide (Typeflag hdr <> TypeReg /\ Typeflag hdr <> TypeRegA)
      then dropped_loop crits entries' eof answers results
      else
        match answers with
        | [] => stalled
        | (sample, relate) :: answers' =>
            let name := filepath_Base (hdr_Name hdr) in
            let fileData := entry_Data hdr in
            let* '(id, err) := NewSample crits fileData name sample in
            let* _ := Sleep 1 in
            match err with
            | Some e =>
                if decide (e = "empty file")
                then dropped_loop crits entries' eof answers' results
                else ret (results, Some e)
            | None =>
                let* err := ForgeRelationship crits id relate in
                match err with
                | Some e => ret (results, Some e)
                | None =>
                    let* _ := Sleep 1 in
                    let* resMap := lift_heap make_map in
                    let* _ := lift_heap
                                (map_set resMap "md5" (VStr (md5_Sum_hex fileData))) in
                    dropped_loop crits entries' eof answers'
                      (results ++ [{| Subtype := "file_added"; Result := name;
                                      Data := Some resMap |}])
                end
            end
        end
  end.

(** [processDropped]: fetch the archive of the dropped files, upload every
    regular file to the Repository and relate it to the analysed object.
    The elapsed time is left out of the log line. *)
Definition processDropped (m : CheckResultsReq) (cuckoo : CuckooConn)
    (crits : CritsConn) (dropped : HttpResult)
    (answers : list (HttpResult * HttpResult))
  : M World (list CrtResult * option error) :=
  let* '(resp, err) := GetDropped cuckoo (crr_TaskId m) dropped in
  match err with
  | Some e => ret ([], Some e)
  | None =>
      let '(entries, eof) := untar_bzip2 resp in
      let* '(results, err) := dropped_loop crits entries eof answers [] in
      match err with
      | Some e => ret (results, Some e)
      | None =>
          let* cd := deref (crr_CritsData m) in
          let* _ := log Debug ("Uploaded "
                      +:+ GoInt.Itoa (Z.of_nat (length results))
                      +:+ " dropped files [" +:+ AnalysisId cd +:+ "]" +:+ nl) in
          ret (results, None)
      end
  end.

(** A parser is enabled when its name is a key of the map. *)
Definition isSet (rp : Reporter) (parser : string) : bool :=
  bool_decide (is_Some (enabledParsers rp !! parser)).

(** [reportToCrits]: load the report, shape it with the enabled parsers,
    send the batch, clean up, pass the message on, ack.  The answers are
    those to the requests for the report, for the archive, for the dropped
    files, for the batch and for the deletion.  The elapsed time is left
    out of the log line. *)
Definition reportToCrits (rp : Reporter) (m : CheckResultsReq) (msg : Delivery)
    (report_http dropped_http : HttpResult)
    (answers : list (HttpResult * HttpResult))
    (results_http delete_http : HttpResult) : M World unit :=
  let* _ := Sleep 5 in
  let* crits := NewCrits (crr_CritsData m) in
  let cuckoo := {| cko_URL := crr_CuckooURL m |} in
  let* '(report, err) := TaskReport cuckoo (crr_TaskId m) report_http in
  let* stop := NackOnError (c rp) err "Couldn't load report from cuckoo!" msg in
  if stop : bool then ret tt else
  let resStructs : list CrtResult := [] in
  let* resStructs :=
    (if isSet rp "info"
     then let* report := deref report in
          lift_heap (processReportInfo (rep_Info report))
     else ret resStructs) in
  let* resStructs :=
    (if isSet rp "signatures"
     then let* report := deref report in
          let* res := lift_heap (processReportSignatures (rep_Signatures report)) in
          ret (resStructs ++ res)
     else ret resStructs) in
  let* resStructs :=
    (if isSet rp "behavior"
     then let* report := deref report in
          let* res := lift_heap (processReportBehavior (pushApiCallsMax rp)
                                   (rep_Behavior report)) in
          ret (resStructs ++ res)
     else ret resStructs) in
  let* resStructs :=
    (if isSet rp "dropped"
     then let* '(dResStructs, err) :=
            processDropped m cuckoo crits dropped_http answers in
          let* _ := (match err with
                     | Some e =>
                         log Warning ("processDropped () exited with " +:+ e
                                        +:+ " after dropping "
                                        +:+ GoInt.Itoa (Z.of_nat (length dResStructs))
                                        +:+ nl)
                     | None => ret tt
                     end) in
          ret (resStructs ++ dResStructs)
     else ret resStructs) in
  let* err := AddResults crits resStructs results_http in
  let* stop := NackOnError (c rp) err "Adding results to crits failed!" msg in
  if stop : bool then ret tt else
  let* _ := (if cuckooCleanup rp
             then let* err := DeleteTask cuckoo (crr_TaskId m) delete_http in
                  match err with
                  | Some e => log Warning ("Cleaning cuckoo up failed " +:+ e +:+ nl)
                  | None => ret tt
                  end
             else ret tt) in
  let* _ := (match producer rp with
             | Some q => Send q (Body msg)
             | None => ret tt
             end) in
  let* cd := deref (crr_CritsData m) in
  let* _ := log Info ("Finished object " +:+ ObjectId cd +:+ " [cuckoo: "
                        +:+ GoInt.Itoa (crr_TaskId m) +:+ "]" +:+ nl) in
  let* err := Delivery_Ack msg false in
  match err with
  | Some e => log Warning ("Sending ACK failed! " +:+ e +:+ nl)
  | None => ret tt
  end.

(** [parseMsg]: decode and validate the hand-over of the Watcher; what
    passes goes to [reportToCrits].  The handler that the source starts
    with [go] is run to its end. *)
Definition parseMsg (rp : Reporter) (msg : Delivery)
    (report_http dropped_http : HttpResult)
    (answers : list (HttpResult * HttpResult))
    (results_http delete_http : HttpResult) : M World unit :=
  let '(m, err) := json_Unmarshal_CheckResultsReq (Body msg) in
  let* stop := NackOnError (c rp) err "Could not decode json!" msg in
  if stop : bool then ret tt else
  let* stop := NackOnError (c rp) (CheckResultsReq_Validate m)
                 "Error in msg from check_results service!" msg in
  if stop : bool then ret tt else
  reportToCrits rp m msg report_http dropped_http answers results_http delete_http.

(** An entry [processDropped] uploads: a regular file. *)
Definition is_regular (hdr : TarEntry) : bool :=
  bool_decide (~ (Typeflag hdr <> TypeReg /\ Typeflag hdr <> TypeRegA)).

(** [r] is the record of the dropped file [hdr], its attributes being those
    in the heap [h]: the MD5 sum of the file and nothing else. *)
Definition is_dropped_record (h : heap) (r : CrtResult) (hdr : TarEntry) : Prop :=
  Subtype r = "file_added" /\ Result r = filepath_Base (hdr_Name hdr) /\
  exists m, Data r = Some m /\
            h !! m = Some {["md5" := VStr (md5_Sum_hex (entry_Data hdr))]}.

(** The entries of an archive that can give a record: the regular files
    that are not empty. *)
Definition droppable (entries : list TarEntry) : list TarEntry :=
  List.filter (fun hdr => is_regular hdr
                          && negb (bool_decide (String.length (entry_Data hdr) = 0%nat)))
              entries.

(** The entries of the archive an answer carries. *)
Definition archive (dropped : HttpResult) : list TarEntry :=
  match dropped with
  | HttpResp _ _ body => fst (untar_bzip2 body)
  | _ => []
  end.

(** The answer lets [GetDropped] come back: no answer at all, or the status
    code 200. *)
Definition fetched (dropped : HttpResult) : Prop :=
  match dropped with
  | HttpResp code _ _ => code = 200
  | _ => True
  end.

(** The URLs of the GET requests in a trace. *)
Definition gets (tr : list event) : list string :=
  omap (fun e => match e with EvGet url _ => Some url | _ => None end) tr.

(** The hand-over a delivery carries when it passes the two checks. *)
Definition accepted (msg : Delivery) : option CheckResultsReq :=
  let '(m, err) := json_Unmarshal_CheckResultsReq (Body msg) in
  match err, CheckResultsReq_Validate m with
  | None, None => Some m
  | _, _ => None
  end.
End Reporter.

End main.

End parse_and_submit.

(** ** A concrete codec

    An instance of the two interfaces, to run the workers on sample inputs.
    It writes a record as its fields between bars and reads nothing back. *)

Definition bar (fields : list string) : string :=
  foldr (fun f acc => "|" +:+ f +:+ acc) "|" fields.

Definition sample_json : GoJson :=
  {| json_Marshal_FailedMsg fm :=
       (bar [Service fm; Queue fm; Error fm; Desc fm; Msg fm], None);
     json_Unmarshal_FailedMsg body :=
       ({| Service := "feed_cuckoo"; Queue := "submit"; Error := "";
           Desc := ""; Msg := body |}, None);
     json_Unmarshal_genericMsg body :=
       ({| gm_CritsData := None;
           gm_CritsDataJ :=
             Some {| CritsURL := ""; AnalysisId := body; ObjectType := "";
                     ObjectId := ""; Username := ""; ApiKey := ""; MD5 := "";
                     Source := "" |} |}, None);
     json_Marshal_FeedCuckooReq r :=
       (bar [GoInt.Itoa (fcr_TaskId r); fcr_CuckooURL r], None);
     json_Unmarshal_CrtDefaultResponse body :=
       ({| ReturnCode := if decide (body = "ok") then 0 else 1;
           ErrorMsg := ""; Message := body; Id := "id"; Type_ := "" |}, None);
     json_Unmarshal_CkoStatus body :=
       ({| Tasks := Some {| Running := 0; Pending := Z.of_nat (String.length body) |};
           Diskspace :=
             Some {| Analyses :=
                       Some {| Total := 0; Free := 2 ^ 40; Used := 0 |} |} |},
        None);
     json_Unmarshal_CkoTasksCreateResp body := (Z.of_nat (String.length body), None);
     json_Marshal_attrs m := (bar (fst <$> map_to_list m), None);
     json_Marshal_strings l := (bar l, None) |}.

Definition sample_strconv : GoStrconv :=
  {| strconv_Unquote s := ("", Some "invalid syntax") |}.

(** Sample inputs. *)

Definition sample_core : Core :=
  {| ServiceName := "feed_cuckoo"; failed := {| qh_Queue := "failed" |} |}.

Definition sample_delivery : Delivery :=
  {| DeliveryTag := 7; RoutingKey := "submit"; Body := "a1" |}.

Definition sample_crits : CritsConn :=
  {| crt_URL := "https://crits";
     crt_Data := {| CritsURL := "https://crits"; AnalysisId := "a1";
                    ObjectType := "Sample"; ObjectId := "o1";
                    Username := "u"; ApiKey := "k"; MD5 := ""; Source := "s" |} |}.

Definition sample_feeder : feed_cuckoo.Feeder :=
  {| feed_cuckoo.c := sample_core; feed_cuckoo.cuckoo := {| cko_URL := "http://cuckoo:8090" |};
     feed_cuckoo.producer := {| qh_Queue := "pending" |};
     feed_cuckoo.checkFreeSpace := true;
     feed_cuckoo.maxPending := 2 |}.

Definition sample_request : DistributedCuckooReq :=
  {| Payload := {["timeout" := "60"]};
     File := Some {["name" := "a.exe"; "data" := "TVo="]};
     dcr_CritsData := Some (crt_Data sample_crits) |}.

Definition sample_call : CkoTasksReportBhvPcsCall :=
  {| Category := "file"; Status := true; Return := "0x0"; Timestamp := "t0";
     ThreadId := "1"; Repeated := 0; Api := "NtCreateFile"; Arguments := [];
     call_Id := 0 |}.

Definition sample_behavior : CkoTasksReportBehavior :=
  {| Processes :=
       Some [Some {| pcs_Name := "a.exe"; pcs_Id := 4; ParentId := 1;
                     FirstSeen := "t0";
                     Calls := [Some sample_call; Some sample_call] |}];
     Summary := Some {| Files := Some ["C:\\a"]; Keys := None; Mutexes := None |} |}.

Definition sample_batch_world : World :=
  {| w_events := []; w_faults := []; w_now := 0; w_fs := ∅;
     w_heap := [{["status" := VBool true; "api" := VStr "NtCreateFile"]}] |}.

Definition sample_batch : list CrtResult :=
  [{| Subtype := "api_call"; Result := "NtCreateFile"; Data := Some 0%nat |};
   {| Subtype := "file"; Result := "C:\\a"; Data := None |}].

(** More instances and inputs, for the other workers.  The decoders of the
    messages read nothing back either: they make a message out of the length
    of the body. *)

Definition sample_codecs : GoCodecs :=
  {| json_Unmarshal_DistributedCuckooReq body :=
       ({| Payload := ∅;
           File := Some {["name" := "a.exe"; "data" := body]};
           dcr_CritsData := Some (crt_Data sample_crits) |}, None);
     json_Unmarshal_FeedCuckooReq body :=
       ({| fcr_TaskId := Z.of_nat (String.length body);
           fcr_CuckooURL := "http://cuckoo:8090";
           fcr_CritsData := Some (crt_Data sample_crits) |}, None);
     json_Marshal_CheckResultsReq r :=
       (bar [crr_CuckooURL r; GoInt.Itoa (crr_TaskId r)], None);
     json_Unmarshal_CheckResultsReq body :=
       ({| crr_CuckooURL := "http://cuckoo:8090";
           crr_TaskId := Z.of_nat (String.length body);
           crr_CritsData := Some (crt_Data sample_crits) |}, None);
     json_Unmarshal_CkoTasksViewResp body :=
       ({| Task := Some {| view_Status := body |} |}, None);
     base64_DecodeString s := (s, None) |}.

Definition sample_report : GoReport :=
  {| json_Unmarshal_CkoTasksReport body :=
       ({| rep_Info := None; rep_Signatures := None;
           rep_Behavior := Some sample_behavior |}, None);
     untar_bzip2 body :=
       ([{| Typeflag := Ascii.ascii_of_nat 53; hdr_Name := "files";
            entry_Data := "" |};
         {| Typeflag := TypeReg; hdr_Name := "dropped.exe"; entry_Data := body |}],
        None);
     filepath_Base name := name;
     md5_Sum_hex data := bar [data] |}.

(** A decoder that takes no body for an envelope. *)
Definition sample_json_strict : GoJson :=
  {| json_Marshal_FailedMsg := @json_Marshal_FailedMsg sample_json;
     json_Unmarshal_FailedMsg body :=
       ({| Service := ""; Queue := ""; Error := ""; Desc := ""; Msg := "" |},
        Some "unexpected end of JSON input");
     json_Unmarshal_genericMsg := @json_Unmarshal_genericMsg sample_json;
     json_Marshal_FeedCuckooReq := @json_Marshal_FeedCuckooReq sample_json;
     json_Unmarshal_CrtDefaultResponse := @json_Unmarshal_CrtDefaultResponse sample_json;
     json_Unmarshal_CkoStatus := @json_Unmarshal_CkoStatus sample_json;
     json_Unmarshal_CkoTasksCreateResp := @json_Unmarshal_CkoTasksCreateResp sample_json;
     json_Marshal_attrs := @json_Marshal_attrs sample_json;
     json_Marshal_strings := @json_Marshal_strings sample_json |}.

Definition sample_cuckoo : CuckooConn := {| cko_URL := "http://cuckoo:8090" |}.

Definition sample_handover : FeedCuckooReq :=
  {| fcr_TaskId := 2; fcr_CuckooURL := "http://cuckoo:8090";
     fcr_CritsData := Some (crt_Data sample_crits) |}.

Definition sample_elem : check_results.watchElem :=
  {| check_results.Req := sample_handover; check_results.Msg := sample_delivery |}.

Definition sample_watcher : check_results.Watcher :=
  {| check_results.c := sample_core;
     check_results.producer := {| qh_Queue := "ready" |};
     check_results.wbr := 5;
     check_results.watchMap := {["a1" := sample_elem]} |}.

Definition sample_overseer : overseer.Overseer :=
  overseer.Overseer_init sample_core "/var/dump".

Definition sample_ready : CheckResultsReq :=
  {| crr_CuckooURL := "http://cuckoo:8090"; crr_TaskId := 2;
     crr_CritsData := Some (crt_Data sample_crits) |}.

Definition sample_reporter : parse_and_submit.main.Reporter :=
  {| parse_and_submit.main.c := sample_core;
     parse_and_submit.main.producer := Some {| qh_Queue := "done" |};
     parse_and_submit.main.cuckooCleanup := true;
     parse_and_submit.main.pushApiCallsMax := 1;
     parse_and_submit.main.enabledParsers := {["behavior" := true; "dropped" := true]} |}.

Definition sample_reporter_off : parse_and_submit.main.Reporter :=
  {| parse_and_submit.main.c := sample_core;
     parse_and_submit.main.producer := Some {| qh_Queue := "done" |};
     parse_and_submit.main.cuckooCleanup := true;
     parse_and_submit.main.pushApiCallsMax := 1;
     parse_and_submit.main.enabledParsers := ∅ |}.

(** [m] adds events to the trace, all of them satisfying [phi]. *)
Definition emits_only {A} (phi : event -> Prop) (m : M World A) : Prop :=
  forall w, exists new,
    w_events (final (m w)) = w_events w ++ new /\ Forall phi new.

(** [m] does nothing on the broker and takes no fault from the script. *)
Definition calm {A} (m : M World A) : Prop :=
  forall w, exists new,
    w_events (final (m w)) = w_events w ++ new /\
    bus_events new = [] /\
    w_faults (final (m w)) = w_faults w.

(** [w'] comes after [w] by steps that do nothing on the broker and take no
    fault. *)
Definition calm_from (w w' : World) : Prop :=
  exists new,
    w_events w' = w_events w ++ new /\
    bus_events new = [] /\
    w_faults w' = w_faults w.

(** A line of the log or an operation on the broker. *)
Definition log_or_bus (e : event) : Prop :=
  is_bus e = true \/ exists l t, e = EvLog l t.

(** * Properties *)

Lemma wrap_small z : GoInt.min_int <= z <= GoInt.max_int -> GoInt.wrap z = z.
Proof.
  unfold GoInt.wrap, GoInt.min_int, GoInt.max_int. intros Hz.
  rewrite Z.mod_small; lia.
Qed.

(** ** The monad *)

(** Running a computation: unfold the operations of the monad and of the
    world, then compute. *)
Create HintDb run.
#[local] Hint Unfold bind ret panic stalled get put modify deref : run.
#[local] Hint Unfold emit fault log Sleep Now_Unix lift_heap set_file : run.
#[local] Hint Unfold Channel_Publish Channel_QueueDeclare Delivery_Ack
  Delivery_Nack OpenFile_create File_Write FailOnError Send SetupQueue : run.
#[local] Arguments String.append : simpl never.
#[local] Arguments String.length : simpl never.
#[local] Arguments String.substring : simpl never.
#[local] Arguments Dispatched : simpl never.

Ltac run := autounfold with run; cbn.

(** The events of a run that starts in [w], cut out of the final trace. *)
Ltac since :=
  unfold events_since; cbn;
  rewrite <- ?app_assoc, drop_app_length; cbn.

(** ** C1: the nack-on-error contract *)

Section NackOnError.
Context `{GoJson}.

(** When the broker refuses the envelope, [Send] panics: the delivery is
    left without a nack. *)
Lemma NackOnError_publish_refused (c : Core) (e desc : string) (msg : Delivery)
    (w : World) (pe : error) :
  mjoin (head (w_faults w)) = Some pe ->
  exists text w',
    NackOnError c (Some e) desc msg w = Panic text w' /\
    bus_events (events_since w w') =
      [EvPublish (qh_Queue (failed c))
         (fst (json_Marshal_FailedMsg
                 {| Service := ServiceName c; Queue := RoutingKey msg;
                    Error := e; Desc := desc; Msg := Body msg |}))].
Proof.
  intros Hf. unfold NackOnError.
  destruct (json_Marshal_FailedMsg _) as [jm [me|]];
    run; rewrite Hf; cbn; eexists _, _; (split; [reflexivity|]);
    since; reflexivity.
Qed.

(** C1.  With a non-nil error, and the broker taking the envelope,
    [NackOnError] publishes to the failed queue the encoding of the
    [FailedMsg] made of the service name, the routing key of the delivery,
    the error text, the description and the body of the delivery; it then
    nacks the delivery with [requeue = false] and returns [true].  These are
    its only actions on the broker.  With a nil error it returns [false] and
    leaves the world as it is: no publish, no ack, no nack. *)
Theorem NackOnError_contract (c : Core) (desc : string) (msg : Delivery) (w : World) :
  (forall e : error,
      mjoin (head (w_faults w)) = None ->
      exists w',
        NackOnError c (Some e) desc msg w = Ok true w' /\
        bus_events (events_since w w') =
          [EvPublish (qh_Queue (failed c))
             (fst (json_Marshal_FailedMsg
                     {| Service := ServiceName c; Queue := RoutingKey msg;
                        Error := e; Desc := desc; Msg := Body msg |}));
           EvNack (DeliveryTag msg) false false]) /\
  NackOnError c None desc msg w = Ok false w.
Proof.
  split; [|reflexivity].
  intros e Hf. unfold NackOnError.
  destruct (json_Marshal_FailedMsg _) as [jm [me|]];
    run; rewrite Hf; cbn;
    destruct (mjoin (head (tail (w_faults w)))); cbn;
    eexists; (split; [reflexivity|]);
    since; reflexivity.
Qed.
End NackOnError.

(** ** Traces *)

Lemma emits_only_ret {A} phi (a : A) : emits_only phi (ret a).
Proof. intros w. exists []. by rewrite app_nil_r. Qed.

Lemma emits_only_panic {A} phi msg : emits_only phi (@panic World A msg).
Proof. intros w. exists []. by rewrite app_nil_r. Qed.

Lemma emits_only_emit phi e : phi e -> emits_only phi (emit e).
Proof. intros He w. exists [e]. split; [done|]. by constructor. Qed.

Lemma emits_only_fault phi : emits_only phi fault.
Proof. intros w. exists []. by rewrite app_nil_r. Qed.

Lemma emits_only_bind {A B} phi (m : M World A) (k : A -> M World B) :
  emits_only phi m -> (forall a, emits_only phi (k a)) -> emits_only phi (bind m k).
Proof.
  intros Hm Hk w. destruct (Hm w) as (n1 & E1 & F1). unfold bind.
  destruct (m w) as [a w1|msg w1|w1]; cbn in *.
  - destruct (Hk a w1) as (n2 & E2 & F2). exists (n1 ++ n2).
    rewrite E2, E1, app_assoc. split; [done|]. by apply Forall_app.
  - by exists n1.
  - by exists n1.
Qed.

Lemma emits_only_modify_quiet phi (g : World -> World) :
  (forall w, w_events (g w) = w_events w) -> emits_only phi (modify g).
Proof. intros Hg w. exists []. cbn. by rewrite Hg, app_nil_r. Qed.

Ltac emits_step :=
  match goal with
  | |- emits_only _ (bind _ _) => apply emits_only_bind; [|intros ?]
  | |- emits_only _ (ret _) => apply emits_only_ret
  | |- emits_only _ (panic _) => apply emits_only_panic
  | |- emits_only _ fault => apply emits_only_fault
  | |- emits_only _ (emit _) => apply emits_only_emit; try done
  | |- emits_only _ (modify _) => apply emits_only_modify_quiet; done
  | |- emits_only _ (match ?x with _ => _ end) => destruct x
  | |- emits_only _ (if ?x then _ else _) => destruct x
  | |- emits_only _ (let '(_, _) := ?x in _) => destruct x
  end.

Ltac emits := repeat emits_step.

Section TraceLemmas.
Context `{GoJson}.
Variable phi : event -> Prop.
Hypothesis phi_log : forall l t, phi (EvLog l t).
Hypothesis phi_bus : forall e, is_bus e = true -> phi e.
Hypothesis phi_sleep : forall n, phi (EvSleep n).

Lemma emits_only_log l t : emits_only phi (log l t).
Proof. unfold log. emits. Qed.

Lemma emits_only_FailOnError err msg : emits_only phi (FailOnError err msg).
Proof. unfold FailOnError, log. emits. Qed.

Lemma emits_only_Send q msg : emits_only phi (Send q msg).
Proof.
  unfold Send, Channel_Publish, log.
  emits; auto using emits_only_FailOnError.
Qed.

Lemma emits_only_Ack msg b : emits_only phi (Delivery_Ack msg b).
Proof. unfold Delivery_Ack. emits; auto. Qed.

Lemma emits_only_Nack msg b b' : emits_only phi (Delivery_Nack msg b b').
Proof. unfold Delivery_Nack. emits; auto. Qed.

Lemma emits_only_Sleep n : emits_only phi (Sleep n).
Proof. unfold Sleep. emits. Qed.

Lemma emits_only_NackOnError c err desc msg :
  emits_only phi (NackOnError c err desc msg).
Proof.
  unfold NackOnError.
  emits; auto using emits_only_log, emits_only_Send, emits_only_Nack.
Qed.
End TraceLemmas.

(** ** The Feeder *)

Section FeederProps.
Context `{GoJson}.
Import feed_cuckoo.

Lemma uploads_allowed_app f last l1 l2 :
  uploads_allowed f last (l1 ++ l2) =
  uploads_allowed f last l1 && uploads_allowed f (last_polled last l1) l2.
Proof.
  revert last. induction l1 as [|e l1 IH]; intros last; [done|].
  destruct e; cbn; rewrite ?IH; try done.
  destruct last; [|done]. by rewrite andb_assoc.
Qed.

Lemma uploads_allowed_quiet f last tr :
  Forall (fun e => is_upload e = false) tr -> uploads_allowed f last tr = true.
Proof.
  intros Hq. revert last. induction Hq as [|e tr He _ IH]; intros last; [done|].
  destruct e; cbn; auto; discriminate.
Qed.

Lemma last_polled_app last l1 l2 :
  last_polled last (l1 ++ l2) = last_polled (last_polled last l1) l2.
Proof.
  revert last. induction l1 as [|e l1 IH]; intros last; [done|].
  destruct e; cbn; auto.
Qed.

Lemma last_polled_quiet last tr :
  Forall (fun e => is_poll e = false) tr -> last_polled last tr = last.
Proof.
  intros Hq. induction Hq as [|e tr He _ IH]; [done|].
  destruct e; cbn; auto; discriminate.
Qed.

(** [GetStatus] hands over the polled record, with an error exactly when the
    record is nil; or it panics on the nil error of an answer whose status is
    not 200. *)
Lemma GetStatus_run (cko : CuckooConn) (http : HttpResult) (w : World) :
  w_events (final (GetStatus cko http w)) = w_events w ++ GetStatus_events cko http /\
  ((exists err w', GetStatus cko http w = Ok (polled http, err) w' /\
                   (polled http = None <-> err <> None)) \/
   (polled http = None /\ exists w', GetStatus cko http w = Panic nil_deref w')).
Proof.
  unfold GetStatus, FastGet, GetStatus_events, polled.
  destruct http as [e|code st e|code st body]; run.
  - case_decide as Hd; [|destruct Hd; by left]. cbn.
    rewrite <- app_assoc. split; [done|]. left. eexists _, _. split; [done|].
    split; [discriminate|done].
  - case_decide as Hd; [|destruct Hd; by left]. cbn.
    rewrite <- app_assoc. split; [done|]. left. eexists _, _. split; [done|].
    split; [discriminate|done].
  - destruct (json_Unmarshal_CkoStatus body) as [r [e|]]; run;
      case_decide as Hd; run; rewrite <- !app_assoc; (split; [done|]).
    + left. eexists _, _. split; [done|]. split; [discriminate|done].
    + destruct Hd. by left.
    + right. split; [done|]. by eexists.
    + left. eexists _, _. split; [done|]. split; [discriminate|]. by intros [].
Qed.

Lemma slowdown_loop_eq f cStatus polls :
  slowdown_loop f cStatus polls =
  (let* busy := slowdown_cond f cStatus in
   if busy : bool then
     let* st := deref cStatus in
     let* tasks := deref (Tasks st) in
     let* diskspace := deref (Diskspace st) in
     let* analyses := deref (Analyses diskspace) in
     let* _ := log Info (slowdown_text (Pending tasks) (Free analyses)) in
     let* _ := Sleep 30 in
     match polls with
     | [] => stalled
     | http :: polls' =>
         let* '(cStatus', _) := GetStatus (cuckoo f) http in
         slowdown_loop f cStatus' polls'
     end
   else ret tt).
Proof. by destruct polls. Qed.

(** A nil record: the condition of the loop dereferences it. *)
Lemma slowdown_loop_nil f polls w :
  slowdown_loop f None polls w = Panic nil_deref w.
Proof. by rewrite slowdown_loop_eq. Qed.

(** Both conditions pass: the loop is left at once. *)
Lemma slowdown_loop_pass f st polls w :
  passes f st = true -> slowdown_loop f (Some st) polls w = Ok tt w.
Proof.
  rewrite slowdown_loop_eq. unfold passes, slowdown_cond.
  destruct st as [[tasks|] diskspace]; [|done]. run.
  intros [Hp Hfree]%andb_prop. apply Z.ltb_lt in Hp.
  destruct (Z.leb_spec (maxPending f) (Pending tasks)); [lia|].
  destruct (checkFreeSpace f); [|done].
  destruct diskspace as [[[analyses|]]|]; try done. cbn in *.
  apply Z.ltb_lt in Hfree.
  by destruct (Z.leb_spec (Free analyses) (256 * 1024 * 1024)); [lia|].
Qed.

(** A condition holds on a populated record: log, sleep, poll again. *)
Lemma slowdown_loop_busy f st tasks diskspace analyses polls w :
  Tasks st = Some tasks -> Diskspace st = Some diskspace ->
  Analyses diskspace = Some analyses ->
  passes f st = false ->
  slowdown_loop f (Some st) polls w =
  (let* _ := log Info (slowdown_text (Pending tasks) (Free analyses)) in
   let* _ := Sleep 30 in
   match polls with
   | [] => stalled
   | http :: polls' =>
       let* '(cStatus', _) := GetStatus (cuckoo f) http in
       slowdown_loop f cStatus' polls'
   end) w.
Proof.
  intros Ht Hd Ha. rewrite slowdown_loop_eq. unfold passes, slowdown_cond.
  destruct st as [t d], diskspace as [a]. cbn in *. subst. run.
  destruct (Z.leb_spec (maxPending f) (Pending tasks)) as [Hle|Hlt]; cbn.
  - done.
  - destruct (Z.ltb_spec (Pending tasks) (maxPending f)); [|lia]. cbn.
    destruct (checkFreeSpace f); [|done]. cbn.
    destruct (Z.leb_spec (Free analyses) (256 * 1024 * 1024)); cbn; [done|].
    destruct (Z.ltb_spec (256 * 1024 * 1024) (Free analyses)); [done|lia].
Qed.

(** A condition holds (or cannot be evaluated) on a record that lacks a
    part: the loop panics before it logs. *)
Lemma slowdown_loop_unpopulated f st polls w :
  passes f st = false -> ~ populated st ->
  slowdown_loop f (Some st) polls w = Panic nil_deref w.
Proof.
  intros Hp Hn. rewrite slowdown_loop_eq. unfold slowdown_cond.
  destruct st as [[tasks|] diskspace]; [|done]. run.
  destruct (Z.leb_spec (maxPending f) (Pending tasks)); cbn.
  - destruct diskspace as [[[analyses|]]|]; try done.
    destruct Hn. split; cbn; eauto.
  - destruct (checkFreeSpace f) eqn:Hc.
    + destruct diskspace as [[[analyses|]]|]; try done.
      destruct Hn. split; cbn; eauto.
    + unfold passes in Hp. cbn in Hp. rewrite Hc in Hp.
      destruct (Z.ltb_spec (Pending tasks) (maxPending f)); [done|lia].
Qed.

Lemma populated_dec st : populated st \/ ~ populated st.
Proof.
  unfold populated. destruct (Tasks st), (Diskspace st ≫= Analyses); cbn;
    first [left; by eauto | right; intros [[] []]; discriminate].
Qed.

Lemma GetStatus_events_quiet cko http :
  Forall (fun e => is_upload e = false) (GetStatus_events cko http).
Proof. unfold GetStatus_events. destruct http; repeat constructor. Qed.

Lemma GetStatus_events_polled last cko http :
  last_polled last (GetStatus_events cko http) = polled http.
Proof. unfold GetStatus_events. by destruct http. Qed.

Lemma GetStatus_events_failed cko http :
  Exists failed_poll (GetStatus_events cko http) -> polled http = None.
Proof.
  unfold GetStatus_events.
  intros [e [He (url & http' & -> & Hp)]]%Exists_exists.
  apply elem_of_cons in He as [He|He]; [discriminate|].
  apply elem_of_cons in He as [He|He]; [by injection He as _ <-|].
  destruct http; cbn in He;
    repeat (apply elem_of_cons in He as [He|He]; [discriminate|]);
    by apply elem_of_nil in He.
Qed.

Lemma bind_log {A} l t (k : unit -> M World A) w :
  bind (log l t) k w = k tt (set_events (w_events w ++ [EvLog l t]) w).
Proof. done. Qed.

Lemma bind_Sleep {A} n (k : unit -> M World A) w :
  bind (Sleep n) k w =
  k tt (set_now (w_now w + n) (set_events (w_events w ++ [EvSleep n]) w)).
Proof. done. Qed.

#[local] Arguments GetStatus_events : simpl never.

(** The run of the slowdown loop: it issues no upload; when it is left, the
    status polled last passes; when a poll hands over a nil record, the run
    ends in the panic of a nil dereference. *)
Lemma slowdown_loop_run f polls : forall cStatus w, exists new,
  w_events (final (slowdown_loop f cStatus polls w)) = w_events w ++ new /\
  Forall (fun e => is_upload e = false) new /\
  (forall w', slowdown_loop f cStatus polls w = Ok tt w' ->
              exists st, last_polled cStatus new = Some st /\ passes f st = true) /\
  (cStatus = None \/ Exists failed_poll new ->
   exists w', slowdown_loop f cStatus polls w = Panic nil_deref w').
Proof.
  assert (Hstop : forall cStatus w (r : Res World unit),
    (r = Panic nil_deref w \/
     exists st, cStatus = Some st /\ passes f st = true /\ r = Ok tt w) ->
    exists new,
      w_events (final r) = w_events w ++ new /\
      Forall (fun e => is_upload e = false) new /\
      (forall w', r = Ok tt w' ->
                  exists st, last_polled cStatus new = Some st /\ passes f st = true) /\
      (cStatus = None \/ Exists failed_poll new -> exists w', r = Panic nil_deref w')).
  { intros cStatus w r [->|(st & -> & Hp & ->)]; exists [];
      rewrite app_nil_r; cbn.
    - split; [done|]. split; [constructor|]. split; [discriminate|]. eauto.
    - split; [done|]. split; [constructor|]. split; [eauto|].
      intros [Hn|Hex]; [discriminate|]. by apply Exists_nil in Hex. }
  induction polls as [|http polls IH]; intros cStatus w.
  - destruct cStatus as [st|]; [|rewrite slowdown_loop_nil; apply Hstop; by left].
    destruct (passes f st) eqn:Hp;
      [rewrite slowdown_loop_pass by done; apply Hstop; right; by eauto|].
    destruct (populated_dec st) as [[[t Ht] [a Ha]]|Hn];
      [|rewrite slowdown_loop_unpopulated by done; apply Hstop; by left].
    destruct (Diskspace st) as [d|] eqn:Hd; [|done]. cbn in Ha.
    rewrite (slowdown_loop_busy f st t d a) by done. run.
    eexists [_; _]. rewrite <- app_assoc. repeat split; try done.
    + repeat constructor.
    + intros [|Hex]; [done|]. exfalso.
      apply Exists_exists in Hex as [e [He (url & h & -> & _)]].
      repeat (apply elem_of_cons in He as [He|He]; [discriminate|]).
      by apply elem_of_nil in He.
  - destruct cStatus as [st|]; [|rewrite slowdown_loop_nil; apply Hstop; by left].
    destruct (passes f st) eqn:Hp;
      [rewrite slowdown_loop_pass by done; apply Hstop; right; by eauto|].
    destruct (populated_dec st) as [[[t Ht] [a Ha]]|Hn];
      [|rewrite slowdown_loop_unpopulated by done; apply Hstop; by left].
    destruct (Diskspace st) as [d|] eqn:Hd; [|done]. cbn in Ha.
    rewrite (slowdown_loop_busy f st t d a) by done.
    rewrite bind_log, bind_Sleep.
    match goal with |- context [bind (GetStatus (cuckoo f) http) _ ?w2] =>
      set (w2' := w2); destruct (GetStatus_run (cuckoo f) http w2') as [Hev Hres]
    end.
    unfold bind.
    destruct Hres as [(err & w3 & Hok & Hnil)|(Hnone & w3 & Hpanic)].
    + rewrite Hok in *. cbn in Hev.
      destruct (IH (polled http) w3) as (new & Hnew & Hq & Hleft & Hfail).
      exists ([EvLog Info (slowdown_text (Pending t) (Free a)); EvSleep 30]
                ++ GetStatus_events (cuckoo f) http ++ new).
      rewrite Hnew, Hev. subst w2'. cbn. rewrite <- !app_assoc. cbn.
      split; [done|]. split; [|split].
      * do 2 (apply Forall_cons; split; [done|]).
        apply Forall_app; auto using GetStatus_events_quiet.
      * intros w' Hw'. destruct (Hleft w' Hw') as (st' & Hl & Hp').
        exists st'. split; [|done]. cbn.
        by rewrite last_polled_app, GetStatus_events_polled.
      * intros [|Hex]; [done|]. apply Hfail.
        apply Exists_cons in Hex as [(? & ? & ? & _)|Hex]; [done|].
        apply Exists_cons in Hex as [(? & ? & ? & _)|Hex]; [done|].
        apply Exists_app in Hex as [Hex|Hex]; [|by right].
        left. eauto using GetStatus_events_failed.
    + rewrite Hpanic in *. cbn in Hev. cbn.
      exists ([EvLog Info (slowdown_text (Pending t) (Free a)); EvSleep 30]
                ++ GetStatus_events (cuckoo f) http).
      rewrite Hev. subst w2'. cbn. rewrite <- !app_assoc. cbn.
      split; [done|]. split; [|split].
      * do 2 (apply Forall_cons; split; [done|]). apply GetStatus_events_quiet.
      * done.
      * intros _. eauto.
Qed.

(** After the loop: one upload, and then neither a poll nor an upload. *)
Lemma handleSubmit_upload_run f m fileBytes msg upload w :
  exists url name params new,
    w_events (final (handleSubmit_upload f m fileBytes msg upload w)) =
      w_events w ++ EvNewTask url name fileBytes params :: new /\
    Forall aside new.
Proof.
  unfold handleSubmit_upload, NewTask.
  match goal with
  | |- context [bind (bind (emit ?e) ?g) ?k w] =>
      change (bind (bind (emit e) g) k w)
        with (bind (g tt) k (set_events (w_events w ++ [e]) w));
      assert (Hq : emits_only aside (bind (g tt) k))
  end.
  { assert (forall l t, aside (EvLog l t)) by done.
    assert (forall e, is_bus e = true -> aside e) by (by intros []).
    emits; auto using emits_only_log, emits_only_NackOnError, emits_only_Send,
                     emits_only_Ack. }
  destruct (Hq (set_events
                  (w_events w ++ [EvNewTask (cko_URL (cuckoo f) +:+ "/tasks/create/file")
                                    (default "" (File m ≫= (.!! "name")))
                                    fileBytes (Payload m)]) w))
    as (new & Hnew & Hall).
  eexists _, _, _, new. rewrite Hnew. cbn. by rewrite <- app_assoc.
Qed.

Lemma Forall_aside_quiet new :
  Forall aside new -> Forall (fun e => is_upload e = false) new.
Proof. intros Hf. eapply Forall_impl; [done|]. by intros e []. Qed.

Lemma Forall_aside_no_poll new :
  Forall aside new -> Forall (fun e => is_poll e = false) new.
Proof. intros Hf. eapply Forall_impl; [done|]. by intros e []. Qed.

(** The run of [handleSubmit] from a world without events: its trace, and
    what a nil record does to it. *)
Lemma handleSubmit_run f m fileBytes msg polls upload faults now fs :
  let r := handleSubmit f m fileBytes msg polls upload (World_init faults now fs) in
  uploads_allowed f None (w_events (final r)) = true /\
  (Exists failed_poll (w_events (final r)) ->
   (exists w', r = Panic nil_deref w') /\
   Forall (fun e => is_upload e = false) (w_events (final r))).
Proof.
  intros r. subst r. unfold handleSubmit. destruct polls as [|http polls].
  { cbn. split; [done|]. by intros ?%Exists_nil. }
  set (w0 := World_init faults now fs).
  destruct (GetStatus_run (cuckoo f) http w0) as [Hev Hres].
  unfold bind.
  destruct Hres as [(err & w1 & Hok & Hnil)|(Hnone & w1 & Hpanic)].
  2:{ rewrite Hpanic in *. cbn in *. rewrite Hev.
      split; [apply uploads_allowed_quiet, GetStatus_events_quiet|].
      intros _. split; [by eauto|apply GetStatus_events_quiet]. }
  rewrite Hok in *. cbn in Hev. unfold handleSubmit_from.
  destruct (slowdown_loop_run f polls (polled http) w1)
    as (new & Hnew & Hq & Hleft & Hfail).
  unfold bind.
  destruct (slowdown_loop f (polled http) polls w1) as [[] w2|text w2|w2] eqn:Hloop;
    cbn in Hnew.
  - destruct (Hleft w2 eq_refl) as (st & Hlast & Hpass).
    destruct (handleSubmit_upload_run f m fileBytes msg upload w2)
      as (url & name & params & new2 & Hup & Haside).
    rewrite Hup, Hnew, Hev. cbn. split.
    + rewrite !uploads_allowed_app, !last_polled_app.
      rewrite GetStatus_events_polled, Hlast. cbn. rewrite Hpass.
      rewrite !uploads_allowed_quiet;
        auto using GetStatus_events_quiet, Forall_aside_quiet.
    + intros Hex. exfalso.
      assert (Hcase : polled http = None \/ Exists failed_poll new).
      { apply Exists_app in Hex as [Hex|Hex].
        - apply Exists_app in Hex as [Hex|Hex]; [|by right].
          left. eauto using GetStatus_events_failed.
        - apply Exists_cons in Hex as [(? & ? & ? & _)|Hex]; [done|].
          apply Forall_aside_no_poll in Haside.
          apply Exists_exists in Hex as (e & He & (u & h & -> & _)).
          by eapply Forall_forall in He; [|apply Haside]. }
      by destruct (Hfail Hcase).
  - cbn. rewrite Hnew, Hev. cbn. split.
    + rewrite uploads_allowed_quiet; [done|].
      apply Forall_app; auto using GetStatus_events_quiet.
    + intros Hex. split; [|apply Forall_app; auto using GetStatus_events_quiet].
      assert (Hcase : polled http = None \/ Exists failed_poll new).
      { apply Exists_app in Hex as [Hex|Hex]; [|by right].
        left. eauto using GetStatus_events_failed. }
      destruct (Hfail Hcase) as [w' [= -> ->]]. eauto.
  - cbn. rewrite Hnew, Hev. cbn. split.
    + rewrite uploads_allowed_quiet; [done|].
      apply Forall_app; auto using GetStatus_events_quiet.
    + intros Hex. exfalso.
      assert (Hcase : polled http = None \/ Exists failed_poll new).
      { apply Exists_app in Hex as [Hex|Hex]; [|by right].
        left. eauto using GetStatus_events_failed. }
      by destruct (Hfail Hcase).
Qed.


(** C10.  [handleSubmit] does not look at the error of [GetStatus]: what it
    does from the first answer on is the same whatever the error.
    [GetStatus] hands over a nil record exactly when it reports an error.  On
    a nil record the condition of the loop dereferences nil, at once; and a
    run in which some status request handed over a nil record ends in that
    panic, without an upload. *)
Theorem handleSubmit_unguarded_status (f : Feeder) (m : DistributedCuckooReq)
    (fileBytes : string) (msg : Delivery) :
  (forall cStatus e e' polls upload,
      handleSubmit_from f m fileBytes msg (cStatus, e) polls upload =
      handleSubmit_from f m fileBytes msg (cStatus, e') polls upload) /\
  (forall http w cStatus err w',
      GetStatus (cuckoo f) http w = Ok (cStatus, err) w' ->
      cStatus = polled http /\ (cStatus = None <-> err <> None)) /\
  (forall e polls upload w,
      handleSubmit_from f m fileBytes msg (None, e) polls upload w =
      Panic nil_deref w) /\
  (forall polls upload faults now fs,
      let r := handleSubmit f m fileBytes msg polls upload
                 (World_init faults now fs) in
      Exists failed_poll (w_events (final r)) ->
      (exists w', r = Panic nil_deref w') /\
      Forall (fun e => is_upload e = false) (w_events (final r))).
Proof.
  split; [done|]. split; [|split].
  - intros http w cStatus err w' Hok.
    destruct (GetStatus_run (cuckoo f) http w) as [_ [(err' & w'' & Hok' & Hn)|(_ & w'' & Hp)]].
    + rewrite Hok in Hok'. by injection Hok' as -> -> _.
    + by rewrite Hok in Hp.
  - intros e polls upload w. unfold handleSubmit_from, bind.
    by rewrite slowdown_loop_nil.
  - intros polls upload faults now fs. apply handleSubmit_run.
Qed.
End FeederProps.

(** ** The Overseer *)

Section DumpSearch.
Import overseer.

Lemma Itoa_inj : Inj (=) (=) GoInt.Itoa.
Proof. unfold GoInt.Itoa. apply _. Qed.

(** The search returns a free name, made of the base and a counter. *)
Lemma dump_search_Some fuel base c fs name :
  dump_search fuel base c fs = Some name ->
  fs !! name = None /\ exists n, name = base +:+ GoInt.Itoa n.
Proof.
  revert c. induction fuel as [|fuel IH]; intros c; [done|]. cbn.
  case_bool_decide as Hfree; [|by apply IH].
  intros [= <-]. eauto.
Qed.

(** With a free name among the next [fuel] counters, the search finds one. *)
Lemma dump_search_finds fuel base c fs (k : nat) :
  0 <= c -> c + Z.of_nat fuel <= GoInt.max_int + 1 ->
  (k < fuel)%nat ->
  fs !! (base +:+ GoInt.Itoa (c + Z.of_nat k)) = None ->
  is_Some (dump_search fuel base c fs).
Proof.
  revert c k. induction fuel as [|fuel IH]; intros c k Hc Hmax Hk Hfree; [lia|].
  cbn. case_bool_decide as Hc0; [by eauto|].
  destruct k as [|k].
  { rewrite Z.add_0_r in Hfree. done. }
  unfold GoInt.add. rewrite wrap_small by (unfold GoInt.min_int, GoInt.max_int in *; lia).
  apply (IH _ k); [lia|lia|lia|].
  by replace (c + 1 + Z.of_nat k) with (c + Z.of_nat (S k)) by lia.
Qed.

(** A directory of [n] files has a free name among any [n + 1] names. *)
Lemma free_name_exists base (fs : gmap string string) :
  exists k : nat, (k < S (size fs))%nat /\
                  fs !! (base +:+ GoInt.Itoa (Z.of_nat k)) = None.
Proof.
  set (name := fun k : nat => base +:+ GoInt.Itoa (Z.of_nat k)).
  set (names := name <$> seq 0 (S (size fs))).
  destruct (decide (Forall (fun s => is_Some (fs !! s)) names)) as [Hall|Hex].
  - exfalso.
    assert (Hinj : Inj (=) (=) name).
    { intros a b Hab. unfold name in Hab.
      apply (inj (String.app base)) in Hab. apply Itoa_inj in Hab. lia. }
    assert (Hnd : NoDup names) by (apply NoDup_fmap_2; [done|apply NoDup_seq]).
    assert (Hsub : list_to_set (C := gset string) names ⊆ dom fs).
    { intros s Hs. apply elem_of_list_to_set in Hs. apply elem_of_dom.
      by eapply Forall_forall in Hall. }
    apply subseteq_size in Hsub.
    rewrite size_list_to_set, size_dom in Hsub by done.
    unfold names in Hsub. rewrite length_fmap, length_seq in Hsub. lia.
  - apply not_Forall_Exists in Hex; [|apply _].
    apply Exists_exists in Hex as (s & Hs & Hnone).
    apply list_elem_of_fmap in Hs as (k & -> & Hk).
    apply elem_of_seq in Hk. exists k. split; [lia|].
    by apply eq_None_not_Some.
Qed.

(** The search of [dumpMsg] ends on a free name. *)
Lemma dump_search_free base (fs : gmap string string) :
  Z.of_nat (size fs) < GoInt.max_int ->
  exists name n,
    dump_search (S (size fs)) base 0 fs = Some name /\
    name = base +:+ GoInt.Itoa n /\ fs !! name = None.
Proof.
  intros Hsize. destruct (free_name_exists base fs) as (k & Hk & Hfree).
  destruct (dump_search_finds (S (size fs)) base 0 fs k) as [name Hname];
    [lia|lia|done|done|].
  destruct (dump_search_Some _ _ _ _ _ Hname) as (Hnone & n & ->). eauto.
Qed.
End DumpSearch.

Section OverseerProps.
Context `{GoJson} `{GoStrconv}.
Import overseer.

(** [dumpMsg], the file system and the broker working: one new file with
    the body of the delivery, then the ack. *)
Lemma dumpMsg_run o msg w :
  w_faults w = [] -> Z.of_nat (size (w_fs w)) < GoInt.max_int ->
  exists name n,
    name = (dumpDir o +:+ "/" +:+ GoInt.Itoa (w_now w) +:+ "_") +:+ GoInt.Itoa n /\
    w_fs w !! name = None /\
    dumpMsg o msg w =
      Ok tt {| w_events := w_events w ++ [EvCreateFile name;
                                          EvWriteFile name (Body msg);
                                          EvAck (DeliveryTag msg) false];
               w_faults := [];
               w_now := w_now w;
               w_fs := <[name := Body msg]> (w_fs w);
               w_heap := w_heap w |}.
Proof.
  intros Hf Hsize.
  destruct (dump_search_free (dumpDir o +:+ "/" +:+ GoInt.Itoa (w_now w) +:+ "_")
              (w_fs w) Hsize) as (name & n & Hsearch & Hname & Hfree).
  exists name, n. split; [done|]. split; [done|].
  destruct w as [ev fl now fs hp]. cbn in *. subst fl.
  unfold dumpMsg. run. rewrite Hsearch. run.
  rewrite Hfree. cbn. rewrite insert_insert_eq, <- !app_assoc. done.
Qed.

(** A line in the log, then the dump. *)
Lemma log_dumpMsg_run o1 dir (o' : Overseer) msg text w :
  dumpDir o1 = dir ->
  w_faults w = [] -> Z.of_nat (size (w_fs w)) < GoInt.max_int ->
  exists w',
    (let* _ := log Info text in let* _ := dumpMsg o1 msg in ret o') w = Ok o' w' /\
    w_faults w' = [] /\ dumped dir msg w w' /\
    size (w_fs w') = S (size (w_fs w)).
Proof.
  intros Hdir Hf Hsize. rewrite bind_log.
  match goal with |- context [bind (dumpMsg o1 msg) _ ?w1] =>
    destruct (dumpMsg_run o1 msg w1) as (name & n & Hname & Hfree & Hrun);
      [done|done|]
  end.
  unfold bind. rewrite Hrun. cbn. eexists. split; [done|]. split; [done|].
  cbn in *. split.
  - split.
    + unfold events_since. cbn. by rewrite <- !app_assoc, drop_app_length.
    + exists name, n. by rewrite <- Hdir.
  - by rewrite map_size_insert_None.
Qed.

(** [resubmit], the broker working: the body goes to the queue of the
    envelope; the producers gain that queue. *)
Lemma resubmit_run o failed msg w :
  w_faults w = [] -> producers_ok o ->
  exists o' w',
    resubmit o failed msg w = Ok (o', None) w' /\
    w_faults w' = [] /\ w_fs w' = w_fs w /\
    failedMap o' = failedMap o /\ dumpDir o' = dumpDir o /\ producers_ok o' /\
    exists new,
      w_events w' = w_events w ++ new /\
      bus_events new = [EvPublish (Queue failed) (resubmit_body failed)].
Proof.
  intros Hf Hok. destruct w as [ev fl now fs hp]. cbn in *. subst fl.
  unfold resubmit.
  change (match strconv_Unquote (Msg failed) with
          | (s, None) => s
          | (_, Some _) => Msg failed
          end) with (resubmit_body failed).
  generalize (resubmit_body failed). intros body.
  destruct (producers o !! Queue failed) as [q|] eqn:Hq.
  - run. rewrite Hq. run. rewrite (Hok _ _ Hq).
    eexists _, _. split; [done|]. cbn. repeat split; try done.
    eexists. by rewrite <- !app_assoc.
  - run. destruct (decide (Queue failed = "")); run;
      rewrite lookup_insert_eq; run;
      (eexists _, _; split; [done|]; cbn; repeat split; try done;
       [intros k q Hk; cbn in Hk;
        apply lookup_insert_Some in Hk as [[<- <-]|[_ Hk]]; [done|by apply Hok]
       |eexists; by rewrite <- !app_assoc]).
Qed.

(** One delivery, the broker and the file system working: the count of its
    analysis goes up by one; it is sent back while the count was below 3
    and dumped otherwise.  A delivery without an analysis id is dumped. *)
Lemma parseMsg_step o msg w :
  w_faults w = [] -> Z.of_nat (size (w_fs w)) < GoInt.max_int ->
  producers_ok o ->
  (forall a, 0 <= count o a < GoInt.max_int) ->
  exists o' w',
    parseMsg o msg w = Ok o' w' /\
    w_faults w' = [] /\ dumpDir o' = dumpDir o /\ producers_ok o' /\
    (size (w_fs w') <= S (size (w_fs w)))%nat /\
    match delivery_aid msg with
    | None => (forall a, count o' a = count o a) /\ dumped (dumpDir o) msg w w'
    | Some aid =>
        (forall a, count o' a = if decide (a = aid) then count o a + 1 else count o a) /\
        if decide (count o aid < 3) then republished msg w w'
        else dumped (dumpDir o) msg w w'
    end.
Proof.
  intros Hf Hsize Hok Hcount.
  unfold parseMsg, delivery_aid, republished, envelope.
  destruct (json_Unmarshal_FailedMsg (Body msg)) as [m [e|]]; cbn [fst].
  { destruct (log_dumpMsg_run o (dumpDir o) o msg ("parseMsg couldn't decode the msg body!" +:+ nl) w)
      as (w' & Hrun & Hf' & Hd & Hs); [done..|].
    exists o, w'. rewrite Hs. by repeat (split; [done|]). }
  unfold handleFailed.
  destruct (json_Unmarshal_genericMsg (Msg m)) as [payload [e|]].
  { destruct (log_dumpMsg_run o (dumpDir o) o msg ("Couldn't decode genericMsg!" +:+ nl) w)
      as (w' & Hrun & Hf' & Hd & Hs); [done..|].
    exists o, w'. rewrite Hs. by repeat (split; [done|]). }
  destruct (genericMsg_aid payload) as [aid|].
  2:{ destruct (log_dumpMsg_run o (dumpDir o) o msg ("Couldn't find CritsData!" +:+ nl) w)
      as (w' & Hrun & Hf' & Hd & Hs); [done..|].
    exists o, w'. rewrite Hs. by repeat (split; [done|]). }
  set (o1 := match failedMap o !! aid with
             | Some _ => o
             | None => set_failedMap o (<[aid := 0]> (failedMap o))
             end).
  assert (Hc1 : default 0 (failedMap o1 !! aid) = count o aid).
  { unfold o1, count. destruct (failedMap o !! aid) eqn:Ha; cbn.
    - by rewrite Ha.
    - by rewrite lookup_insert_eq. }
  assert (Ho1 : forall a, a <> aid -> failedMap o1 !! a = failedMap o !! a).
  { intros a Ha. unfold o1. destruct (failedMap o !! aid); [done|].
    cbn. by rewrite lookup_insert_ne. }
  assert (Hd1 : dumpDir o1 = dumpDir o /\ producers o1 = producers o).
  { unfold o1. by destruct (failedMap o !! aid). }
  destruct Hd1 as [Hd1 Hp1].
  rewrite Hc1. specialize (Hcount aid).
  unfold GoInt.add. rewrite wrap_small by (unfold GoInt.min_int, GoInt.max_int in *; lia).
  set (o2 := set_failedMap o1 (<[aid := count o aid + 1]> (failedMap o1))).
  assert (Hc2 : forall a, count o2 a =
                          if decide (a = aid) then count o aid + 1 else count o a).
  { intros a. unfold count, o2. cbn. case_decide as Ha.
    - subst a. by rewrite lookup_insert_eq.
    - by rewrite lookup_insert_ne, Ho1. }
  change (default 0 (failedMap o2 !! aid)) with (count o2 aid).
  rewrite (Hc2 aid). rewrite decide_True by done.
  destruct (Z.ltb_spec 3 (count o aid + 1)) as [Hgt|Hle].
  - destruct (log_dumpMsg_run o2 (dumpDir o) o2 msg ("Msg failed three times, dumping!" +:+ nl) w)
      as (w' & Hrun & Hf' & Hd & Hs); [done..|].
    exists o2, w'. rewrite Hs. split; [done|]. split; [done|]. split; [done|].
    split; [intros k q; unfold o2; cbn; rewrite Hp1; apply Hok|].
    split; [done|]. split.
    + intros a. rewrite Hc2. by case_decide; subst.
    + by rewrite decide_False by lia.
  - rewrite bind_Sleep.
    match goal with |- context [bind (resubmit o2 m msg) _ ?w1] =>
      destruct (resubmit_run o2 m msg w1)
        as (o3 & w3 & Hrun & Hf3 & Hfs3 & Hfm3 & Hd3 & Hok3 & new & Hev3 & Hbus);
        [done|by intros k q; unfold o2; cbn; rewrite Hp1; apply Hok|]
    end.
    unfold bind at 1. rewrite Hrun. cbn.
    destruct w3 as [ev3 fl3 now3 fs3 hp3]. cbn in *. subst fl3 fs3. run.
    eexists _, _. split; [done|]. cbn. split; [done|].
    split; [by rewrite Hd3|]. split; [done|]. split; [lia|]. split.
    + intros a. unfold count at 1. rewrite Hfm3.
      transitivity (count o2 a); [done|].
      rewrite Hc2. by case_decide; subst.
    + rewrite decide_True by lia. split; [|done].
      unfold events_since. cbn. subst ev3.
      rewrite <- !app_assoc, drop_app_length. cbn.
      unfold bus_events in *. rewrite List.filter_app, Hbus. done.
Qed.


Lemma seen_cons aid msg msgs :
  seen aid (msg :: msgs) =
  ((if decide (delivery_aid msg = Some aid) then 1 else 0) + seen aid msgs)%nat.
Proof. unfold seen. rewrite filter_cons. by case_decide. Qed.

(** A run of the consumer, the broker and the file system working: it goes
    through; the counts are the numbers of deliveries seen. *)
Lemma consume_run msgs : forall o w,
  w_faults w = [] ->
  Z.of_nat (size (w_fs w) + length msgs) < GoInt.max_int ->
  producers_ok o ->
  (forall a, 0 <= count o a /\ count o a + Z.of_nat (length msgs) < GoInt.max_int) ->
  exists o1 w1,
    consume o msgs w = Ok o1 w1 /\
    w_faults w1 = [] /\ dumpDir o1 = dumpDir o /\ producers_ok o1 /\
    (size (w_fs w1) <= size (w_fs w) + length msgs)%nat /\
    forall a, count o1 a = count o a + Z.of_nat (seen a msgs).
Proof.
  induction msgs as [|msg msgs IH]; intros o w Hf Hsize Hok Hcount.
  { exists o, w. cbn. repeat split; try done; [lia|]. intros a. unfold seen. cbn. lia. }
  cbn [consume length] in *.
  destruct (parseMsg_step o msg w) as (o' & w' & Hrun & Hf' & Hd' & Hok' & Hs' & Hc');
    [done|lia|done|intros a; specialize (Hcount a); lia|].
  assert (Hcount' : forall a, count o' a =
            count o a + Z.of_nat (if decide (delivery_aid msg = Some a) then 1 else 0)).
  { intros a. destruct (delivery_aid msg) as [aid|].
    - destruct Hc' as [Hc' _]. rewrite Hc'.
      case_decide; subst; [rewrite decide_True by done|rewrite decide_False by congruence];
        lia.
    - destruct Hc' as [Hc' _]. rewrite Hc'. rewrite decide_False by done. lia. }
  destruct (IH o' w') as (o1 & w1 & Hrun1 & Hf1 & Hd1 & Hok1 & Hs1 & Hc1);
    [done|lia|done| |].
  { intros a. rewrite Hcount'. specialize (Hcount a). case_decide; lia. }
  exists o1, w1. unfold bind. rewrite Hrun. split; [done|]. split; [done|].
  split; [congruence|]. split; [done|]. split; [lia|].
  intros a. rewrite Hc1, Hcount', seen_cons. lia.
Qed.

(** C2.  The Overseer starts with an empty failure map; the broker and the
    file system work; [pre] are the deliveries handled so far and [msg] is a
    delivery whose envelope and embedded body decode to the analysis id
    [aid].  Then the run goes through, and [msg] is sent back to the queue of
    its envelope (and acknowledged, the dump directory untouched) when fewer
    than three deliveries of [pre] carried [aid]; from the fourth delivery on
    it is written to exactly one new file of the dump directory (and
    acknowledged) and nothing is published.  So an analysis id is sent back
    on its first three deliveries and never again. *)
Theorem overseer_three_retries_then_dump (c0 : Core) (dir : string)
    (pre : list Delivery) (msg : Delivery) (aid : string) (w : World) :
  w_faults w = [] ->
  Z.of_nat (size (w_fs w) + length pre) < GoInt.max_int ->
  delivery_aid msg = Some aid ->
  exists o1 w1 o2 w2,
    consume (Overseer_init c0 dir) pre w = Ok o1 w1 /\
    parseMsg o1 msg w1 = Ok o2 w2 /\
    ((seen aid pre < 3)%nat -> republished msg w1 w2) /\
    ((3 <= seen aid pre)%nat ->
     dumped dir msg w1 w2 /\ size (w_fs w2) = S (size (w_fs w1))).
Proof.
  intros Hf Hsize Haid.
  destruct (consume_run pre (Overseer_init c0 dir) w)
    as (o1 & w1 & Hrun1 & Hf1 & Hd1 & Hok1 & Hs1 & Hc1); [done|done|done| |].
  { intros a. unfold count. cbn. rewrite lookup_empty. cbn. lia. }
  assert (Hseen : forall a, (seen a pre <= length pre)%nat).
  { intros a. unfold seen. apply length_filter. }
  assert (Hcount : forall a, count o1 a = Z.of_nat (seen a pre)).
  { intros a. rewrite Hc1. unfold count. cbn. by rewrite lookup_empty. }
  destruct (parseMsg_step o1 msg w1) as (o2 & w2 & Hrun2 & Hf2 & Hd2 & Hok2 & Hs2 & Hc2);
    [done|lia|done| |].
  { intros a. rewrite Hcount. specialize (Hseen a). lia. }
  exists o1, w1, o2, w2. split; [done|]. split; [done|].
  rewrite Haid in Hc2. destruct Hc2 as [_ Hdisp]. rewrite Hcount in Hdisp.
  cbn in Hd1. rewrite Hd1 in Hdisp. split.
  - intros Hlt. by rewrite decide_True in Hdisp by lia.
  - intros Hge. rewrite decide_False in Hdisp by lia. split; [done|].
    destruct Hdisp as (_ & name & n & _ & Hfree & ->).
    by rewrite map_size_insert_None.
Qed.
End OverseerProps.

(** ** The Repository client *)

Section CritsProps.
Context `{GoJson}.

(** The loop over a map converts every value, and nothing else. *)
Lemma stringify_bools_fmap (m : attrs) : stringify_bools m = stringify <$> m.
Proof.
  unfold stringify_bools.
  set (f := fun (k : string) (v : value) (acc : attrs) =>
              match v with
              | VBool maybeBool => <[k := VStr (FormatBool maybeBool)]> acc
              | _ => acc
              end).
  assert (Hgen : forall m' acc : attrs,
             (forall i x, m' !! i = Some x -> acc !! i = Some x) ->
             map_fold f acc m' = (stringify <$> m') ∪ acc).
  { intros m'. induction m' as [|i x m' Hi Hfirst IH] using map_first_key_ind;
      intros acc Hsub.
    - by rewrite map_fold_empty, fmap_empty, (left_id_L ∅ (∪)).
    - rewrite map_fold_insert_first_key by done. rewrite IH.
      2:{ intros j y Hj. apply Hsub. rewrite lookup_insert_ne; [done|].
          intros ->. congruence. }
      rewrite fmap_insert.
      assert (Hacc : acc !! i = Some x) by (apply Hsub, lookup_insert_eq).
      destruct x; cbn;
        try (by rewrite <- insert_union_l);
        (apply map_eq; intros j; destruct (decide (i = j)) as [<-|Hne];
         [by rewrite lookup_union_r, lookup_union_l', lookup_insert_eq
            by (by rewrite ?lookup_fmap, ?Hi, ?lookup_insert_eq)
         |by rewrite !lookup_union, lookup_insert_ne]). }
  rewrite Hgen by done. apply map_eq. intros i.
  rewrite lookup_union, lookup_fmap. by destruct (m !! i).
Qed.

Lemma stringify_idemp v : stringify (stringify v) = stringify v.
Proof. by destruct v. Qed.

(** After the conversion no value is a bool; a bool has become its text,
    which is [true] or [false]; another value is as it was. *)
Lemma stringify_no_bool (m : attrs) : no_bool (stringify <$> m).
Proof.
  intros k v Hk b ->. rewrite lookup_fmap in Hk.
  destruct (m !! k) as [[]|]; discriminate.
Qed.

Lemma stringify_lookup (m : attrs) k v :
  m !! k = Some v ->
  (stringify <$> m) !! k =
    Some (match v with VBool b => VStr (if b then "true" else "false") | _ => v end).
Proof. intros Hk. rewrite lookup_fmap, Hk. by destruct v as [| |[]|]. Qed.

Lemma converted_refl h : converted h h.
Proof. apply Forall2_same_length_lookup. split; [done|]. intros i x y ? ?. left. congruence. Qed.

Lemma converted_alter h0 h m :
  converted h0 h -> converted h0 (alter stringify_bools m h).
Proof.
  intros Hc. apply Forall2_alter_r; [done|].
  intros m0 m1 _ _ [->| ->]; rewrite stringify_bools_fmap.
  - by right.
  - right. rewrite <- map_fmap_compose. apply map_fmap_ext. intros. apply stringify_idemp.
Qed.

Lemma converted_lookup h0 h m :
  converted h0 h ->
  stringify <$> default ∅ (h !! m) = stringify <$> default ∅ (h0 !! m).
Proof.
  intros Hc. destruct (h0 !! m) as [m0|] eqn:H0.
  - destruct (Forall2_lookup_l _ _ _ _ _ Hc H0) as (m1 & -> & [->| ->]); cbn; [done|].
    rewrite <- map_fmap_compose. apply map_fmap_ext. intros. apply stringify_idemp.
  - apply Forall2_length in Hc. apply lookup_ge_None in H0.
    by rewrite (proj2 (lookup_ge_None h m)) by lia.
Qed.

(** The loop of [AddResults]: it either stops at a map that cannot be
    encoded, or appends to the three arrays one entry per record, in order:
    the primary value, the subtype, and the entry for the attribute map. *)
Lemma AddResults_loop_run results : forall arrResult arrResultType arrResultSubtype h0 h,
  converted h0 h ->
  exists h', converted h0 h' /\
    ((exists err m s, json_Marshal_attrs m = (s, Some err) /\
        AddResults_loop results arrResult arrResultType arrResultSubtype h
        = Ok (inl err) h') \/
     (exists encs,
        Forall2 (result_type_of h0) results encs /\
        AddResults_loop results arrResult arrResultType arrResultSubtype h
        = Ok (inr (arrResult ++ (Result <$> results),
                   arrResultType ++ encs,
                   arrResultSubtype ++ (Subtype <$> results))) h')).
Proof.
  induction results as [|r results IH]; intros aR aT aS h0 h Hc.
  { exists h. split; [done|]. right. exists []. split; [constructor|].
    cbn. by rewrite !app_nil_r. }
  cbn [AddResults_loop]. destruct (Data r) as [m|] eqn:Hd.
  - run. pose proof (converted_alter h0 h m Hc) as Hc'.
    assert (Hm : default ∅ (alter stringify_bools m h !! m)
                 = stringify <$> default ∅ (h0 !! m)).
    { etrans; [|apply (converted_lookup h0 h m Hc)]. rewrite list_lookup_alter, decide_True by done.
      destruct (h !! m); cbn; [apply stringify_bools_fmap|by rewrite fmap_empty]. }
    rewrite Hm.
    destruct (json_Marshal_attrs (stringify <$> default ∅ (h0 !! m)))
      as [t [e|]] eqn:Henc.
    + eexists. split; [exact Hc'|]. left. eauto.
    + destruct (IH (aR ++ [Result r]) (aT ++ [t]) (aS ++ [Subtype r]) h0 _ Hc')
        as (h' & Hc'' & [(err & m' & s & Hfail & Hrun)|(encs & Hall & Hrun)]).
      * exists h'. split; [done|]. left. eauto.
      * exists h'. split; [done|]. right. exists (t :: encs). split.
        -- constructor; [|done]. unfold result_type_of. by rewrite Hd.
        -- rewrite Hrun. cbn. by rewrite <- !app_assoc.
  - run.
    destruct (IH (aR ++ [Result r]) (aT ++ ["{}"]) (aS ++ [Subtype r]) h0 h Hc)
      as (h' & Hc'' & [(err & m' & s & Hfail & Hrun)|(encs & Hall & Hrun)]).
    + exists h'. split; [done|]. left. eauto.
    + exists h'. split; [done|]. right. exists ("{}" :: encs). split.
      * constructor; [|done]. unfold result_type_of. by rewrite Hd.
      * rewrite Hrun. cbn. by rewrite <- !app_assoc.
Qed.

#[local] Arguments AddResults_loop : simpl never.

(** A run of [AddResults] on a batch that is not empty: either an encoder
    fails and nothing is sent, or one form is posted, made of the encodings
    of the three arrays. *)
Lemma AddResults_run crt results http w :
  results <> [] ->
  exists w',
    (exists err, AddResults crt results http w = Ok (Some err) w' /\
                 w_events w' = w_events w /\ encoder_failed) \/
    (exists encs verdict new,
       Forall2 (result_type_of (w_heap w)) results encs /\
       AddResults crt results http w = Ok verdict w' /\
       converted (w_heap w) (w_heap w') /\
       w_events w' = w_events w ++ new /\
       requests new =
         [EvRequest "POST" (crt_URL crt +:+ "/api/v1/services/")
            (AddResults_form crt
               (fst (json_Marshal_strings (Result <$> results)))
               (fst (json_Marshal_strings (Subtype <$> results)))
               (fst (json_Marshal_strings encs)))
            http]).
Proof.
  intros Hne. unfold AddResults. destruct results as [|r rs]; [done|].
  generalize dependent (r :: rs). clear r rs. intros results _.
  destruct (AddResults_loop_run results [] [] [] (w_heap w) (w_heap w))
    as (h' & Hc & [(err & m & s & Hfail & Hrun)|(encs & Hall & Hrun)]);
    [apply converted_refl| |].
  { unfold bind, lift_heap. rewrite Hrun. cbn. eexists. left. eexists.
    split; [done|]. split; [done|]. left. eauto. }
  unfold bind, lift_heap. rewrite Hrun. cbn.
  destruct (json_Marshal_strings (Result <$> results)) as [rJ [e|]] eqn:HrJ.
  { cbn. eexists. left. eexists. split; [done|]. split; [done|]. right. eauto. }
  destruct (json_Marshal_strings encs) as [tJ [e|]] eqn:HtJ.
  { cbn. eexists. left. eexists. split; [done|]. split; [done|]. right. eauto. }
  destruct (json_Marshal_strings (Subtype <$> results)) as [sJ [e|]] eqn:HsJ.
  { cbn. eexists. left. eexists. split; [done|]. split; [done|]. right. eauto. }
  unfold FastPostForm, default_verdict.
  destruct http as [e|code st e|code st body]; run;
    [| |destruct (json_Unmarshal_CrtDefaultResponse body) as [resp [e|]]; run;
        [|destruct (decide (default_failed code resp)); run]];
    (eexists; right; eexists encs, _, _; split; [done|]; split; [done|];
     cbn; rewrite HtJ; split; [done|]; rewrite <- ?app_assoc; split; [done|];
     done).
Qed.

(** A form that [AddResults] posted is the form of the three arrays. *)
Lemma AddResults_sent crt results http w method url form answer :
  EvRequest method url form answer
    ∈ events_since w (final (AddResults crt results http w)) ->
  exists encs,
    Forall2 (result_type_of (w_heap w)) results encs /\
    form = AddResults_form crt
             (fst (json_Marshal_strings (Result <$> results)))
             (fst (json_Marshal_strings (Subtype <$> results)))
             (fst (json_Marshal_strings encs)).
Proof.
  intros Hin. destruct results as [|r rs].
  { cbn in Hin. unfold events_since in Hin. rewrite drop_all in Hin.
    by apply elem_of_nil in Hin. }
  destruct (AddResults_run crt (r :: rs) http w) as (w' & Hcase); [done|].
  destruct Hcase as [(err & Hrun & Hev & _)|(encs & verdict & new & Hall & Hrun & _ & Hev & Hreq)];
    rewrite Hrun in Hin; unfold events_since in Hin; cbn [final] in Hin;
    rewrite Hev in Hin.
  - rewrite drop_all in Hin. by apply elem_of_nil in Hin.
  - rewrite drop_app_length in Hin. exists encs. split; [done|].
    assert (Hin' : EvRequest method url form answer ∈ requests new).
    { apply list_elem_of_In, List.filter_In. split; [by apply list_elem_of_In|done]. }
    rewrite Hreq in Hin'. apply list_elem_of_singleton in Hin'. by injection Hin'.
Qed.

(** C7.  A form that [AddResults] posts holds the encodings of three arrays
    of equal length, the number of records of the batch: the primary values,
    the subtypes and the attribute-map entries, with the text [{}] at every
    position whose record has a nil attribute map.  And a batch that is not
    empty is posted, in one request, unless an encoder fails. *)
Theorem AddResults_parallel_arrays (crt : CritsConn) (results : list CrtResult)
    (http : HttpResult) (w : World) :
  (forall method url form answer,
      EvRequest method url form answer
        ∈ events_since w (final (AddResults crt results http w)) ->
      exists arrResult arrResultSubtype arrResultType,
        form = AddResults_form crt
                 (fst (json_Marshal_strings arrResult))
                 (fst (json_Marshal_strings arrResultSubtype))
                 (fst (json_Marshal_strings arrResultType)) /\
        length arrResult = length results /\
        length arrResultSubtype = length results /\
        length arrResultType = length results /\
        arrResult = Result <$> results /\
        arrResultSubtype = Subtype <$> results /\
        (forall i r, results !! i = Some r -> Data r = None ->
                     arrResultType !! i = Some "{}")) /\
  (results <> [] -> ~ encoder_failed ->
   exists form,
     requests (events_since w (final (AddResults crt results http w))) =
       [EvRequest "POST" (crt_URL crt +:+ "/api/v1/services/") form http]).
Proof.
  split.
  - intros method url form answer Hin.
    destruct (AddResults_sent _ _ _ _ _ _ _ _ Hin) as (encs & Hall & ->).
    exists (Result <$> results), (Subtype <$> results), encs.
    rewrite !length_fmap. split; [done|]. split; [done|]. split; [done|].
    split; [by rewrite (Forall2_length _ _ _ Hall)|]. split; [done|]. split; [done|].
    intros i r Hi Hnil.
    destruct (Forall2_lookup_l _ _ _ _ _ Hall Hi) as (t & Ht & Hrt).
    unfold result_type_of in Hrt. rewrite Hnil in Hrt. by subst t.
  - intros Hne Hok.
    destruct (AddResults_run crt results http w Hne) as (w' & Hcase).
    destruct Hcase as [(err & _ & _ & Hfail)|(encs & verdict & new & _ & Hrun & _ & Hev & Hreq)];
      [done|].
    rewrite Hrun. unfold events_since. cbn [final].
    rewrite Hev, drop_app_length, Hreq. eauto.
Qed.

(** C6.  In a form that [AddResults] posts, every entry of the [result_type]
    array that stands for a map is the encoding of a map without a bool: the
    map of the record with every bool replaced by its text [true] or
    [false], the other values as they were. *)
Theorem AddResults_no_native_bool (crt : CritsConn) (results : list CrtResult)
    (http : HttpResult) (w : World) method url form answer :
  EvRequest method url form answer
    ∈ events_since w (final (AddResults crt results http w)) ->
  exists arrResultType,
    form = AddResults_form crt
             (fst (json_Marshal_strings (Result <$> results)))
             (fst (json_Marshal_strings (Subtype <$> results)))
             (fst (json_Marshal_strings arrResultType)) /\
    Forall2
      (fun r result_type =>
         forall data, Data r = Some data ->
           exists m : attrs,
             json_Marshal_attrs m = (result_type, None) /\
             no_bool m /\
             forall k v,
               default ∅ (w_heap w !! data) !! k = Some v ->
               m !! k = Some (match v with
                              | VBool b => VStr (if b then "true" else "false")
                              | _ => v
                              end))
      results arrResultType.
Proof.
  intros Hin. destruct (AddResults_sent _ _ _ _ _ _ _ _ Hin) as (encs & Hall & ->).
  exists encs. split; [done|].
  eapply Forall2_impl; [exact Hall|]. intros r t Hrt data Hd.
  unfold result_type_of in Hrt. rewrite Hd in Hrt.
  eexists. split; [exact Hrt|]. split; [apply stringify_no_bool|].
  intros k v. apply stringify_lookup.
Qed.
End CritsProps.

(** ** C5: when a call of the Repository client is a failure *)

Section FailureRule.
Context `{GoJson}.

Lemma default_verdict_decoded resp code e r :
  default_verdict (resp, code, e, r) <> None <-> e <> None \/ default_failed code r.
Proof.
  unfold default_verdict. destruct e as [e|].
  - split; [by left|done].
  - case_decide; split; try done; [by right|]. by intros [|].
Qed.



End FailureRule.


(** [NewSample] does not look at the status: an answer with status 500,
    return code zero and no error message is taken for a success. *)
Lemma NewSample_ignores_status :
  exists w',
    @NewSample sample_json
      {| crt_URL := "https://crits";
         crt_Data := {| CritsURL := "https://crits"; AnalysisId := "a1";
                        ObjectType := "Sample"; ObjectId := "o1";
                        Username := "u"; ApiKey := "k"; MD5 := "";
                        Source := "s" |} |}
      "MZ" "dropped.exe" (HttpResp 500 "500 Internal Server Error" "ok")
      (World_init [] 0 ∅)
    = Ok ("id", None) w'.
Proof. eexists. vm_compute. reflexivity. Qed.

(** ** The Reporter *)

Section ReportInfo.
Import parse_and_submit.

(** The record of [processReportInfo] carries the machine name. *)
Lemma processReportInfo_record (i : CkoTasksReportInfo) (h : heap) :
  exists h',
    processReportInfo (Some i) h =
      Ok [{| Subtype := "info"; Result := machine_name (Machine i);
             Data := Some (length h) |}] h'.
Proof. unfold processReportInfo. run. by eexists. Qed.

(** JSON null decodes into both targets without an error: the name is the
    empty name of the struct. *)
Lemma machine_name_null : machine_name (Some JNull) = "".
Proof. reflexivity. Qed.

(** An empty bare string is taken for a failure. *)
Lemma machine_name_claimed_fails : ~ machine_name_claimed.
Proof. intros [Hs _]. specialize (Hs ""). discriminate. Qed.

(** C8, as the code has it.  The record of the info section has the machine
    name as its primary value, and the name is: the string itself when
    [info.machine] is a bare string that is not empty ([win7] for ["win7"]);
    [FAILED] when it is the empty string; the name field when it is an object
    that decodes ([win10] for [{"name":"win10"}]); [FAILED] when the field is
    missing, and when neither decoding goes through. *)
Theorem machine_name_rule :
  (forall i h, exists h',
      processReportInfo (Some i) h =
        Ok [{| Subtype := "info"; Result := machine_name (Machine i);
               Data := Some (length h) |}] h') /\
  (forall s, s <> "" -> machine_name (Some (JString s)) = s) /\
  machine_name (Some (JString "win7")) = "win7" /\
  machine_name (Some (JString "")) = "FAILED" /\
  (forall members name,
      RawMessage.Unmarshal_name_members members "" None = (name, None) ->
      machine_name (Some (JObject members)) = name) /\
  machine_name (Some (JObject [("name", JString "win10")])) = "win10" /\
  machine_name None = "FAILED" /\
  (forall raw,
      snd (RawMessage.Unmarshal_string raw "") <> None ->
      snd (Unmarshal_machine raw {| machine_Name := "" |}) <> None ->
      machine_name raw = "FAILED").
Proof.
  split; [apply processReportInfo_record|].
  split.
  { intros s Hs. unfold machine_name. cbn.
    rewrite decide_False by done.
    by rewrite decide_False by (by intros [Hn|He]; [apply Hn|apply Hs]). }
  split; [done|]. split; [done|]. split.
  { intros members name Hm. unfold machine_name. cbn. rewrite Hm.
    by rewrite decide_True by done. }
  split; [done|]. split; [done|].
  intros raw Hs Hm. unfold machine_name.
  destruct (RawMessage.Unmarshal_string raw "") as [s e].
  destruct (Unmarshal_machine raw _) as [m e']. cbn in *.
  rewrite (decide_False (P := e' = None)) by done.
  by rewrite decide_True by (by left).
Qed.
End ReportInfo.

Section ReportSignatures.
Import parse_and_submit.

Lemma signatures_loop_run resMap sigs : forall (h : heap) m,
  h !! resMap = Some m ->
  signatures_loop resMap (Some <$> sigs) h =
    Ok ((fun sig => {| Subtype := "signature"; Result := Description sig;
                       Data := Some resMap |}) <$> sigs)
       (<[resMap :=
            foldl (fun m sig =>
                     <["name" := VStr (sig_Name sig)]>
                       (<["severity" := VStr (GoInt.Itoa (Severity sig))]> m))
                  m sigs]> h).
Proof.
  induction sigs as [|sig sigs IH]; intros h m Hm; cbn.
  { by rewrite list_insert_id. }
  run. erewrite IH.
  2:{ rewrite !list_lookup_alter, !decide_True by done. by rewrite Hm. }
  cbn. f_equal. apply list_eq. intros i.
  destruct (decide (i = resMap)) as [->|Hne].
  - rewrite !list_lookup_insert_eq; [done| |].
    + by eapply lookup_lt_Some.
    + rewrite !length_alter. by eapply lookup_lt_Some.
  - by rewrite !list_lookup_insert_ne, !list_lookup_alter_ne by done.
Qed.

(** [processReportSignatures] returns one record per signature, in order,
    with the subtype and the description; every record holds the one map of
    the function, which is left with the severity and the name of the last
    signature. *)
Lemma processReportSignatures_records sigs (h : heap) :
  processReportSignatures (Some (Some <$> sigs)) h =
    Ok ((fun sig => {| Subtype := "signature"; Result := Description sig;
                       Data := Some (length h) |}) <$> sigs)
       (h ++ [signatures_attrs sigs]).
Proof.
  unfold processReportSignatures, make_map. unfold bind.
  rewrite (signatures_loop_run _ _ _ ∅) by (by rewrite lookup_app_r, Nat.sub_diag).
  f_equal. by rewrite insert_app_r_alt, Nat.sub_diag.
Qed.

(** C4 at two signatures that differ: the record of the first one shows the
    severity and the name of the second. *)
Theorem processReportSignatures_shared_map :
  let sig1 := {| Severity := 1; Description := "Queries the disk size";
                 sig_Name := "antivm_disk_size" |} in
  let sig2 := {| Severity := 3; Description := "Installs itself for autorun";
                 sig_Name := "persistence_autorun" |} in
  exists r1 r2 h',
    processReportSignatures (Some [Some sig1; Some sig2]) [] = Ok [r1; r2] h' /\
    Result r1 = Description sig1 /\ Result r2 = Description sig2 /\
    Data r1 = Data r2 /\
    (attrs_of h' r1 ≫= (.!! "name")) = Some (VStr (sig_Name sig2)) /\
    (attrs_of h' r1 ≫= (.!! "severity")) = Some (VStr "3").
Proof.
  intros sig1 sig2.
  pose proof (processReportSignatures_records [sig1; sig2] []) as Hrun.
  cbn [fmap list_fmap] in Hrun. eexists _, _, _. split; [exact Hrun|].
  repeat split; vm_compute; reflexivity.
Qed.

(** The claim as worded does not hold of the code. *)
Lemma signature_records_claimed_fails : ~ signature_records_claimed.
Proof.
  intros Hclaim.
  destruct (Hclaim [ {| Severity := 1; Description := "d1"; sig_Name := "n1" |};
                     {| Severity := 3; Description := "d2"; sig_Name := "n2" |} ] [])
    as (res & h' & Hrun & Hall).
  rewrite processReportSignatures_records in Hrun. injection Hrun as <- <-.
  apply Forall2_cons_1 in Hall as [(_ & _ & m & Hm & _ & Hname) _].
  vm_compute in Hm. injection Hm as <-. vm_compute in Hname. discriminate.
Qed.
End ReportSignatures.

Section ReportBehavior.
Import parse_and_submit.
Variable pushApiCallsMax : Z.
Hypothesis cap_is_int : pushApiCallsMax <= GoInt.max_int.

Lemma is_call_record_extend (h ext : heap) r pc :
  is_call_record h r pc -> is_call_record (h ++ ext) r pc.
Proof.
  intros (Hs & Hr & m & Hd & Hm). repeat split; try done.
  exists m. split; [done|]. by apply lookup_app_l_Some.
Qed.

(** The inner loop: it takes the calls up to the room the cap leaves, in
    order, and gives each a record with a map of its own. *)
Lemma calls_loop_run desc calls : forall n (h : heap) res n' h',
  0 <= n ->
  calls_loop pushApiCallsMax desc calls n h = Ok (res, n') h' ->
  exists cs ext,
    take (Z.to_nat (pushApiCallsMax - n)) calls = Some <$> cs /\
    n' = n + Z.of_nat (length cs) /\
    h' = h ++ ext /\
    Forall2 (is_call_record h') res (pair desc <$> cs).
Proof.
  induction calls as [|c calls IH]; intros n h res n' h' Hn Hrun; cbn in Hrun.
  { injection Hrun as <- <- <-. exists [], []. rewrite take_nil, app_nil_r.
    split; [done|]. split; [cbn; lia|]. split; [done|]. constructor. }
  destruct (Z.leb_spec pushApiCallsMax n) as [Hfull|Hroom].
  { injection Hrun as <- <- <-. exists [], [].
    replace (Z.to_nat (pushApiCallsMax - n)) with 0%nat by lia.
    rewrite app_nil_r.
    split; [done|]. split; [cbn; lia|]. split; [done|]. constructor. }
  destruct c as [c|]; [|done]. revert Hrun. run.
  unfold GoInt.add. rewrite wrap_small by (unfold GoInt.min_int, GoInt.max_int in *; lia).
  rewrite insert_app_r_alt, Nat.sub_diag by done. cbn.
  destruct (calls_loop _ _ _ _ _) as [[res1 n1] h1| |] eqn:Hrest; [|done..].
  intros [= <- <- <-].
  apply IH in Hrest as (cs & ext & Htake & -> & -> & Hall); [|lia].
  exists (c :: cs), (call_attrs desc c :: ext).
  replace (Z.to_nat (pushApiCallsMax - n))
    with (S (Z.to_nat (pushApiCallsMax - (n + 1)))) by lia.
  cbn. rewrite Htake. split; [done|]. split; [lia|].
  rewrite <- app_assoc. split; [done|]. constructor; [|by rewrite <- app_assoc in Hall].
  repeat split; try done. eexists. split; [done|].
  by rewrite lookup_app_r, Nat.sub_diag.
Qed.

(** The outer loop: the calls of all processes, process by process, up to
    the room the cap leaves. *)
Lemma api_calls_loop_run ps : forall n (h : heap) res h',
  0 <= n ->
  api_calls_loop pushApiCallsMax ps n h = Ok res h' ->
  exists pss pcs ext,
    ps = Some <$> pss /\
    take (Z.to_nat (pushApiCallsMax - n)) (call_slots pss) = Some <$> pcs /\
    h' = h ++ ext /\
    Forall2 (is_call_record h') res pcs.
Proof.
  induction ps as [|p ps IH]; intros n h res h' Hn Hrun; cbn in Hrun.
  { injection Hrun as <- <-. exists [], [], []. rewrite app_nil_r.
    split; [done|]. split; [by cbn; rewrite take_nil|]. split; [done|].
    constructor. }
  destruct p as [p|]; [|done]. revert Hrun. run.
  destruct (calls_loop _ _ _ _ _) as [[res1 n1] h1| |] eqn:Hcalls; [|done..].
  destruct (api_calls_loop _ _ _ _) as [res2 h2| |] eqn:Hrest; [|done..].
  intros [= <- <-].
  apply calls_loop_run in Hcalls as (cs & ext1 & Htake1 & -> & -> & Hall1); [|done].
  apply IH in Hrest as (pss & pcs & ext2 & -> & Htake2 & -> & Hall2); [|lia].
  exists (p :: pss), ((pair (procDescription_of p) <$> cs) ++ pcs), (ext1 ++ ext2).
  split; [done|]. split; [|split; [by rewrite app_assoc|]].
  - cbn [call_slots List.flat_map]. fold (call_slots pss).
    rewrite take_app, length_map.
    assert (Hlen : length cs = (Z.to_nat (pushApiCallsMax - n) `min` length (Calls p))%nat).
    { rewrite <- length_take, Htake1. by rewrite length_fmap. }
    replace (Z.to_nat (pushApiCallsMax - n) - length (Calls p))%nat
      with (Z.to_nat (pushApiCallsMax - (n + Z.of_nat (length cs)))) by lia.
    rewrite Htake2, fmap_app. f_equal.
    change (List.map ?f ?l) with (f <$> l).
    rewrite <- fmap_take, Htake1, <- !list_fmap_compose. done.
  - apply Forall2_app; [|done].
    eapply Forall2_impl; [exact Hall1|]. intros r pc. apply is_call_record_extend.
Qed.

Lemma processes_loop_run resMap ps : forall (h : heap) res h',
  processes_loop resMap ps h = Ok res h' ->
  List.filter is_api_call res = [].
Proof.
  induction ps as [|p ps IH]; intros h res h' Hrun; cbn in Hrun.
  { by injection Hrun as <- <-. }
  destruct p as [p|]; [|done]. revert Hrun. run.
  destruct (processes_loop _ _ _) as [res1 h1| |] eqn:Hrest; [|done..].
  intros [= <- <-]. cbn. unfold is_api_call at 1. cbn.
  rewrite bool_decide_eq_false_2 by done. eauto.
Qed.

Lemma summary_records_no_api_call subtype l :
  subtype <> "api_call" ->
  List.filter is_api_call (summary_records subtype l) = [].
Proof.
  intros Hs. unfold summary_records. induction (default [] l) as [|b bs IH]; [done|].
  cbn. unfold is_api_call at 1. cbn. by rewrite bool_decide_eq_false_2.
Qed.

Lemma filter_all_api_call (h : heap) res pcs :
  Forall2 (is_call_record h) res pcs -> List.filter is_api_call res = res.
Proof.
  induction 1 as [|r pc res pcs (Hs & _) _ IH]; [done|].
  cbn. unfold is_api_call at 1. rewrite bool_decide_eq_true_2 by done. by f_equal.
Qed.

(** The loops go through when no pointer is nil. *)
Lemma calls_loop_total desc calls : forall n (h : heap),
  Forall is_Some calls ->
  exists res n' h', calls_loop pushApiCallsMax desc calls n h = Ok (res, n') h'.
Proof.
  induction calls as [|c calls IH]; intros n h Hall; cbn; [by eexists _, _, _|].
  destruct (pushApiCallsMax <=? n); [by eexists _, _, _|].
  apply Forall_cons in Hall as [[c' ->] Hall]. run.
  edestruct IH as (res & n' & h' & ->); [done|]. by eexists _, _, _.
Qed.

Lemma api_calls_loop_total ps : forall n (h : heap),
  Forall (fun p => exists p', p = Some p' /\ Forall is_Some (Calls p')) ps ->
  exists res h', api_calls_loop pushApiCallsMax ps n h = Ok res h'.
Proof.
  induction ps as [|p ps IH]; intros n h Hall; cbn; [by eexists _, _|].
  apply Forall_cons in Hall as [(p' & -> & Hcalls) Hall]. run.
  edestruct calls_loop_total as (res & n' & h' & ->); [done|].
  edestruct IH as (res' & h'' & ->); [done|]. by eexists _, _.
Qed.

Lemma processes_loop_total resMap ps : forall (h : heap),
  Forall (fun p => exists p', p = Some p' /\ Forall is_Some (Calls p')) ps ->
  exists res h', processes_loop resMap ps h = Ok res h'.
Proof.
  induction ps as [|p ps IH]; intros h Hall; cbn; [by eexists _, _|].
  apply Forall_cons in Hall as [(p' & -> & _) Hall]. run.
  edestruct IH as (res' & h'' & ->); [done|]. by eexists _, _.
Qed.

(** C9.  The [api_call] records that [processReportBehavior] returns are the
    records of the first [pushApiCallsMax] calls of the section, taken
    process by process and call by call, in that order, each with the
    attributes of its call.  So their number does not exceed the cap, and it
    is zero when the cap is zero.  A section without a nil pointer gives a
    result. *)
Theorem processReportBehavior_api_cap (behavior : CkoTasksReportBehavior) :
  (forall (h : heap) res h',
      processReportBehavior pushApiCallsMax (Some behavior) h = Ok res h' ->
      exists ps pcs,
        default [] (Processes behavior) = Some <$> ps /\
        take (Z.to_nat pushApiCallsMax) (call_slots ps) = Some <$> pcs /\
        Forall2 (is_call_record h') (List.filter is_api_call res) pcs /\
        (0 <= pushApiCallsMax ->
         Z.of_nat (length (List.filter is_api_call res)) <= pushApiCallsMax) /\
        (pushApiCallsMax = 0 -> List.filter is_api_call res = [])) /\
  (well_formed behavior ->
   forall h : heap, exists res h',
     processReportBehavior pushApiCallsMax (Some behavior) h = Ok res h').
Proof.
  split.
  - intros h res h'. unfold processReportBehavior, make_map. run.
    destruct (processes_loop _ _ _) as [res1 h1| |] eqn:Hprocs; [|done..].
    destruct (api_calls_loop _ _ _ _) as [res2 h2| |] eqn:Hapi; [|done..].
    destruct (Summary behavior) as [summary|]; [|done]. cbn.
    intros [= <- <-].
    apply processes_loop_run in Hprocs.
    apply api_calls_loop_run in Hapi as (ps & pcs & ext & Hps & Htake & -> & Hall);
      [|done].
    rewrite Z.sub_0_r in Htake.
    rewrite !List.filter_app, Hprocs, !summary_records_no_api_call by done.
    rewrite !app_nil_r. cbn [app]. rewrite (filter_all_api_call _ _ _ Hall).
    exists ps, pcs. split; [done|]. split; [done|]. split; [done|].
    assert (Hlen : (length res2 <= Z.to_nat pushApiCallsMax)%nat).
    { rewrite (Forall2_length _ _ _ Hall), <- (length_fmap Some), <- Htake.
      rewrite length_take. lia. }
    split; [lia|]. intros Hz. rewrite Hz in Hlen. by destruct res2; [|cbn in Hlen; lia].
  - intros [Hps Hsum] h. unfold processReportBehavior, make_map. run.
    edestruct processes_loop_total as (res1 & h1 & ->); [done|].
    edestruct api_calls_loop_total as (res2 & h2 & ->); [done|].
    destruct Hsum as [summary ->]. cbn. by eexists _, _.
Qed.
End ReportBehavior.

(** * More of the workers *)

(** ** Runs with the broker working *)

Lemma bind_Ok {S A B} (m : M S A) (k : A -> M S B) s a s' :
  m s = Ok a s' -> bind m k s = k a s'.
Proof. unfold bind. by intros ->. Qed.

Lemma bind_Panic {S A B} (m : M S A) (k : A -> M S B) s msg s' :
  m s = Panic msg s' -> bind m k s = Panic msg s'.
Proof. unfold bind. by intros ->. Qed.

Lemma events_since_app w w' new :
  w_events w' = w_events w ++ new -> events_since w w' = new.
Proof. intros E. unfold events_since. by rewrite E, drop_app_length. Qed.

Lemma bus_events_app l1 l2 : bus_events (l1 ++ l2) = bus_events l1 ++ bus_events l2.
Proof. apply List.filter_app. Qed.

Section CoreRuns.
Context `{GoJson}.

(** [NackOnError], the broker working: nothing on a nil error; the envelope
    and the nack otherwise. *)
Lemma NackOnError_run c err desc msg w :
  w_faults w = [] ->
  exists new w',
    NackOnError c err desc msg w = Ok (bool_decide (err <> None)) w' /\
    w_events w' = w_events w ++ new /\ w_faults w' = [] /\
    w_fs w' = w_fs w /\ w_heap w' = w_heap w /\ w_now w' = w_now w /\
    match err with
    | Some e => bus_events new =
                  [EvPublish (qh_Queue (failed c)) (FailedEnvelope c msg e desc);
                   EvNack (DeliveryTag msg) false false]
    | None => new = []
    end.
Proof.
  intros Hf. destruct w as [ev fl now fs hp]. cbn in *. subst fl.
  destruct err as [e|]; cbn.
  - unfold FailedEnvelope. destruct (json_Marshal_FailedMsg _) as [jm [me|]]; run;
      eexists _, _; (split; [reflexivity|]); cbn; rewrite <- !app_assoc;
      (split; [reflexivity|]); done.
  - exists [], (Build_World ev [] now fs hp). by rewrite app_nil_r.
Qed.

(** The end of a handler that goes through: hand over, ack. *)
Lemma Send_Ack_run {A} q body msg (a : A) w :
  w_faults w = [] ->
  exists new w',
    (let* _ := Send q body in
     let* err := Delivery_Ack msg false in
     let* _ := (match err with
                | Some e => log Warning ("Sending ACK failed! " +:+ e +:+ nl)
                | None => ret tt
                end) in
     ret a) w = Ok a w' /\
    w_events w' = w_events w ++ new /\ w_faults w' = [] /\
    w_fs w' = w_fs w /\ w_heap w' = w_heap w /\ w_now w' = w_now w /\
    bus_events new = [EvPublish (qh_Queue q) body; EvAck (DeliveryTag msg) false].
Proof.
  intros Hf. destruct w as [ev fl now fs hp]. cbn in *. subst fl. run.
  eexists _, _. split; [reflexivity|]. cbn. rewrite <- !app_assoc. by split.
Qed.
End CoreRuns.

(** ** lib: the Sandbox client *)

Section SandboxProps.
Context `{GoJson} `{GoCodecs} `{GoReport}.
Import check_results.

(** [TaskStatus] does nothing on the broker and uses no fault; it hands
    over the status the answer reports, or an error, or it panics. *)
Lemma TaskStatus_run cko id http w :
  exists new,
    w_events (final (TaskStatus cko id http w)) = w_events w ++ new /\
    bus_events new = [] /\
    w_faults (final (TaskStatus cko id http w)) = w_faults w /\
    match reported_status http with
    | Some s => exists w', TaskStatus cko id http w = Ok (s, None) w'
    | None =>
        (exists e w', TaskStatus cko id http w = Ok ("", Some e) w') \/
        (exists w', TaskStatus cko id http w = Panic nil_deref w')
    end.
Proof.
  unfold TaskStatus, FastGet, reported_status.
  destruct http as [e|code st e|code st body]; run.
  - case_decide as Hd; [|destruct Hd; by left]. cbn.
    eexists. rewrite <- app_assoc. split; [done|]. split; [done|]. split; [done|].
    left. by eexists _, _.
  - case_decide as Hd; [|destruct Hd; by left]. cbn.
    eexists. rewrite <- app_assoc. split; [done|]. split; [done|]. split; [done|].
    left. by eexists _, _.
  - destruct (json_Unmarshal_CkoTasksViewResp body) as [r [e|]]; run;
      case_decide as Hd; run.
    + eexists. rewrite <- !app_assoc. split; [done|]. split; [done|]. split; [done|].
      left. by eexists _, _.
    + destruct Hd. by left.
    + eexists. rewrite <- !app_assoc. split; [done|]. split; [done|]. split; [done|].
      destruct Hd as [|Hd]; [done|]. rewrite decide_False by done. right. by eexists.
    + assert (code = 200) as ->
        by (destruct (decide (code = 200)); [done|]; destruct Hd; by right).
      rewrite decide_True by done.
      destruct (Task r) as [t|]; run;
        (eexists; rewrite <- !app_assoc; split; [done|]; split; [done|]; split; [done|]).
      * by eexists.
      * right. by eexists.
Qed.

(** X1.  What [TaskStatus] returns, answer by answer.  When no answer comes,
    or its body cannot be read, the error of the transport with an empty
    status.  When the body does not decode, the error of the decoder,
    followed by the status code and the body.  When the body decodes: the
    status text of the task for an answer with code 200 that names a task;
    the panic of a nil dereference for an answer with another code (the
    text of a nil error is asked for) and for one that names no task. *)
Theorem TaskStatus_outcomes (cko : CuckooConn) (id : Z) (http : HttpResult)
    (w : World) :
  match http with
  | HttpFail e | HttpReadFail _ _ e =>
      exists w', TaskStatus cko id http w = Ok ("", Some e) w'
  | HttpResp code _ body =>
      match json_Unmarshal_CkoTasksViewResp body with
      | (_, Some e) =>
          exists w',
            TaskStatus cko id http w =
              Ok ("", Some (e +:+ " -> [" +:+ GoInt.Itoa code +:+ "] " +:+ body)) w'
      | (r, None) =>
          match Task r with
          | Some task =>
              if decide (code = 200)
              then exists w', TaskStatus cko id http w = Ok (view_Status task, None) w'
              else exists w', TaskStatus cko id http w = Panic nil_deref w'
          | None => exists w', TaskStatus cko id http w = Panic nil_deref w'
          end
      end
  end.
Proof.
  unfold TaskStatus, FastGet.
  destruct http as [e|code st e|code st body]; run.
  - rewrite decide_True by (by left). by eexists.
  - rewrite decide_True by (by left). by eexists.
  - destruct (json_Unmarshal_CkoTasksViewResp body) as [r [e|]]; run.
    + rewrite decide_True by (by left). by eexists.
    + destruct (Task r) as [task|]; destruct (decide (code = 200)) as [->|Hne].
      * rewrite decide_False by (by intros [|]). run. by eexists.
      * rewrite decide_True by (by right). run. by eexists.
      * rewrite decide_False by (by intros [|]). run. by eexists.
      * rewrite decide_True by (by right). run. by eexists.
Qed.

(** X2.  An answer with a status code other than 200.  [GetStatus],
    [GetPending] and [TaskReport], when the body decodes, and [GetDropped],
    whatever the body, ask for the text of an error that is nil: they end in
    the panic of a nil dereference, and return no error.  [DeleteTask]
    returns the error that names the code. *)
Theorem sandbox_status_not_200 (cko : CuckooConn) (id code : Z) (st body : string)
    (w : World) :
  code <> 200 ->
  (snd (json_Unmarshal_CkoStatus body) = None ->
   (exists w', GetStatus cko (HttpResp code st body) w = Panic nil_deref w') /\
   (exists w', GetPending cko (HttpResp code st body) w = Panic nil_deref w')) /\
  (snd (json_Unmarshal_CkoTasksReport body) = None ->
   exists w', TaskReport cko id (HttpResp code st body) w = Panic nil_deref w') /\
  (exists w', GetDropped cko id (HttpResp code st body) w = Panic nil_deref w') /\
  (exists w',
      DeleteTask cko id (HttpResp code st body) w =
        Ok (Some (GoInt.Itoa code +:+ " - Response code not 200")) w').
Proof.
  intros Hcode. split; [|split; [|split]].
  - unfold GetStatus, GetPending, FastGet.
    destruct (json_Unmarshal_CkoStatus body) as [r [e|]]; cbn [snd]; [done|].
    intros _. run.
    split; rewrite decide_True by (by right); run; by eexists.
  - unfold TaskReport, FastGet.
    destruct (json_Unmarshal_CkoTasksReport body) as [r [e|]]; cbn [snd]; [done|].
    intros _. run.
    rewrite decide_True by (by right). run. by eexists.
  - unfold GetDropped, FastGet. run.
    rewrite decide_True by (by right). run. by eexists.
  - unfold DeleteTask, FastGet. run.
    rewrite decide_True by done. run. by eexists.
Qed.
End SandboxProps.

(** ** The Watcher *)

Section WatcherProps.
Context `{GoJson} `{GoCodecs}.
Import check_results.

Lemma Sleep_seconds_run n w :
  exists new w',
    Sleep_seconds n w = Ok tt w' /\
    w_events w' = w_events w ++ new /\ w_faults w' = w_faults w /\
    w_fs w' = w_fs w /\ w_heap w' = w_heap w /\
    bus_events new = [].
Proof.
  unfold Sleep_seconds. destruct (0 <? _); run.
  - eexists _, _. split; [done|]. by cbn.
  - exists [], w. by rewrite app_nil_r.
Qed.

Lemma settled_app l1 l2 : settled (l1 ++ l2) = settled l1 ++ settled l2.
Proof. apply omap_app. Qed.

Lemma settled_bus tr : settled (bus_events tr) = settled tr.
Proof.
  unfold bus_events. induction tr as [|e tr IH]; [done|].
  destruct e; cbn; try exact IH; f_equal; exact IH.
Qed.

Lemma check_run wt k v http w :
  w_faults w = [] ->
  exists new w',
    final (check wt k v http w) = w' /\
    w_events w' = w_events w ++ new /\ w_faults w' = [] /\
    match reported_status http with
    | Some status =>
        if decide (status = "reported") then
          match json_Marshal_CheckResultsReq (ready v) with
          | (crMsg, None) =>
              check wt k v http w = Ok (set_watchMap wt (delete k (watchMap wt))) w' /\
              bus_events new =
                [EvPublish (qh_Queue (producer wt)) crMsg;
                 EvAck (DeliveryTag (Msg v)) false]
          | (_, Some _) =>
              check wt k v http w = Ok (set_watchMap wt (delete k (watchMap wt))) w' /\
              rejected (c wt) (Msg v) "Could not create CheckResultsReq!"
                (bus_events new)
          end
        else
          check wt k v http w = Ok wt w' /\ bus_events new = []
    | None =>
        (check wt k v http w = Ok (set_watchMap wt (delete k (watchMap wt))) w' /\
         rejected (c wt) (Msg v) "Couldn't get cuckoo status of task!"
           (bus_events new)) \/
        (check wt k v http w = Panic nil_deref w' /\ bus_events new = [])
    end.
Proof.
  intros Hf. remember (check wt k v http w) as r eqn:Hr. unfold check in Hr.
  destruct (Sleep_seconds_run (wbr wt) w) as (n0 & w0 & Hs & Hev0 & Hf0 & _ & _ & Hb0).
  rewrite (bind_Ok _ _ _ _ _ Hs) in Hr. rewrite Hf in Hf0.
  destruct (TaskStatus_run {| cko_URL := fcr_CuckooURL (Req v) |}
              (fcr_TaskId (Req v)) http w0) as (n1 & Hev1 & Hb1 & Hf1 & Hout).
  fold (ready v) in Hr.
  destruct (reported_status http) as [status|].
  - destruct Hout as [w1 Hrun]. rewrite Hrun in Hev1, Hf1. cbn in Hev1, Hf1.
    rewrite (bind_Ok _ _ _ _ _ Hrun) in Hr. cbn in Hr.
    destruct (decide (status = "reported")) as [->|Hne].
    + rewrite decide_False in Hr by (by intros []).
      destruct (json_Marshal_CheckResultsReq (ready v)) as [crMsg [e|]].
      * destruct (NackOnError_run (c wt) (Some e) "Could not create CheckResultsReq!"
                    (Msg v) w1) as (n2 & w2 & Hn & Hev2 & Hf2 & _ & _ & _ & Hb2);
          [congruence|].
        rewrite (bind_Ok _ _ _ _ _ Hn) in Hr. cbn in Hr.
        exists (n0 ++ n1 ++ n2), w2. subst r.
        split; [done|]. split; [by rewrite Hev2, Hev1, Hev0, <- !app_assoc|].
        split; [done|]. split; [done|]. exists e.
        by rewrite !bus_events_app, Hb0, Hb1, Hb2.
      * cbn in Hr.
        destruct (Send_Ack_run (producer wt) crMsg (Msg v)
                    (set_watchMap wt (delete k (watchMap wt))) w1)
          as (n2 & w2 & Hn & Hev2 & Hf2 & _ & _ & _ & Hb2); [congruence|].
        rewrite Hn in Hr. exists (n0 ++ n1 ++ n2), w2. subst r.
        split; [done|]. split; [by rewrite Hev2, Hev1, Hev0, <- !app_assoc|].
        split; [done|]. split; [done|].
        by rewrite !bus_events_app, Hb0, Hb1, Hb2.
    + rewrite decide_True in Hr by done. exists (n0 ++ n1), w1. subst r.
      split; [done|]. split; [by rewrite Hev1, Hev0, <- !app_assoc|].
      split; [congruence|]. split; [done|].
      by rewrite !bus_events_app, Hb0, Hb1.
  - destruct Hout as [(e & w1 & Hrun)|(w1 & Hrun)];
      rewrite Hrun in Hev1, Hf1; cbn in Hev1, Hf1.
    + rewrite (bind_Ok _ _ _ _ _ Hrun) in Hr. cbn in Hr.
      destruct (NackOnError_run (c wt) (Some e) "Couldn't get cuckoo status of task!"
                  (Msg v) w1) as (n2 & w2 & Hn & Hev2 & Hf2 & _ & _ & _ & Hb2);
        [congruence|].
      rewrite (bind_Ok _ _ _ _ _ Hn) in Hr. cbn in Hr.
      exists (n0 ++ n1 ++ n2), w2. subst r.
      split; [done|]. split; [by rewrite Hev2, Hev1, Hev0, <- !app_assoc|].
      split; [done|]. left. split; [done|]. exists e.
      by rewrite !bus_events_app, Hb0, Hb1, Hb2.
    + rewrite (bind_Panic _ _ _ _ _ Hrun) in Hr.
      exists (n0 ++ n1), w1. subst r.
      split; [done|]. split; [by rewrite Hev1, Hev0, <- !app_assoc|].
      split; [congruence|]. right. split; [done|].
      by rewrite !bus_events_app, Hb0, Hb1.
Qed.

(** X3.  One probe of an entry of the table, the broker working.  When the
    Sandbox reports the task as [reported], the Watcher publishes the
    encoding of the hand-over (Sandbox URL, task id and context of the
    entry) to its producer queue, acks the delivery of the entry and takes
    the entry out of the table; when the hand-over cannot be encoded, the
    delivery goes to the failed queue and is nacked, and the entry is taken
    out as well.  On any other status nothing is done on the broker and the
    table is left as it is.  When the status cannot be had, the delivery
    goes to the failed queue, is nacked and the entry is taken out; or the
    probe ends in the panic of [TaskStatus], with nothing done on the
    broker. *)
Theorem check_disposition (wt : Watcher) (k : string) (v : watchElem)
    (http : HttpResult) (w : World) :
  w_faults w = [] ->
  match reported_status http with
  | Some status =>
      exists w',
        if decide (status = "reported") then
          match json_Marshal_CheckResultsReq (ready v) with
          | (crMsg, None) =>
              check wt k v http w = Ok (set_watchMap wt (delete k (watchMap wt))) w' /\
              bus_events (events_since w w') =
                [EvPublish (qh_Queue (producer wt)) crMsg;
                 EvAck (DeliveryTag (Msg v)) false]
          | (_, Some _) =>
              check wt k v http w = Ok (set_watchMap wt (delete k (watchMap wt))) w' /\
              rejected (c wt) (Msg v) "Could not create CheckResultsReq!"
                (bus_events (events_since w w'))
          end
        else
          check wt k v http w = Ok wt w' /\ bus_events (events_since w w') = []
  | None =>
      (exists w',
          check wt k v http w = Ok (set_watchMap wt (delete k (watchMap wt))) w' /\
          rejected (c wt) (Msg v) "Couldn't get cuckoo status of task!"
            (bus_events (events_since w w'))) \/
      (exists w',
          check wt k v http w = Panic nil_deref w' /\
          bus_events (events_since w w') = [])
  end.
Proof.
  intros Hf.
  destruct (check_run wt k v http w Hf) as (new & w' & _ & Hev & _ & Hout).
  apply events_since_app in Hev.
  destruct (reported_status http) as [status|].
  - exists w'. rewrite Hev. done.
  - destruct Hout as [Hout|Hout]; [left|right]; exists w'; by rewrite Hev.
Qed.

(** What one probe does to the table and to the deliveries. *)
Lemma check_step wt k v http w wt' w' :
  w_faults w = [] ->
  watchMap wt !! k = Some v ->
  check wt k v http w = Ok wt' w' ->
  w_faults w' = [] /\
  exists new, w_events w' = w_events w ++ new /\
    ((wt' = wt /\ settled new = []) \/
     (wt' = set_watchMap wt (delete k (watchMap wt)) /\
      settled new = [DeliveryTag (Msg v)])).
Proof.
  intros Hf Hk Hrun.
  destruct (check_run wt k v http w Hf) as (new & w1 & Hfin & Hev & Hf1 & Hout).
  rewrite Hrun in Hfin. cbn in Hfin. subst w1. split; [done|].
  exists new. split; [done|]. rewrite <- (settled_bus new).
  destruct (reported_status http) as [status|].
  - destruct (decide (status = "reported")).
    + destruct (json_Marshal_CheckResultsReq (ready v)) as [crMsg [me|]].
      * destruct Hout as [Hr [e' ->]]. rewrite Hrun in Hr. injection Hr as ->.
        by right.
      * destruct Hout as [Hr ->]. rewrite Hrun in Hr. injection Hr as ->. by right.
    + destruct Hout as [Hr ->]. rewrite Hrun in Hr. injection Hr as ->. by left.
  - destruct Hout as [[Hr [e' ->]]|[Hr _]]; rewrite Hrun in Hr; [|done].
    injection Hr as ->. by right.
Qed.

Lemma tag_of_delete wt k k' t :
  tag_of (set_watchMap wt (delete k (watchMap wt))) k' t -> tag_of wt k' t.
Proof.
  intros (v & Hv & Ht). exists v. split; [|done]. cbn in Hv.
  by apply lookup_delete_Some in Hv as [_ Hv].
Qed.

Lemma check_range_run order : forall wt answers w wt' w',
  w_faults w = [] ->
  check_range wt order answers w = Ok wt' w' ->
  w_faults w' = [] /\
  c wt' = c wt /\ producer wt' = producer wt /\ wbr wt' = wbr wt /\
  exists new removed,
    w_events w' = w_events w ++ new /\
    Forall2 (tag_of wt) removed (settled new) /\
    watchMap wt' = foldr delete (watchMap wt) (reverse removed).
Proof.
  induction order as [|k order IH]; intros wt answers w wt' w' Hf Hrun; cbn in Hrun.
  { injection Hrun as <- <-. repeat (split; [done|]). exists [], [].
    rewrite app_nil_r. by split; [|split; [constructor|]]. }
  destruct (watchMap wt !! k) as [v|] eqn:Hk; [|by eapply IH].
  destruct answers as [|http answers]; [done|].
  unfold bind in Hrun.
  destruct (check wt k v http w) as [wt1 w1| |] eqn:Hcheck; [|done..].
  destruct (check_step _ _ _ _ _ _ _ Hf Hk Hcheck) as (Hf1 & new & Hev & Hcase).
  destruct (IH _ _ _ _ _ Hf1 Hrun)
    as (Hf' & Hc & Hp & Hw & new' & removed & Hev' & Hall & Hmap).
  split; [done|].
  destruct Hcase as [[-> Hs]|[-> Hs]].
  - repeat (split; [done|]). exists (new ++ new'), removed.
    rewrite Hev', Hev, <- app_assoc, settled_app, Hs. done.
  - repeat (split; [done|]). exists (new ++ new'), (k :: removed).
    rewrite Hev', Hev, <- app_assoc, settled_app, Hs. split; [done|]. split.
    + constructor; [by exists v|].
      eapply Forall2_impl; [exact Hall|]. intros k' t. apply tag_of_delete.
    + rewrite Hmap, reverse_cons. cbn. by rewrite foldr_app.
Qed.

Lemma check_range_total order : forall wt answers w,
  w_faults w = [] ->
  Forall (fun http => is_Some (reported_status http)) answers ->
  (length order <= length answers)%nat ->
  exists wt' w', check_range wt order answers w = Ok wt' w'.
Proof.
  induction order as [|k order IH]; intros wt answers w Hf Hall Hlen; cbn.
  { by eexists _, _. }
  destruct (watchMap wt !! k) as [v|] eqn:Hk.
  2:{ apply IH; [done|done|]. cbn in Hlen. lia. }
  destruct answers as [|http answers]; [cbn in Hlen; lia|].
  apply Forall_cons in Hall as [[status Hst] Hall].
  destruct (check_run wt k v http w Hf) as (new & w1 & _ & _ & Hf1 & Hout).
  rewrite Hst in Hout.
  assert (exists wt1, check wt k v http w = Ok wt1 w1) as [wt1 Hrun].
  { destruct (decide (status = "reported")) as [Heq|Hne].
    - destruct (json_Marshal_CheckResultsReq (ready v)) as [crMsg [e|]];
        destruct Hout as [Hr _]; eauto.
    - destruct Hout as [Hr _]; eauto. }
  rewrite (bind_Ok _ _ _ _ _ Hrun). apply IH; [done|done|]. cbn in Hlen. lia.
Qed.

(** X4.  A pass of [checkLoop] over the table, the broker working, in
    whatever order the keys come.  The deliveries that a pass which comes to
    its end has acked or nacked are, in order, those of the entries it took
    out of the table ([removed]), each held by the table before the pass;
    every other entry is still there, unchanged.  A pass goes through when
    every answer reports a status and there is an answer for every key. *)
Theorem check_pass_invariant (wt : Watcher) (order : list string)
    (answers : list HttpResult) (w : World) :
  w_faults w = [] ->
  (forall wt' w',
      check_pass wt order answers w = Ok wt' w' ->
      exists removed,
        Forall2 (tag_of wt) removed (settled (events_since w w')) /\
        forall k, watchMap wt' !! k =
                  if decide (k ∈ removed) then None else watchMap wt !! k) /\
  (Forall (fun http => is_Some (reported_status http)) answers ->
   (length order <= length answers)%nat ->
   exists wt' w', check_pass wt order answers w = Ok wt' w').
Proof.
  intros Hf. unfold check_pass.
  destruct (Sleep_seconds_run (wbr wt) w) as (n0 & w0 & Hs & Hev0 & Hf0 & _ & _ & Hb0).
  rewrite (bind_Ok _ _ _ _ _ Hs). rewrite Hf in Hf0. split.
  - intros wt' w' Hrun.
    destruct (check_range_run _ _ _ _ _ _ Hf0 Hrun)
      as (_ & _ & _ & _ & new & removed & Hev & Hall & Hmap).
    exists removed. split.
    + erewrite events_since_app; [|by rewrite Hev, Hev0, <- app_assoc].
      by rewrite settled_app, <- (settled_bus n0), Hb0.
    + intros k. rewrite Hmap. case_decide as Hin.
      * apply lookup_foldr_delete. by apply elem_of_reverse.
      * apply lookup_foldr_delete_not_elem_of. by rewrite elem_of_reverse.
  - intros Hall Hlen. by apply check_range_total.
Qed.

Lemma watcher_parseMsg_run wt msg w :
  w_faults w = [] ->
  match watched msg with
  | Some (m, cd) =>
      parseMsg wt msg w =
        Ok (set_watchMap wt (<[AnalysisId cd := {| Req := m; Msg := msg |}]>
                               (watchMap wt))) w
  | None =>
      exists desc new w',
        parseMsg wt msg w = Ok wt w' /\
        w_events w' = w_events w ++ new /\ w_faults w' = [] /\
        rejected (c wt) msg desc (bus_events new)
  end.
Proof.
  intros Hf. unfold parseMsg, watched.
  destruct (json_Unmarshal_FeedCuckooReq (Body msg)) as [m [e|]].
  { destruct (NackOnError_run (c wt) (Some e) "Could not decode json!" msg w Hf)
      as (new & w' & Hn & Hev & Hf' & _ & _ & _ & Hb).
    rewrite (bind_Ok _ _ _ _ _ Hn). cbn. eexists _, new, w'. repeat split; try done.
    by exists e. }
  cbn. destruct (FeedCuckooReq_Validate m) as [e|] eqn:Hv.
  { destruct (NackOnError_run (c wt) (Some e) "Error in msg from feed_cuckoo service!"
                msg w Hf) as (new & w' & Hn & Hev & Hf' & _ & _ & _ & Hb).
    rewrite (bind_Ok _ _ _ _ _ Hn). cbn. eexists _, new, w'. repeat split; try done.
    by exists e. }
  cbn. unfold FeedCuckooReq_Validate in Hv. case_decide; [done|].
  by destruct (fcr_CritsData m) as [cd|].
Qed.

(** X5.  [parseMsg] of the Watcher, the broker working.  A delivery whose
    body decodes to a hand-over with a Sandbox URL, a task id other than 0
    and a context is put into the table under the analysis id of its
    context, and that is all: the world is as before, the delivery neither
    acked nor nacked.  Any other delivery goes to the failed queue and is
    nacked, and the table is left as it is. *)
Theorem watcher_parseMsg_holds_delivery (wt : Watcher) (msg : Delivery) (w : World) :
  w_faults w = [] ->
  match watched msg with
  | Some (m, cd) =>
      parseMsg wt msg w =
        Ok (set_watchMap wt (<[AnalysisId cd := {| Req := m; Msg := msg |}]>
                               (watchMap wt))) w
  | None =>
      exists desc w',
        parseMsg wt msg w = Ok wt w' /\
        rejected (c wt) msg desc (bus_events (events_since w w'))
  end.
Proof.
  intros Hf. pose proof (watcher_parseMsg_run wt msg w Hf) as Hrun.
  destruct (watched msg) as [[m cd]|]; [done|].
  destruct Hrun as (desc & new & w' & Hrun & Hev & _ & Hb).
  exists desc, w'. by rewrite (events_since_app _ _ _ Hev).
Qed.

(** X6.  Two hand-overs that carry the same analysis id: the second takes
    the place of the first in the table.  After the two deliveries the
    Watcher is in the state it would be in after the second alone, and
    nothing has been acked or nacked: the first delivery has left no trace
    in the table. *)
Theorem watcher_same_analysis_replaces (wt : Watcher) (msg1 msg2 : Delivery)
    (m1 m2 : FeedCuckooReq) (cd1 cd2 : CritsData) (w : World) :
  watched msg1 = Some (m1, cd1) ->
  watched msg2 = Some (m2, cd2) ->
  AnalysisId cd1 = AnalysisId cd2 ->
  consume wt [msg1; msg2] w = consume wt [msg2] w /\
  consume wt [msg2] w =
    Ok (set_watchMap wt (<[AnalysisId cd2 := {| Req := m2; Msg := msg2 |}]>
                           (watchMap wt))) w.
Proof.
  intros H1 H2 Haid.
  assert (Hp : forall wt msg m cd w, watched msg = Some (m, cd) ->
            parseMsg wt msg w =
              Ok (set_watchMap wt (<[AnalysisId cd := {| Req := m; Msg := msg |}]>
                                     (watchMap wt))) w).
  { clear. intros wt msg m cd w Hw. unfold parseMsg. unfold watched in Hw.
    destruct (json_Unmarshal_FeedCuckooReq (Body msg)) as [m' [e|]]; [done|].
    cbn. destruct (FeedCuckooReq_Validate m') as [e|]; [done|]. cbn.
    destruct (fcr_CritsData m') as [cd'|]; [|done]. cbn in *. by injection Hw as -> ->. }
  cbn. unfold bind. rewrite (Hp wt msg1 m1 cd1 w H1), !(Hp _ msg2 m2 cd2 w H2).
  unfold ret. split; [|done]. f_equal. unfold set_watchMap. cbn.
  by rewrite Haid, insert_insert_eq.
Qed.
End WatcherProps.

(** ** The Feeder, from the delivery to the hand-over *)

Section FeederMainProps.
Context `{GoJson} `{GoCodecs}.
Import feed_cuckoo.

Lemma NewTask_run cko fileBytes fileName params http w :
  exists id err w',
    NewTask cko fileBytes fileName params http w = Ok (id, err) w' /\
    w_faults w' = w_faults w /\
    (exists new,
        w_events w' = w_events w ++ new /\ bus_events new = [] /\
        List.filter is_upload new =
          [EvNewTask (cko_URL cko +:+ "/tasks/create/file") fileName fileBytes params]) /\
    match uploaded http with
    | Some id' => id = id' /\ err = None
    | None => id = 0 /\ err <> None
    end.
Proof.
  unfold NewTask, uploaded.
  destruct http as [e|code st e|code st body]; run.
  - eexists _, _, _. split; [done|]. split; [done|]. split; [by eexists|done].
  - destruct (decide (code <> 200)); run;
      (eexists _, _, _; split; [done|]; split; [done|]; split; [by eexists|done]).
  - destruct (decide (code = 200)) as [->|Hne].
    + rewrite decide_False by (by intros ?).
      destruct (json_Unmarshal_CkoTasksCreateResp body) as [id [e|]]; run;
        (eexists _, _, _; split; [done|]; split; [done|]; split; [|done]).
      * by eexists.
      * eexists. by rewrite <- app_assoc.
    + rewrite decide_True by done. run.
      eexists _, _, _. split; [done|]. split; [done|]. split; [by eexists|done].
Qed.

(** X7.  [NewTask] always comes back, having put exactly one upload to the
    Sandbox and nothing on the broker: with the task id of the answer and no
    error when the answer has the status code 200 and a body that decodes;
    with the id 0 and an error in every other case. *)
Theorem NewTask_outcomes (cko : CuckooConn) (fileBytes fileName : string)
    (params : gmap string string) (http : HttpResult) (w : World) :
  exists id err w',
    NewTask cko fileBytes fileName params http w = Ok (id, err) w' /\
    bus_events (events_since w w') = [] /\
    List.filter is_upload (events_since w w') =
      [EvNewTask (cko_URL cko +:+ "/tasks/create/file") fileName fileBytes params] /\
    match uploaded http with
    | Some id' => id = id' /\ err = None
    | None => id = 0 /\ err <> None
    end.
Proof.
  destruct (NewTask_run cko fileBytes fileName params http w)
    as (id & err & w' & Hrun & _ & (new & Hev & Hb & Hu) & Hout).
  exists id, err, w'. by rewrite (events_since_app _ _ _ Hev).
Qed.

Lemma handleSubmit_upload_ok f m fileBytes msg upload w :
  w_faults w = [] ->
  exists new w',
    handleSubmit_upload f m fileBytes msg upload w = Ok tt w' /\
    w_events w' = w_events w ++ new /\ w_faults w' = [] /\
    match uploaded upload with
    | Some id =>
        match json_Marshal_FeedCuckooReq (pending f m id) with
        | (fcReq, None) =>
            bus_events new =
              [EvPublish (qh_Queue (producer f)) fcReq;
               EvAck (DeliveryTag msg) false]
        | (_, Some _) =>
            rejected (c f) msg "Could not create feedCuckooReq!" (bus_events new)
        end
    | None =>
        rejected (c f) msg "Uploading sample to cuckoo failed!" (bus_events new)
    end.
Proof.
  intros Hf. unfold handleSubmit_upload.
  destruct (NewTask_run (cuckoo f) fileBytes (default "" (File m ≫= (.!! "name")))
              (Payload m) upload w)
    as (id & err & w1 & Hrun & Hf1 & (n1 & Hev1 & Hb1 & _) & Hout).
  rewrite (bind_Ok _ _ _ _ _ Hrun). rewrite Hf in Hf1.
  destruct (uploaded upload) as [id'|].
  - destruct Hout as [-> ->]. cbn. fold (pending f m id').
    destruct (json_Marshal_FeedCuckooReq (pending f m id')) as [fcReq [e|]].
    + destruct (NackOnError_run (c f) (Some e) "Could not create feedCuckooReq!"
                  msg w1 Hf1) as (n2 & w2 & Hn & Hev2 & Hf2 & _ & _ & _ & Hb2).
      rewrite (bind_Ok _ _ _ _ _ Hn). cbn. exists (n1 ++ n2), w2.
      split; [done|]. split; [by rewrite Hev2, Hev1, <- app_assoc|]. split; [done|].
      exists e. by rewrite bus_events_app, Hb1, Hb2.
    + cbn.
      destruct (Send_Ack_run (producer f) fcReq msg tt w1 Hf1)
        as (n2 & w2 & Hn & Hev2 & Hf2 & _ & _ & _ & Hb2).
      exists (n1 ++ n2), w2. split.
      { rewrite <- Hn. unfold bind. destruct (Send _ _ _); [|done..].
        destruct (Delivery_Ack _ _ _) as [[e|] ?| |]; try done.
        all: try by destruct (log _ _ _) as [[] ?| |]. }
      split; [by rewrite Hev2, Hev1, <- app_assoc|]. split; [done|].
      by rewrite bus_events_app, Hb1, Hb2.
  - destruct Hout as [-> Herr]. destruct err as [e|]; [|done].
    destruct (NackOnError_run (c f) (Some e) "Uploading sample to cuckoo failed!"
                msg w1 Hf1) as (n2 & w2 & Hn & Hev2 & Hf2 & _ & _ & _ & Hb2).
    rewrite (bind_Ok _ _ _ _ _ Hn). cbn. exists (n1 ++ n2), w2.
    split; [done|]. split; [by rewrite Hev2, Hev1, <- app_assoc|]. split; [done|].
    exists e. by rewrite bus_events_app, Hb1, Hb2.
Qed.

(** X8.  What [handleSubmit] does once the Sandbox has room, the broker
    working.  When the upload gives a task id, the Feeder publishes to its
    producer queue the encoding of the hand-over (that id, the URL of the
    Sandbox, the context of the request) and acks the delivery; when the
    hand-over cannot be encoded, or the upload fails, the delivery goes to
    the failed queue and is nacked.  These are its only actions on the
    broker: every delivery is settled exactly once. *)
Theorem handleSubmit_upload_disposition (f : Feeder) (m : DistributedCuckooReq)
    (fileBytes : string) (msg : Delivery) (upload : HttpResult) (w : World) :
  w_faults w = [] ->
  exists w',
    handleSubmit_upload f m fileBytes msg upload w = Ok tt w' /\
    match uploaded upload with
    | Some id =>
        match json_Marshal_FeedCuckooReq (pending f m id) with
        | (fcReq, None) =>
            bus_events (events_since w w') =
              [EvPublish (qh_Queue (producer f)) fcReq;
               EvAck (DeliveryTag msg) false]
        | (_, Some _) =>
            rejected (c f) msg "Could not create feedCuckooReq!"
              (bus_events (events_since w w'))
        end
    | None =>
        rejected (c f) msg "Uploading sample to cuckoo failed!"
          (bus_events (events_since w w'))
    end.
Proof.
  intros Hf.
  destruct (handleSubmit_upload_ok f m fileBytes msg upload w Hf)
    as (new & w' & Hrun & Hev & _ & Hout).
  exists w'. by rewrite (events_since_app _ _ _ Hev).
Qed.

(** A nack-on-error leaves the Sandbox alone. *)
Lemma NackOnError_no_sandbox c err desc msg w w' b new :
  NackOnError c err desc msg w = Ok b w' ->
  w_events w' = w_events w ++ new ->
  Forall (fun e => is_sandbox e = false) new.
Proof.
  intros Hrun Hev.
  destruct (emits_only_NackOnError (fun e => is_sandbox e = false)
              ltac:(done) ltac:(by intros []) c err desc msg w) as (new' & Hev' & Hall).
  rewrite Hrun in Hev'. cbn in Hev'. rewrite Hev in Hev'.
  by apply app_inv_head in Hev' as ->.
Qed.

(** X9.  [parseMsg] of the Feeder, the broker working.  A delivery is
    accepted when its body decodes to a request whose file map has a name
    and data, neither empty, and whose context is present, and the data
    decode as base64; an accepted delivery is handled by [handleSubmit], with
    the decoded request and the decoded bytes.  Any other delivery goes to
    the failed queue and is nacked, and the Sandbox is not contacted: no
    status request, no upload. *)
Theorem feeder_parseMsg_gate (f : Feeder) (msg : Delivery)
    (polls : list HttpResult) (upload : HttpResult) (w : World) :
  w_faults w = [] ->
  (forall m fileBytes,
      accepted msg = Some (m, fileBytes) <->
      json_Unmarshal_DistributedCuckooReq (Body msg) = (m, None) /\
      exists file fN fD,
        File m = Some file /\
        file !! "name" = Some fN /\ fN <> "" /\
        file !! "data" = Some fD /\ fD <> "" /\
        is_Some (dcr_CritsData m) /\
        base64_DecodeString fD = (fileBytes, None)) /\
  match accepted msg with
  | Some (m, fileBytes) =>
      parseMsg f msg polls upload w = handleSubmit f m fileBytes msg polls upload w
  | None =>
      exists desc w',
        parseMsg f msg polls upload w = Ok tt w' /\
        rejected (c f) msg desc (bus_events (events_since w w')) /\
        Forall (fun e => is_sandbox e = false) (events_since w w')
  end.
Proof.
  intros Hf. split.
  - intros m fileBytes. unfold accepted, DistributedCuckooReq_Validate.
    destruct (json_Unmarshal_DistributedCuckooReq (Body msg)) as [m' [e|]].
    { split; [done|]. by intros [[=] _]. }
    destruct (File m') as [file|] eqn:Hfile.
    2:{ split; [done|]. intros [[= ->] (file & ? & ? & Hfile' & _)]. congruence. }
    cbn. destruct (file !! "name") as [fN|] eqn:HfN.
    2:{ split; [done|]. intros [[= ->] (file' & ? & ? & Hfile' & HfN' & _)].
        congruence. }
    destruct (file !! "data") as [fD|] eqn:HfD.
    2:{ split; [done|].
        intros [[= ->] (file' & ? & ? & Hfile' & _ & _ & HfD' & _)]. congruence. }
    case_decide as Hempty.
    { split; [done|].
      intros [[= ->] (file' & fN' & fD' & Hfile' & HfN' & HnN & HfD' & HnD & _)].
      assert (file' = file) as -> by congruence.
      assert (fN' = fN) as -> by congruence.
      assert (fD' = fD) as -> by congruence. by destruct Hempty. }
    destruct (dcr_CritsData m') as [cd|] eqn:Hcd.
    2:{ split; [done|].
        intros [[= ->] (file' & ? & ? & _ & _ & _ & _ & _ & [cd Hcd'] & _)].
        congruence. }
    cbn. destruct (base64_DecodeString fD) as [bytes [e|]] eqn:Hb64.
    + split; [done|].
      intros [[= ->] (file' & fN' & fD' & Hfile' & _ & _ & HfD' & _ & _ & Hb)].
      assert (file' = file) as -> by congruence.
      assert (fD' = fD) as -> by congruence. congruence.
    + split.
      * intros [= <- <-]. split; [done|]. exists file, fN, fD.
        rewrite Hcd. split; [done|]. split; [done|].
        split; [by intros ->; apply Hempty; left|]. split; [done|].
        split; [by intros ->; apply Hempty; right|]. by split; [eexists|].
      * intros [[= ->] (file' & fN' & fD' & Hfile' & _ & _ & HfD' & _ & _ & Hb)].
        assert (file' = file) as -> by congruence.
        assert (fD' = fD) as -> by congruence. congruence.
  - unfold parseMsg, accepted.
    destruct (json_Unmarshal_DistributedCuckooReq (Body msg)) as [m [e|]].
    { destruct (NackOnError_run (c f) (Some e) "Could not decode json!" msg w Hf)
        as (new & w' & Hn & Hev & _ & _ & _ & _ & Hb).
      rewrite (bind_Ok _ _ _ _ _ Hn). cbn. eexists _, w'. split; [done|].
      rewrite (events_since_app _ _ _ Hev). split; [by exists e|].
      eapply NackOnError_no_sandbox; eauto. }
    cbn. destruct (DistributedCuckooReq_Validate m) as [e|].
    { destruct (NackOnError_run (c f) (Some e) "Error in msg from Crits service!"
                  msg w Hf) as (new & w' & Hn & Hev & _ & _ & _ & _ & Hb).
      rewrite (bind_Ok _ _ _ _ _ Hn). cbn. eexists _, w'. split; [done|].
      rewrite (events_since_app _ _ _ Hev). split; [by exists e|].
      eapply NackOnError_no_sandbox; eauto. }
    cbn. destruct (base64_DecodeString _) as [fileBytes [e|]]; [|done].
    destruct (NackOnError_run (c f) (Some e) "Couldn't decode msg!" msg w Hf)
      as (new & w' & Hn & Hev & _ & _ & _ & _ & Hb).
    rewrite (bind_Ok _ _ _ _ _ Hn). cbn. eexists _, w'. split; [done|].
    rewrite (events_since_app _ _ _ Hev). split; [by exists e|].
    eapply NackOnError_no_sandbox; eauto.
Qed.
End FeederMainProps.

(** ** The Overseer: what cannot be decoded, the dump and its replay *)

Section OverseerMore.
Context `{GoJson} `{GoStrconv}.
Import overseer.

(** X10.  A delivery of the failed queue that carries no analysis id (its
    envelope does not decode, or the body embedded in it does not decode, or
    that body has no context under either spelling) is written to one new
    file of the dump directory and acked, the broker and the file system
    working; nothing is published, and the Overseer keeps its counts and its
    producers as they are. *)
Theorem overseer_undecodable_dumped (o : Overseer) (msg : Delivery) (w : World) :
  w_faults w = [] ->
  Z.of_nat (size (w_fs w)) < GoInt.max_int ->
  delivery_aid msg = None ->
  exists w', parseMsg o msg w = Ok o w' /\ dumped (dumpDir o) msg w w'.
Proof.
  intros Hf Hsize Haid. unfold parseMsg. unfold delivery_aid in Haid.
  destruct (json_Unmarshal_FailedMsg (Body msg)) as [m [e|]].
  { destruct (log_dumpMsg_run o (dumpDir o) o msg
                ("parseMsg couldn't decode the msg body!" +:+ nl) w)
      as (w' & Hrun & _ & Hd & _); [done..|]. by exists w'. }
  unfold handleFailed.
  destruct (json_Unmarshal_genericMsg (Msg m)) as [payload [e|]].
  { destruct (log_dumpMsg_run o (dumpDir o) o msg
                ("Couldn't decode genericMsg!" +:+ nl) w)
      as (w' & Hrun & _ & Hd & _); [done..|]. by exists w'. }
  rewrite Haid.
  destruct (log_dumpMsg_run o (dumpDir o) o msg ("Couldn't find CritsData!" +:+ nl) w)
    as (w' & Hrun & _ & Hd & _); [done..|]. by exists w'.
Qed.

End OverseerMore.

Section OverseerReplay.
Import overseer.

Lemma declared_app l1 l2 : declared (l1 ++ l2) = declared l1 ++ declared l2.
Proof. apply omap_app. Qed.

Lemma SetupQueue_run queue w :
  w_faults w = [] ->
  exists new w',
    SetupQueue queue w = Ok {| qh_Queue := queue |} w' /\
    w_events w' = w_events w ++ new /\ w_faults w' = [] /\
    w_fs w' = w_fs w /\ w_now w' = w_now w /\
    bus_events new = [] /\ declared new = [queue].
Proof.
  intros Hf. destruct w as [ev fl now fs hp]. cbn in *. subst fl.
  unfold SetupQueue. destruct (decide (queue = "")); run;
    (eexists _, _; split; [reflexivity|]; cbn; rewrite <- !app_assoc;
     split; [reflexivity|]; done).
Qed.

Lemma dump_path_inj o : Inj (=) (=) (fun name => dumpDir o +:+ "/" +:+ name).
Proof.
  intros a b Hab. apply (inj (String.app (dumpDir o))) in Hab.
  by apply (inj (String.app "/")) in Hab.
Qed.

(** The loop of [resubmitDumped], the broker and the file system working. *)
Lemma resubmitDumped_loop_run o q files : forall w,
  w_faults w = [] ->
  NoDup (fi_Name <$> files) ->
  exists new w',
    resubmitDumped_loop o q files w = Ok tt w' /\
    w_events w' = w_events w ++ new /\ w_faults w' = [] /\
    bus_events new =
      (fun f => EvPublish (qh_Queue q) (default "" (w_fs w !! dump_path o f)))
        <$> regular files /\
    declared new = [] /\
    forall path,
      w_fs w' !! path =
        if decide (path ∈ dump_path o <$> regular files) then None
        else w_fs w !! path.
Proof.
  induction files as [|f files IH]; intros w Hf Hnd.
  { exists [], w. rewrite app_nil_r. cbn. repeat split; done. }
  apply NoDup_cons in Hnd as [Hnotin Hnd].
  cbn [resubmitDumped_loop]. unfold regular. cbn [List.filter].
  destruct (IsDir f) eqn:Hdir; cbn [negb]; [by apply IH|].
  fold (regular files). fold (dump_path o f).
  destruct w as [ev fl now fs hp]. cbn in Hf. subst fl.
  set (p := dump_path o f). run.
  rewrite !lookup_insert_eq. run. rewrite delete_insert_eq.
  match goal with |- context [resubmitDumped_loop o q files ?w1] =>
    destruct (IH w1) as (new & w' & Hrun & Hev & Hf' & Hb & Hd & Hfs); [done|done|]
  end.
  rewrite Hrun. cbn in *.
  eexists _, w'. split; [done|]. rewrite Hev, <- !app_assoc.
  split; [done|]. split; [done|].
  assert (Hp : forall f', f' ∈ regular files -> dump_path o f' <> p).
  { intros f' Hin Heq. apply dump_path_inj in Heq. apply Hnotin.
    rewrite <- Heq. apply list_elem_of_fmap. exists f'. split; [done|].
    unfold regular in Hin. apply list_elem_of_In, List.filter_In in Hin as [Hin _].
    by apply list_elem_of_In. }
  split; [|split].
  - rewrite !bus_events_app, Hb. cbn. f_equal.
    apply Forall_fmap_ext, Forall_forall. intros f' Hin.
    by rewrite lookup_delete_ne by (apply not_eq_sym, Hp, Hin).
  - by rewrite !declared_app, Hd.
  - intros path. cbn. case_decide as Hin1; rewrite Hfs; case_decide as Hin2.
    + done.
    + apply elem_of_cons in Hin1 as [->|Hin1]; [|done]. apply lookup_delete_eq.
    + destruct Hin1. by apply list_elem_of_further.
    + apply lookup_delete_ne. intros <-. apply Hin1, list_elem_of_here.
Qed.
End OverseerReplay.

Lemma append_assoc (s1 s2 s3 : string) : (s1 +:+ s2) +:+ s3 = s1 +:+ (s2 +:+ s3).
Proof.
  induction s1 as [|a s1 IH]; [reflexivity|].
  change (String a ((s1 +:+ s2) +:+ s3) = String a (s1 +:+ (s2 +:+ s3))).
  by rewrite IH.
Qed.

Section OverseerReplayThms.
Context `{GoJson} `{GoStrconv}.
Import overseer.

Lemma resubmitDumped_run (o : Overseer) (queue : string)
    (files : list FileInfo) (w : World) :
  w_faults w = [] ->
  NoDup (fi_Name <$> files) ->
  exists w',
    resubmitDumped o queue files w = Ok tt w' /\
    bus_events (events_since w w') =
      (fun f => EvPublish queue (default "" (w_fs w !! dump_path o f)))
        <$> regular files /\
    declared (events_since w w') = [queue] /\
    forall path,
      w_fs w' !! path =
        if decide (path ∈ dump_path o <$> regular files) then None
        else w_fs w !! path.
Proof.
  intros Hf Hnd. unfold resubmitDumped.
  destruct (SetupQueue_run queue w Hf)
    as (n0 & w0 & Hs & Hev0 & Hf0 & Hfs0 & _ & Hb0 & Hd0).
  rewrite (bind_Ok _ _ _ _ _ Hs).
  destruct (resubmitDumped_loop_run o {| qh_Queue := queue |} files w0 Hf0 Hnd)
    as (new & w' & Hrun & Hev & _ & Hb & Hd & Hfs).
  exists w'. split; [done|].
  erewrite events_since_app; [|by rewrite Hev, Hev0, <- app_assoc].
  rewrite Hfs0 in Hb, Hfs.
  rewrite bus_events_app, declared_app, Hb0, Hd0, Hb, Hd.
  split; [reflexivity|]. split; [reflexivity|]. intros path. by rewrite Hfs.
Qed.

(** X12.  [resubmitDumped], the broker and the file system working, for a
    listing of the dump directory that names no file twice.  A queue handler
    is declared for the queue, once.  Then every entry that is no directory
    is published to that queue, in the order of the listing, with the
    content of its file as the body (an empty body for a file that is no
    longer there: opening it makes it), and its file is removed; the entries
    that are directories and all other files are left alone.  Nothing is
    acked or nacked. *)
Theorem resubmitDumped_replays (o : Overseer) (queue : string)
    (files : list FileInfo) (w : World) :
  w_faults w = [] ->
  NoDup (fi_Name <$> files) ->
  exists w',
    resubmitDumped o queue files w = Ok tt w' /\
    bus_events (events_since w w') =
      (fun f => EvPublish queue (default "" (w_fs w !! dump_path o f)))
        <$> regular files /\
    declared (events_since w w') = [queue] /\
    forall path,
      w_fs w' !! path =
        if decide (path ∈ dump_path o <$> regular files) then None
        else w_fs w !! path.
Proof. exact (resubmitDumped_run o queue files w). Qed.

(** X13.  A dump and its replay.  The broker and the file system working,
    [dumpMsg] writes the body of a delivery to a file of the dump directory
    that was not there; [resubmitDumped], given the listing that names this
    file, publishes that very body to the queue and removes the file: the
    file system is as it was before the dump. *)
Theorem dump_then_replay (o : Overseer) (msg : Delivery) (queue : string)
    (w : World) :
  w_faults w = [] ->
  Z.of_nat (size (w_fs w)) < GoInt.max_int ->
  exists name w1 w2,
    dumpMsg o msg w = Ok tt w1 /\
    w_fs w !! (dumpDir o +:+ "/" +:+ name) = None /\
    w_fs w1 = <[dumpDir o +:+ "/" +:+ name := Body msg]> (w_fs w) /\
    resubmitDumped o queue [{| fi_Name := name; IsDir := false |}] w1 = Ok tt w2 /\
    bus_events (events_since w1 w2) = [EvPublish queue (Body msg)] /\
    w_fs w2 = w_fs w.
Proof.
  intros Hf Hsize.
  destruct (dumpMsg_run o msg w Hf Hsize) as (name0 & n & Hname & Hfree & Hrun).
  set (name := GoInt.Itoa (w_now w) +:+ "_" +:+ GoInt.Itoa n).
  assert (Hpath : name0 = dumpDir o +:+ "/" +:+ name).
  { rewrite Hname. unfold name. by rewrite !append_assoc. }
  rewrite Hpath in *.
  match type of Hrun with _ = Ok tt ?w1' => set (w1 := w1') in * end.
  destruct (resubmitDumped_run o queue [{| fi_Name := name; IsDir := false |}] w1)
    as (w2 & Hrun2 & Hb & _ & Hfs); [done|by repeat constructor; set_solver|].
  exists name, w1, w2. split; [exact Hrun|]. split; [done|]. split; [done|].
  split; [done|]. cbn in Hb, Hfs. unfold dump_path in Hb, Hfs.
  cbn in Hb, Hfs. rewrite lookup_insert_eq in Hb. split; [done|].
  apply map_eq. intros path. rewrite Hfs.
  case_decide as Hin.
  - apply list_elem_of_singleton in Hin as ->. done.
  - rewrite lookup_insert_ne; [done|]. intros <-. apply Hin, list_elem_of_here.
Qed.

Lemma resubmit_cached o failed msg q w :
  w_faults w = [] ->
  producers o !! Queue failed = Some q ->
  exists w',
    resubmit o failed msg w = Ok (o, None) w' /\
    declared (events_since w w') = [].
Proof.
  intros Hf Hq. destruct w as [ev fl now fs hp]. cbn in *. subst fl.
  unfold resubmit.
  generalize (match strconv_Unquote (Msg failed) with
              | (s, None) => s
              | (_, Some _) => Msg failed
              end). intros body.
  run. rewrite Hq. run. rewrite Hq. run.
  eexists. split; [reflexivity|]. by since.
Qed.

(** X14.  [resubmit] declares the queue of an envelope on first use only.
    The broker working, a call declares the queue when the Overseer holds no
    producer for it, and none when it does; a second call for the same queue
    declares nothing and leaves the producers as they are. *)
Theorem resubmit_declares_once (o : Overseer) (failed : FailedMsg) (msg : Delivery)
    (w : World) :
  w_faults w = [] ->
  exists o1 w1 w2,
    resubmit o failed msg w = Ok (o1, None) w1 /\
    declared (events_since w w1) =
      (if decide (is_Some (producers o !! Queue failed)) then []
       else [Queue failed]) /\
    resubmit o1 failed msg w1 = Ok (o1, None) w2 /\
    declared (events_since w1 w2) = [].
Proof.
  intros Hf.
  destruct (producers o !! Queue failed) as [q|] eqn:Hq.
  - destruct (resubmit_cached o failed msg q w Hf Hq) as (w1 & Hrun1 & Hd1).
    assert (Hf1 : w_faults w1 = []).
    { revert Hrun1. destruct w as [ev fl now fs hp]. cbn in Hf. subst fl.
      unfold resubmit. run. rewrite Hq. run. rewrite Hq. run. by intros [= <-]. }
    destruct (resubmit_cached o failed msg q w1 Hf1 Hq) as (w2 & Hrun2 & Hd2).
    exists o, w1, w2. rewrite decide_True by done. done.
  - rewrite decide_False by (by intros [? ?]).
    set (o1 := set_producers o (<[Queue failed := {| qh_Queue := Queue failed |}]>
                                  (producers o))).
    assert (exists w1, resubmit o failed msg w = Ok (o1, None) w1 /\
                       w_faults w1 = [] /\
                       declared (events_since w w1) = [Queue failed])
      as (w1 & Hrun1 & Hf1 & Hd1).
    { destruct w as [ev fl now fs hp]. cbn in Hf. subst fl.
      unfold resubmit. rewrite Hq.
      generalize (match strconv_Unquote (Msg failed) with
                  | (s, None) => s
                  | (_, Some _) => Msg failed
                  end). intros body.
      run. destruct (decide (Queue failed = "")); run;
        rewrite lookup_insert_eq; run;
        (eexists; split; [reflexivity|]; split; [done|]; by since). }
    destruct (resubmit_cached o1 failed msg {| qh_Queue := Queue failed |} w1 Hf1)
      as (w2 & Hrun2 & Hd2); [apply lookup_insert_eq|].
    by exists o1, w1, w2.
Qed.

Lemma append_nil_r (s : string) : s +:+ "" = s.
Proof.
  induction s as [|a s IH]; [reflexivity|].
  change (String a (s +:+ "") = String a s). by rewrite IH.
Qed.

(** Writing at the start of an empty file leaves the bytes written. *)
Lemma overwrite_fresh (content : string) :
  content +:+ String.substring (String.length content)
                (String.length "" - String.length content) "" = content.
Proof.
  assert (Hsub : forall n m, String.substring n m "" = "") by (by intros [|n] [|m]).
  by rewrite Hsub, append_nil_r.
Qed.

(** X15.  [testDumpDir], the file system working: the test file is written,
    read back and removed.  Nothing is done on the broker, and the dump
    directory is left without the test file, every other file as it was. *)
Theorem testDumpDir_transparent (o : Overseer) (w : World) :
  w_faults w = [] ->
  exists w',
    testDumpDir o w = Ok tt w' /\
    bus_events (events_since w w') = [] /\
    w_fs w' = delete (dumpDir o +:+ "/__test") (w_fs w).
Proof.
  intros Hf. destruct w as [ev fl now fs hp]. cbn in *. subst fl.
  unfold testDumpDir. set (p := dumpDir o +:+ "/__test").
  unfold Remove at 1. run.
  destruct (fs !! p) as [old|] eqn:Hp; run;
    repeat first [ rewrite lookup_insert_eq | rewrite lookup_delete_eq | rewrite Hp
                 | rewrite overwrite_fresh
                 | rewrite decide_False by (intros Hc; by apply Hc)
                 | progress run ].
  - eexists. split; [reflexivity|]. split; [by since|]. cbn.
    by rewrite !delete_insert_eq, delete_delete_eq.
  - eexists. split; [reflexivity|]. split; [by since|]. cbn.
    by rewrite !delete_insert_eq.
Qed.
End OverseerReplayThms.

(** ** Steps that leave the broker alone *)

Lemma calm_ret {A} (a : A) : calm (ret a).
Proof. intros w. exists []. by rewrite app_nil_r. Qed.

Lemma calm_panic {A} msg : calm (@panic World A msg).
Proof. intros w. exists []. by rewrite app_nil_r. Qed.

Lemma calm_stalled {A} : calm (@stalled World A).
Proof. intros w. exists []. by rewrite app_nil_r. Qed.

Lemma calm_bind {A B} (m : M World A) (k : A -> M World B) :
  calm m -> (forall a, calm (k a)) -> calm (bind m k).
Proof.
  intros Hm Hk w. destruct (Hm w) as (n1 & E1 & B1 & F1). unfold bind.
  destruct (m w) as [a w1|msg w1|w1]; cbn in *.
  - destruct (Hk a w1) as (n2 & E2 & B2 & F2). exists (n1 ++ n2).
    rewrite E2, E1, app_assoc, bus_events_app, B1, B2, F2, F1. done.
  - by exists n1.
  - by exists n1.
Qed.

Lemma calm_emit e : is_bus e = false -> calm (emit e).
Proof.
  intros He w. exists [e]. cbn. split; [done|]. unfold bus_events. cbn.
  by rewrite He.
Qed.

Lemma calm_log l t : calm (log l t).
Proof. by apply calm_emit. Qed.

Lemma calm_modify (g : World -> World) :
  (forall w, w_events (g w) = w_events w /\ w_faults (g w) = w_faults w) ->
  calm (modify g).
Proof.
  intros Hg w. exists []. cbn. destruct (Hg w) as [-> ->]. by rewrite app_nil_r.
Qed.

Lemma calm_lift_heap {A} (m : M heap A) : calm (lift_heap m).
Proof.
  intros w. exists []. unfold lift_heap. rewrite app_nil_r.
  by destruct (m (w_heap w)).
Qed.

Lemma calm_deref {A} (p : option A) : calm (deref p).
Proof. destruct p; [apply calm_ret|apply calm_panic]. Qed.

Ltac calm_step :=
  match goal with
  | |- calm (bind _ _) => apply calm_bind; [|intros ?]
  | |- calm (ret _) => apply calm_ret
  | |- calm (panic _) => apply calm_panic
  | |- calm stalled => apply calm_stalled
  | |- calm (log _ _) => apply calm_log
  | |- calm (emit _) => apply calm_emit; done
  | |- calm (deref _) => apply calm_deref
  | |- calm (lift_heap _) => apply calm_lift_heap
  | |- calm (modify _) => apply calm_modify; done
  | |- calm (match ?x with _ => _ end) => destruct x
  | |- calm (if ?x then _ else _) => destruct x
  | |- calm (let '(_, _) := ?x in _) => destruct x
  end.

Ltac calm := repeat calm_step.

Lemma calm_Sleep n : calm (Sleep n).
Proof. unfold Sleep. calm. Qed.

Lemma calm_FastGet {T} um (zero : T) url http : calm (FastGet um zero url http).
Proof. unfold FastGet. calm. Qed.

Lemma calm_FastPostForm {T} um (zero : T) url data http :
  calm (FastPostForm um zero url data http).
Proof. unfold FastPostForm. calm. Qed.

Section CalmClients.
Context `{GoJson} `{GoCodecs} `{GoReport}.
Import parse_and_submit parse_and_submit.main.

Lemma calm_TaskReport cko id http : calm (TaskReport cko id http).
Proof. unfold TaskReport. calm; apply calm_FastGet. Qed.

Lemma calm_GetDropped cko id http : calm (GetDropped cko id http).
Proof. unfold GetDropped. calm; apply calm_FastGet. Qed.

Lemma calm_DeleteTask cko id http : calm (DeleteTask cko id http).
Proof. unfold DeleteTask. calm; apply calm_FastGet. Qed.

Lemma calm_Log crt lvl msg http : calm (Log crt lvl msg http).
Proof. unfold Log. calm; apply calm_FastPostForm. Qed.

Lemma calm_NewSample crt fileData fileName http :
  calm (NewSample crt fileData fileName http).
Proof. unfold NewSample. calm; apply calm_Log. Qed.

Lemma calm_ForgeRelationship crt id http : calm (ForgeRelationship crt id http).
Proof. unfold ForgeRelationship. calm. Qed.

Lemma calm_AddResults crt results http : calm (AddResults crt results http).
Proof. unfold AddResults. calm; apply calm_FastPostForm. Qed.

Lemma calm_NewCrits d : calm (NewCrits d).
Proof. unfold NewCrits. calm. Qed.

Lemma calm_dropped_loop crits entries eof : forall answers results,
  calm (dropped_loop crits entries eof answers results).
Proof.
  induction entries as [|hdr entries IH]; intros answers results; cbn.
  { apply calm_ret. }
  destruct (decide _); [apply IH|].
  destruct answers as [|[sample relate] answers]; [apply calm_stalled|].
  calm; auto using calm_NewSample, calm_Sleep, calm_ForgeRelationship.
Qed.

Lemma calm_processDropped m cuckoo crits dropped answers :
  calm (processDropped m cuckoo crits dropped answers).
Proof.
  unfold processDropped. calm; auto using calm_GetDropped, calm_dropped_loop.
Qed.
End CalmClients.

Lemma bind_Ok_inv {S A B} (m : M S A) (k : A -> M S B) s b s' :
  bind m k s = Ok b s' -> exists a s1, m s = Ok a s1 /\ k a s1 = Ok b s'.
Proof. unfold bind. destruct (m s) as [a s1| |]; [|done..]. eauto. Qed.

Lemma calm_from_refl w : calm_from w w.
Proof. exists []. by rewrite app_nil_r. Qed.

Lemma calm_from_step {A} (m : M World A) w0 w a w1 :
  calm m -> calm_from w0 w -> m w = Ok a w1 -> calm_from w0 w1.
Proof.
  intros Hm (acc & Hev & Hb & Hf) Hrun.
  destruct (Hm w) as (new & Hev1 & Hb1 & Hf1). rewrite Hrun in Hev1, Hf1. cbn in *.
  exists (acc ++ new). rewrite Hev1, Hev, Hf1, Hf, bus_events_app, Hb, Hb1.
  by rewrite app_assoc.
Qed.

Lemma calm_bind_inv {A B} (m : M World A) (k : A -> M World B) w0 w b w' :
  calm m -> calm_from w0 w -> bind m k w = Ok b w' ->
  exists a w1, calm_from w0 w1 /\ k a w1 = Ok b w'.
Proof.
  intros Hm Hcf Hrun. apply bind_Ok_inv in Hrun as (a & w1 & Hrun & Hk).
  exists a, w1. split; [|done]. by eapply calm_from_step.
Qed.

(** The events on the broker since [w0], after steps that left it alone. *)
Lemma bus_since_calm w0 w w' new :
  calm_from w0 w -> w_events w' = w_events w ++ new ->
  bus_events (events_since w0 w') = bus_events new.
Proof.
  intros (acc & Hev & Hb & _) Hev'.
  erewrite events_since_app; [|by rewrite Hev', Hev, <- app_assoc].
  by rewrite bus_events_app, Hb.
Qed.

Section ReporterProps.
Context `{GoJson} `{GoCodecs} `{GoReport}.
Import parse_and_submit parse_and_submit.main.

(** A nack-on-error after calm steps: it ends the handler with the delivery
    rejected, or does nothing. *)
Lemma NackOnError_bind_inv {B} c0 err desc msg (k : bool -> M World B) w0 w b w' :
  w_faults w0 = [] -> calm_from w0 w ->
  bind (NackOnError c0 err desc msg) k w = Ok b w' ->
  (exists w1 new,
      k true w1 = Ok b w' /\ w_events w1 = w_events w ++ new /\ w_faults w1 = [] /\
      rejected c0 msg desc (bus_events new)) \/
  (err = None /\ k false w = Ok b w').
Proof.
  intros Hf0 Hcf Hrun.
  assert (Hf : w_faults w = []) by (destruct Hcf as (? & _ & _ & ->); done).
  destruct (NackOnError_run c0 err desc msg w Hf)
    as (new & w1 & Hn & Hev & Hf1 & _ & _ & _ & Hb).
  rewrite (bind_Ok _ _ _ _ _ Hn) in Hrun. destruct err as [e|].
  - left. exists w1, new. rewrite bool_decide_eq_true_2 in Hrun by done.
    split; [done|]. split; [done|]. split; [done|]. by exists e.
  - right. split; [done|]. rewrite bool_decide_eq_false_2 in Hrun by (by intros []).
    subst new. rewrite app_nil_r in Hev.
    assert (w1 = w) as ->; [|done].
    revert Hn. unfold NackOnError, ret. by intros [= <-].
Qed.

(** X16.  How [reportToCrits] settles a delivery, the broker working.  A run
    that comes to its end has done one of three things on the broker, and
    nothing else: it has sent the delivery to the failed queue and nacked it
    because the report could not be loaded; or because the batch could not
    be added to the Repository; or it has published the body of the delivery,
    as it came, to the producer queue (when one is configured) and acked the
    delivery.  An error of [processDropped] or of [DeleteTask] does not change
    this: it is logged only. *)
Theorem reportToCrits_disposition (rp : Reporter) (m : CheckResultsReq)
    (msg : Delivery) (report_http dropped_http : HttpResult)
    (answers : list (HttpResult * HttpResult))
    (results_http delete_http : HttpResult) (w w' : World) :
  w_faults w = [] ->
  reportToCrits rp m msg report_http dropped_http answers results_http delete_http w
    = Ok tt w' ->
  rejected (c rp) msg "Couldn't load report from cuckoo!"
    (bus_events (events_since w w')) \/
  rejected (c rp) msg "Adding results to crits failed!"
    (bus_events (events_since w w')) \/
  bus_events (events_since w w') =
    match producer rp with
    | Some q => [EvPublish (qh_Queue q) (Body msg)]
    | None => []
    end ++ [EvAck (DeliveryTag msg) false].
Proof.
  intros Hf Hrun. unfold reportToCrits in Hrun.
  pose proof (calm_from_refl w) as Hcf.
  apply (calm_bind_inv _ _ w) in Hrun as ([] & w1 & Hcf1 & Hrun);
    [|apply calm_Sleep|done].
  apply (calm_bind_inv _ _ w) in Hrun as (crits & w2 & Hcf2 & Hrun);
    [|apply calm_NewCrits|done].
  apply (calm_bind_inv _ _ w) in Hrun as ([report err] & w3 & Hcf3 & Hrun);
    [|apply calm_TaskReport|done].
  apply (NackOnError_bind_inv _ _ _ _ _ w) in Hrun
    as [(w4 & new & Hrun & Hev & _ & Hrej)|[-> Hrun]]; [| |done|done].
  { injection Hrun as <-. left. by rewrite (bus_since_calm _ _ _ _ Hcf3 Hev). }
  apply (calm_bind_inv _ _ w) in Hrun as (res1 & w4 & Hcf4 & Hrun); [| |done].
  2:{ calm. }
  apply (calm_bind_inv _ _ w) in Hrun as (res2 & w5 & Hcf5 & Hrun); [| |done].
  2:{ calm. }
  apply (calm_bind_inv _ _ w) in Hrun as (res3 & w6 & Hcf6 & Hrun); [| |done].
  2:{ calm. }
  apply (calm_bind_inv _ _ w) in Hrun as (res4 & w7 & Hcf7 & Hrun); [| |done].
  2:{ calm; apply calm_processDropped. }
  apply (calm_bind_inv _ _ w) in Hrun as (err & w8 & Hcf8 & Hrun);
    [|apply calm_AddResults|done].
  apply (NackOnError_bind_inv _ _ _ _ _ w) in Hrun
    as [(w9 & new & Hrun & Hev & _ & Hrej)|[-> Hrun]]; [| |done|done].
  { injection Hrun as <-. right. left.
    by rewrite (bus_since_calm _ _ _ _ Hcf8 Hev). }
  apply (calm_bind_inv _ _ w) in Hrun as ([] & w9 & Hcf9 & Hrun); [| |done].
  2:{ calm; apply calm_DeleteTask. }
  right. right.
  assert (Hf9 : w_faults w9 = []) by (destruct Hcf9 as (? & _ & _ & ->); done).
  destruct w9 as [ev fl now fs hp]. cbn in Hf9. subst fl.
  revert Hrun. destruct (producer rp) as [q|]; run;
    (destruct (crr_CritsData m) as [cd|]; [|done]); run; intros [= <-];
    (erewrite bus_since_calm; [|exact Hcf9|cbn; by rewrite <- !app_assoc]);
    reflexivity.
Qed.
End ReporterProps.

Section DroppedProps.
Context `{GoJson} `{GoCodecs} `{GoReport}.
Import parse_and_submit parse_and_submit.main.

(** [NewSample] comes back, leaves the attribute maps alone, and returns
    without an error only for a file that is not empty. *)
Lemma NewSample_run crt fileData fileName http w :
  exists id err w',
    NewSample crt fileData fileName http w = Ok (id, err) w' /\
    w_heap w' = w_heap w /\
    (err = None -> String.length fileData <> 0%nat).
Proof.
  unfold NewSample, Log, FastPostForm. case_decide as Hlen; run.
  - destruct http as [e|code st e|code st body]; run;
      try (by eexists _, _, _).
    destruct (json_Unmarshal_CrtDefaultResponse body) as [r [e|]]; run;
      by eexists _, _, _.
  - destruct http as [e|code st e|code st body]; run;
      try (by eexists _, _, _).
    destruct (json_Unmarshal_CrtDefaultResponse body) as [r [e|]]; run;
      [by eexists _, _, _|].
    case_decide; by eexists _, _, _.
Qed.

Lemma ForgeRelationship_run crt id http w :
  exists err w',
    ForgeRelationship crt id http w = Ok err w' /\ w_heap w' = w_heap w.
Proof.
  unfold ForgeRelationship.
  destruct http as [e|code st e|code st body]; run; try (by eexists _, _).
  destruct (json_Unmarshal_CrtDefaultResponse body) as [r [e|]]; run;
    [by eexists _, _|].
  case_decide; by eexists _, _.
Qed.

Lemma is_dropped_record_extend (h ext : heap) r hdr :
  is_dropped_record h r hdr -> is_dropped_record (h ++ ext) r hdr.
Proof.
  intros (Hs & Hr & m & Hd & Hm). repeat split; try done.
  exists m. split; [done|]. by apply lookup_app_l_Some.
Qed.

Lemma droppable_cons hdr entries hdrs :
  sublist hdrs (droppable entries) -> sublist hdrs (droppable (hdr :: entries)).
Proof.
  intros Hs. unfold droppable. cbn. destruct (_ && _); [|done].
  by apply sublist_cons.
Qed.

(** The loop of [processDropped]: the records it adds are those of regular
    files of the archive that are not empty, in the order of the archive,
    each with a map of its own. *)
Lemma dropped_loop_run crits eof entries : forall answers results hdrs0 w results' err w',
  Forall2 (is_dropped_record (w_heap w)) results hdrs0 ->
  dropped_loop crits entries eof answers results w = Ok (results', err) w' ->
  exists hdrs ext,
    sublist hdrs (droppable entries) /\
    w_heap w' = w_heap w ++ ext /\
    Forall2 (is_dropped_record (w_heap w')) results' (hdrs0 ++ hdrs).
Proof.
  induction entries as [|hdr entries IH];
    intros answers results hdrs0 w results' err w' Hall Hrun; cbn in Hrun.
  { injection Hrun as <- <- <-. exists [], []. rewrite !app_nil_r.
    split; [constructor|done]. }
  case_decide as Hreg.
  { destruct (IH _ _ _ _ _ _ _ Hall Hrun) as (hdrs & ext & Hsub & Hh & Hall').
    exists hdrs, ext. split; [|done].
    unfold droppable. cbn. unfold is_regular at 1.
    by rewrite bool_decide_eq_false_2 by (by intros Hn; apply Hn). }
  destruct answers as [|[sample relate] answers]; [done|].
  destruct (NewSample_run crits (entry_Data hdr) (filepath_Base (hdr_Name hdr))
              sample w) as (id & err1 & w1 & Hns & Hh1 & Hne).
  rewrite (bind_Ok _ _ _ _ _ Hns) in Hrun. cbn beta iota in Hrun.
  rewrite bind_Sleep in Hrun.
  match type of Hrun with _ ?w2' = _ => set (w2 := w2') in * end.
  assert (Hh2 : w_heap w2 = w_heap w) by done.
  destruct err1 as [e|].
  { case_decide.
    - rewrite <- Hh2 in Hall.
      destruct (IH _ _ _ _ _ _ _ Hall Hrun) as (hdrs & ext & Hsub & Hh & Hall').
      exists hdrs, ext. rewrite <- Hh2. split; [by apply droppable_cons|done].
    - injection Hrun as <- <- <-. exists [], []. rewrite !app_nil_r.
      split; [apply sublist_nil_l|]. by rewrite Hh2. }
  destruct (ForgeRelationship_run crits id relate w2) as (err2 & w3 & Hfr & Hh3).
  rewrite (bind_Ok _ _ _ _ _ Hfr) in Hrun. destruct err2 as [e|].
  { injection Hrun as <- <- <-. exists [], []. rewrite !app_nil_r.
    split; [apply sublist_nil_l|]. by rewrite Hh3, Hh2. }
  rewrite bind_Sleep in Hrun.
  autounfold with run in Hrun. unfold make_map, map_set in Hrun. cbn in Hrun.
  rewrite alter_app_r_alt, Nat.sub_diag in Hrun by done. cbn in Hrun.
  rewrite insert_empty in Hrun. rewrite Hh3, Hh2 in Hrun.
  apply IH with (hdrs0 := hdrs0 ++ [hdr]) in Hrun as (hdrs & ext & Hsub & Hh & Hall').
  - cbn in Hh.
    exists (hdr :: hdrs), ({["md5" := VStr (md5_Sum_hex (entry_Data hdr))]} :: ext).
    split; [|split].
    + unfold droppable. cbn. unfold is_regular at 1.
      rewrite bool_decide_eq_true_2 by done.
      rewrite bool_decide_eq_false_2 by (by apply Hne). cbn.
      by apply sublist_skip.
    + by rewrite Hh, <- app_assoc.
    + by rewrite <- app_assoc in Hall'.
  - cbn. apply Forall2_app.
    + eapply Forall2_impl; [exact Hall|]. intros r hd. apply is_dropped_record_extend.
    + constructor; [|constructor]. repeat split; try done.
      eexists. split; [done|]. by rewrite lookup_app_r, Nat.sub_diag.
Qed.
End DroppedProps.

Section DroppedThms.
Context `{GoJson} `{GoCodecs} `{GoReport}.
Import parse_and_submit parse_and_submit.main.

Lemma dropped_loop_total crits eof entries : forall answers results w,
  (length (List.filter is_regular entries) <= length answers)%nat ->
  exists results' err w',
    dropped_loop crits entries eof answers results w = Ok (results', err) w'.
Proof.
  induction entries as [|hdr entries IH]; intros answers results w Hlen; cbn.
  { by eexists _, _, _. }
  cbn in Hlen. unfold is_regular at 1 in Hlen.
  destruct (decide (Typeflag hdr <> TypeReg /\ Typeflag hdr <> TypeRegA))
    as [Hreg|Hreg].
  { rewrite bool_decide_eq_false_2 in Hlen by (by intros Hn; apply Hn).
    by apply IH. }
  rewrite bool_decide_eq_true_2 in Hlen by done. cbn in Hlen.
  destruct answers as [|[sample relate] answers]; [cbn in Hlen; lia|].
  cbn in Hlen.
  destruct (NewSample_run crits (entry_Data hdr) (filepath_Base (hdr_Name hdr))
              sample w) as (id & err1 & w1 & Hns & _ & _).
  rewrite (bind_Ok _ _ _ _ _ Hns). cbn beta iota. rewrite bind_Sleep.
  destruct err1 as [e|].
  { case_decide; [apply IH; lia|by eexists _, _, _]. }
  match goal with |- context [bind (ForgeRelationship crits id relate) _ ?w2] =>
    destruct (ForgeRelationship_run crits id relate w2) as (err2 & w3 & Hfr & _)
  end.
  rewrite (bind_Ok _ _ _ _ _ Hfr). destruct err2 as [e|]; [by eexists _, _, _|].
  rewrite bind_Sleep. autounfold with run. unfold make_map, map_set. cbn.
  apply IH. lia.
Qed.

Lemma GetDropped_run cko id dropped w :
  fetched dropped ->
  exists w',
    GetDropped cko id dropped w =
      Ok (match dropped with
          | HttpResp _ _ body => (body, None)
          | HttpFail e | HttpReadFail _ _ e => ("", Some e)
          end) w' /\
    w_heap w' = w_heap w.
Proof.
  intros Hfetched. unfold GetDropped, FastGet.
  destruct dropped as [e|code st e|code st body]; run.
  - rewrite decide_True by (by left). by eexists.
  - rewrite decide_True by (by left). by eexists.
  - cbn in Hfetched. subst code. rewrite decide_False by (by intros [|]).
    run. by eexists.
Qed.

(** X17.  The records of [processDropped].  Every record that a run returns
    (with or without an error) is the record of a regular file of the
    archive that is not empty: the records follow the order of the archive,
    each has the subtype [file_added], the base name of the file as its
    value, and a map of its own that holds the MD5 sum of the file and
    nothing else; the maps that were there are left as they are.  The run
    comes back when the archive could be fetched (or no answer came), the
    request has its context, and there is an answer for every regular
    file. *)
Theorem processDropped_records (m : CheckResultsReq) (cuckoo : CuckooConn)
    (crits : CritsConn) (dropped : HttpResult)
    (answers : list (HttpResult * HttpResult)) (w : World) :
  (forall results err w',
      processDropped m cuckoo crits dropped answers w = Ok (results, err) w' ->
      exists hdrs ext,
        sublist hdrs (droppable (archive dropped)) /\
        w_heap w' = w_heap w ++ ext /\
        Forall2 (is_dropped_record (w_heap w')) results hdrs) /\
  (fetched dropped -> is_Some (crr_CritsData m) ->
   (length (List.filter is_regular (archive dropped)) <= length answers)%nat ->
   exists results err w',
     processDropped m cuckoo crits dropped answers w = Ok (results, err) w').
Proof.
  split.
  - intros results err w' Hrun. unfold processDropped in Hrun.
    apply bind_Ok_inv in Hrun as ([resp err0] & w1 & Hget & Hrun).
    assert (Hh1 : w_heap w1 = w_heap w /\
                  (err0 = None -> exists code st, dropped = HttpResp code st resp)).
    { revert Hget. unfold GetDropped, FastGet.
      destruct dropped as [e|code st e|code st body]; run.
      - rewrite decide_True by (by left). by intros [= <- <- <-].
      - rewrite decide_True by (by left). by intros [= <- <- <-].
      - case_decide; run; [done|]. intros [= <- <- <-]. split; [done|].
        intros _. by eexists _, _. }
    destruct Hh1 as [Hh1 Hresp].
    destruct err0 as [e|].
    { injection Hrun as <- <- <-. exists [], []. rewrite app_nil_r.
      split; [apply sublist_nil_l|]. split; [done|constructor]. }
    destruct (Hresp eq_refl) as (code & st & ->). cbn [archive].
    destruct (untar_bzip2 resp) as [entries eof]. cbn [fst].
    apply bind_Ok_inv in Hrun as ([results1 err1] & w2 & Hloop & Hrun).
    apply (dropped_loop_run _ _ _ _ _ []) in Hloop as (hdrs & ext & Hsub & Hh & Hall);
      [|constructor].
    assert (results = results1 /\ w_heap w' = w_heap w2) as [-> Hh'].
    { revert Hrun. destruct err1 as [e|]; [by intros [= <- <- <-]|].
      destruct (crr_CritsData m); run; [|done]. by intros [= <- <- <-]. }
    exists hdrs, ext. rewrite Hh', Hh, Hh1. rewrite Hh, Hh1 in Hall. done.
  - intros Hfetched [cd Hcd] Hlen. unfold processDropped.
    destruct (GetDropped_run cuckoo (crr_TaskId m) dropped w Hfetched)
      as (w1 & Hget & _).
    rewrite (bind_Ok _ _ _ _ _ Hget).
    destruct dropped as [e|code st e|code st body]; cbn beta iota;
      try (by eexists _, _, _).
    cbn [archive] in Hlen.
    destruct (untar_bzip2 body) as [entries eof]. cbn [fst] in Hlen.
    destruct (dropped_loop_total crits eof entries answers [] w1 Hlen)
      as (results & err & w2 & Hloop).
    rewrite (bind_Ok _ _ _ _ _ Hloop). cbn beta iota.
    destruct err as [e|]; [by eexists _, _, _|].
    rewrite Hcd. run. by eexists _, _, _.
Qed.
End DroppedThms.

Section ReporterScenario.
Context `{GoJson} `{GoCodecs} `{GoReport}.
Import parse_and_submit parse_and_submit.main.

Lemma gets_app l1 l2 : gets (l1 ++ l2) = gets l1 ++ gets l2.
Proof. apply omap_app. Qed.

(** X18.  [reportToCrits] with no parser enabled, the broker working, for a
    request with its context and a report that loads.  The batch is empty,
    so nothing is sent to the Repository; the task is deleted at the Sandbox
    all the same when the clean-up is on (an error of the deletion is only
    logged); the body of the delivery is published to the producer queue,
    when one is configured, and the delivery is acked. *)
Theorem reportToCrits_nothing_enabled (rp : Reporter) (m : CheckResultsReq)
    (msg : Delivery) (cd : CritsData) (st body : string) (dropped_http : HttpResult)
    (answers : list (HttpResult * HttpResult))
    (results_http delete_http : HttpResult) (w : World) :
  w_faults w = [] ->
  (forall parser, isSet rp parser = false) ->
  crr_CritsData m = Some cd ->
  snd (json_Unmarshal_CkoTasksReport body) = None ->
  exists w',
    reportToCrits rp m msg (HttpResp 200 st body) dropped_http answers
      results_http delete_http w = Ok tt w' /\
    requests (events_since w w') = [] /\
    gets (events_since w w') =
      (crr_CuckooURL m +:+ "/tasks/report/" +:+ GoInt.Itoa (crr_TaskId m))
      :: (if cuckooCleanup rp
          then [crr_CuckooURL m +:+ "/tasks/delete/" +:+ GoInt.Itoa (crr_TaskId m)]
          else []) /\
    bus_events (events_since w w') =
      match producer rp with
      | Some q => [EvPublish (qh_Queue q) (Body msg)]
      | None => []
      end ++ [EvAck (DeliveryTag msg) false].
Proof.
  intros Hf Hoff Hcd Hdec. destruct w as [ev fl now fs hp]. cbn in Hf. subst fl.
  unfold reportToCrits, NewCrits, TaskReport, FastGet.
  rewrite !Hoff, Hcd.
  destruct (json_Unmarshal_CkoTasksReport body) as [r [e|]]; [done|].
  run. rewrite decide_False by (by intros [|]). run.
  unfold DeleteTask, FastGet.
  destruct (cuckooCleanup rp); destruct (producer rp) as [q|];
    try destruct delete_http as [e|code st' e|code st' body']; run;
    try case_decide; run;
    (eexists; split; [reflexivity|]; since; done).
Qed.
End ReporterScenario.

Section ReporterGate.
Context `{GoJson} `{GoCodecs} `{GoReport}.
Import parse_and_submit parse_and_submit.main.

(** A nack-on-error writes to the log and to the broker only. *)
Lemma NackOnError_log_or_bus c0 err desc msg w w' b new :
  NackOnError c0 err desc msg w = Ok b w' ->
  w_events w' = w_events w ++ new ->
  Forall log_or_bus new.
Proof.
  intros Hrun Hev.
  destruct (emits_only_NackOnError log_or_bus) with (c := c0) (err := err)
    (desc := desc) (msg := msg) (w := w) as (new' & Hev' & Hall).
  - intros l t. right. eauto.
  - intros e He. by left.
  - rewrite Hrun in Hev'. cbn in Hev'. rewrite Hev in Hev'.
    by apply app_inv_head in Hev' as ->.
Qed.

(** X22.  [parseMsg] of the Reporter, the broker working.  A delivery is
    accepted when its body decodes to a hand-over with a Sandbox URL, a task
    id other than 0 and a context; an accepted delivery is handled by
    [reportToCrits].  Any other delivery goes to the failed queue and is
    nacked, and that is all: apart from lines in the log nothing else is
    done, so neither the Sandbox nor the Repository is contacted. *)
Theorem reporter_parseMsg_gate (rp : Reporter) (msg : Delivery)
    (report_http dropped_http : HttpResult)
    (answers : list (HttpResult * HttpResult))
    (results_http delete_http : HttpResult) (w : World) :
  w_faults w = [] ->
  (forall m,
      accepted msg = Some m <->
      json_Unmarshal_CheckResultsReq (Body msg) = (m, None) /\
      crr_CuckooURL m <> "" /\ crr_TaskId m <> 0 /\ is_Some (crr_CritsData m)) /\
  match accepted msg with
  | Some m =>
      parseMsg rp msg report_http dropped_http answers results_http delete_http w =
      reportToCrits rp m msg report_http dropped_http answers results_http
        delete_http w
  | None =>
      exists desc w',
        parseMsg rp msg report_http dropped_http answers results_http delete_http w
          = Ok tt w' /\
        rejected (c rp) msg desc (bus_events (events_since w w')) /\
        Forall log_or_bus (events_since w w')
  end.
Proof.
  intros Hf. split.
  - intros m. unfold accepted, CheckResultsReq_Validate.
    destruct (json_Unmarshal_CheckResultsReq (Body msg)) as [m' [e|]].
    { split; [done|]. by intros [[=] _]. }
    case_decide as Hempty.
    { split; [done|]. intros [[= ->] (Hu & Ht & _)]. by destruct Hempty. }
    destruct (crr_CritsData m') as [cd|] eqn:Hcd.
    + split.
      * intros [= <-]. split; [done|]. rewrite Hcd.
        split; [by intros ?; apply Hempty; left|].
        split; [by intros ?; apply Hempty; right|]. by eexists.
      * by intros [[= ->] _].
    + split; [done|]. intros [[= ->] (_ & _ & [cd Hcd'])]. congruence.
  - unfold parseMsg, accepted.
    destruct (json_Unmarshal_CheckResultsReq (Body msg)) as [m [e|]].
    { destruct (NackOnError_run (c rp) (Some e) "Could not decode json!" msg w Hf)
        as (new & w' & Hn & Hev & _ & _ & _ & _ & Hb).
      rewrite (bind_Ok _ _ _ _ _ Hn). cbn. eexists _, w'. split; [done|].
      rewrite (events_since_app _ _ _ Hev). split; [by exists e|].
      eapply NackOnError_log_or_bus; eauto. }
    cbn. destruct (CheckResultsReq_Validate m) as [e|]; [|done].
    destruct (NackOnError_run (c rp) (Some e)
                "Error in msg from check_results service!" msg w Hf)
      as (new & w' & Hn & Hev & _ & _ & _ & _ & Hb).
    rewrite (bind_Ok _ _ _ _ _ Hn). cbn. eexists _, w'. split; [done|].
    rewrite (events_since_app _ _ _ Hev). split; [by exists e|].
    eapply NackOnError_log_or_bus; eauto.
Qed.

(** X23.  [NewSample] and a file that is empty.  Nothing is uploaded: the
    call posts one log line to the Repository (level [info], naming the
    file) and returns the error [empty file], whatever the Repository
    answers to the log line. *)
Theorem NewSample_empty_file (crt : CritsConn) (fileData fileName : string)
    (http : HttpResult) (w : World) :
  String.length fileData = 0%nat ->
  exists w',
    NewSample crt fileData fileName http w = Ok ("", Some "empty file") w' /\
    List.filter (fun e => negb (match e with EvLog _ _ => true | _ => false end))
                (events_since w w') =
      [EvRequest "POST" (crt_URL crt)
         ([("log_level", "info");
           ("log_message", "Empty dropped file: " +:+ fileName)]
            ++ context_fields crt)
         http].
Proof.
  intros Hlen. unfold NewSample, Log, FastPostForm.
  rewrite decide_True by done. run.
  destruct http as [e|code st e|code st body]; run;
    try (eexists; split; [reflexivity|]; by since).
  destruct (json_Unmarshal_CrtDefaultResponse body) as [r [e|]]; run;
    (eexists; split; [reflexivity|]; by since).
Qed.
End ReporterGate.

Section ReportBehaviorLayout.
Import parse_and_submit.
Variable pushApiCallsMax : Z.
Hypothesis cap_is_int : pushApiCallsMax <= GoInt.max_int.

Lemma processes_loop_records resMap ps : forall (h : heap) m,
  h !! resMap = Some m ->
  processes_loop resMap (Some <$> ps) h =
    Ok ((fun p => {| Subtype := "process"; Result := pcs_Name p;
                     Data := Some resMap |}) <$> ps)
       (<[resMap :=
            foldl (fun m p =>
                     <["first_seen" := VStr (FirstSeen p)]>
                       (<["parent_id" := VStr (GoInt.Itoa (ParentId p))]>
                          (<["process_id" := VStr (GoInt.Itoa (pcs_Id p))]> m)))
                  m ps]> h).
Proof.
  induction ps as [|p ps IH]; intros h m Hm; cbn.
  { by rewrite list_insert_id. }
  run. erewrite IH.
  2:{ rewrite !list_lookup_alter, !decide_True by done. by rewrite Hm. }
  cbn. f_equal. apply list_eq. intros i.
  destruct (decide (i = resMap)) as [->|Hne].
  - rewrite !list_lookup_insert_eq; [done| |].
    + by eapply lookup_lt_Some.
    + rewrite !length_alter. by eapply lookup_lt_Some.
  - by rewrite !list_lookup_insert_ne, !list_lookup_alter_ne by done.
Qed.

(** X19.  What [processReportBehavior] returns for a section without a nil
    pointer.  First one [process] record per process, in order, with the
    name of the process; then the [api_call] records; then one [file]
    record per file of the summary, one [registry_key] record per key and
    one [mutex] record per mutex, in that order, each with the name as its
    value and no map.  All [process] records hold one and the same map, the
    one the function makes first, and that map is left with the process id,
    the parent id and the time first seen of the last process. *)
Theorem processReportBehavior_layout (behavior : CkoTasksReportBehavior)
    (ps : list CkoTasksReportBhvPcs) (summary : CkoTasksReportBhvSummary)
    (h : heap) :
  default [] (Processes behavior) = Some <$> ps ->
  Forall (fun p => Forall is_Some (Calls p)) ps ->
  Summary behavior = Some summary ->
  exists api h',
    processReportBehavior pushApiCallsMax (Some behavior) h =
      Ok (((fun p => {| Subtype := "process"; Result := pcs_Name p;
                        Data := Some (length h) |}) <$> ps)
          ++ api
          ++ ((fun b => {| Subtype := "file"; Result := b; Data := None |})
                <$> default [] (Files summary))
          ++ ((fun b => {| Subtype := "registry_key"; Result := b; Data := None |})
                <$> default [] (Keys summary))
          ++ ((fun b => {| Subtype := "mutex"; Result := b; Data := None |})
                <$> default [] (Mutexes summary))) h' /\
    Forall (fun r => Subtype r = "api_call") api /\
    h' !! length h = Some (processes_attrs ps) /\
    forall ps0 p,
      ps = ps0 ++ [p] ->
      processes_attrs ps !! "process_id" = Some (VStr (GoInt.Itoa (pcs_Id p))) /\
      processes_attrs ps !! "parent_id" = Some (VStr (GoInt.Itoa (ParentId p))) /\
      processes_attrs ps !! "first_seen" = Some (VStr (FirstSeen p)).
Proof.
  intros Hps Hcalls Hsum. unfold processReportBehavior, make_map.
  rewrite Hps, Hsum. unfold bind at 1.
  unfold bind at 1.
  rewrite (processes_loop_records _ _ _ ∅) by (by rewrite lookup_app_r, Nat.sub_diag).
  rewrite insert_app_r_alt, Nat.sub_diag by done. cbn [insert list_insert].
  fold (processes_attrs ps).
  destruct (api_calls_loop_total pushApiCallsMax (Some <$> ps) 0
              (h ++ [processes_attrs ps])) as (api & h' & Hapi).
  { apply Forall_fmap. eapply Forall_impl; [exact Hcalls|]. intros p Hp. cbn. eauto. }
  unfold bind at 1. rewrite Hapi. run.
  destruct (api_calls_loop_run pushApiCallsMax cap_is_int _ _ _ _ _ ltac:(done) Hapi)
    as (pss & pcs & ext & _ & _ & -> & Hall).
  exists api, ((h ++ [processes_attrs ps]) ++ ext).
  split; [reflexivity|]. split; [|split].
  - clear -Hall. induction Hall as [|r pc api pcs (Hs & _) _ IH]; by constructor.
  - rewrite <- app_assoc. by rewrite lookup_app_r, Nat.sub_diag.
  - intros ps0 p ->. unfold processes_attrs. rewrite foldl_app. cbn.
    rewrite lookup_insert_ne, lookup_insert_ne, lookup_insert_eq by done.
    rewrite lookup_insert_ne, lookup_insert_eq by done.
    by rewrite lookup_insert_eq.
Qed.

(** X20.  A behaviour section without a summary.  [processReportBehavior]
    reads the files of the summary without looking whether there is one: for
    a section whose summary is nil it returns nothing, and for one whose
    processes and calls are all there it ends, after its loops, in the panic
    of a nil dereference. *)
Theorem processReportBehavior_needs_summary (behavior : CkoTasksReportBehavior)
    (h : heap) :
  Summary behavior = None ->
  (forall res h', processReportBehavior pushApiCallsMax (Some behavior) h <> Ok res h') /\
  (Forall (fun p => exists p', p = Some p' /\ Forall is_Some (Calls p'))
          (default [] (Processes behavior)) ->
   exists h', processReportBehavior pushApiCallsMax (Some behavior) h =
                Panic nil_deref h').
Proof.
  intros Hsum. unfold processReportBehavior, make_map. rewrite Hsum. split.
  - intros res h'. run.
    destruct (processes_loop _ _ _) as [res1 h1| |]; [|done..].
    by destruct (api_calls_loop _ _ _ _) as [res2 h2| |].
  - intros Hall. run.
    edestruct processes_loop_total as (res1 & h1 & ->); [done|].
    edestruct api_calls_loop_total as (res2 & h2 & ->); [done|].
    cbn. by eexists.
Qed.
End ReportBehaviorLayout.

Section CritsInPlace.
Context `{GoJson}.

(** The maps after the loop of [AddResults] has gone over a batch. *)
Lemma converted_by_lookup (results : list CrtResult) : forall (h : heap) i,
  foldl (fun (h : heap) r =>
           match Data r with
           | Some m => alter stringify_bools m h
           | None => h
           end) h results !! i =
  if decide (Some i ∈ Data <$> results)
  then fmap stringify <$> (h !! i)
  else h !! i.
Proof.
  induction results as [|r results IH]; intros h i; cbn.
  { rewrite decide_False; [done|]. apply not_elem_of_nil. }
  rewrite IH. destruct (Data r) as [m|] eqn:Hd.
  - destruct (decide (i = m)) as [->|Hne].
    + rewrite list_lookup_alter.
      rewrite !(decide_True (P := m = m)) by done.
      rewrite (decide_True (P := Some m ∈ Some m :: _)) by apply list_elem_of_here.
      destruct (h !! m) as [a|]; [|by case_decide]. cbn.
      rewrite stringify_bools_fmap. case_decide; [|done]. cbn. f_equal.
      rewrite <- map_fmap_compose.
      apply map_fmap_ext. intros k v _. apply stringify_idemp.
    + rewrite list_lookup_alter_ne by done.
      case_decide as Hin.
      * by rewrite decide_True by (by apply list_elem_of_further).
      * rewrite decide_False; [done|].
        intros [[=]|?]%elem_of_cons; [by subst|done].
  - case_decide as Hin.
    + by rewrite decide_True by (by apply list_elem_of_further).
    + rewrite decide_False; [done|]. by intros [?|?]%elem_of_cons.
Qed.

Lemma AddResults_loop_heap results : forall arrResult arrResultType arrResultSubtype
    (h : heap),
  (forall m s e, json_Marshal_attrs m <> (s, Some e)) ->
  exists out,
    AddResults_loop results arrResult arrResultType arrResultSubtype h =
      Ok (inr out)
         (foldl (fun (h : heap) r =>
                   match Data r with
                   | Some m => alter stringify_bools m h
                   | None => h
                   end) h results).
Proof.
  induction results as [|r results IH];
    intros arrResult arrResultType arrResultSubtype h Henc.
  { by eexists. }
  unfold AddResults_loop; fold AddResults_loop.
  destruct (Data r) as [m|] eqn:Hd; run.
  - destruct (json_Marshal_attrs _) as [s [e|]] eqn:Hm; [by apply Henc in Hm|].
    cbn. rewrite Hd. by apply IH.
  - rewrite Hd. by apply IH.
Qed.

(** X21.  [AddResults] converts the maps of its batch in place.  When every
    map encodes, each attribute map that a record of the batch refers to is
    left, after the call, with every bool replaced by its text and every
    other value as it was, whatever the Repository answers; the maps that no
    record of the batch refers to are left as they were. *)
Theorem AddResults_converts_in_place (crt : CritsConn) (results : list CrtResult)
    (http : HttpResult) (w : World) :
  (forall m s e, json_Marshal_attrs m <> (s, Some e)) ->
  forall i,
    w_heap (final (AddResults crt results http w)) !! i =
      if decide (Some i ∈ Data <$> results)
      then fmap stringify <$> (w_heap w !! i)
      else w_heap w !! i.
Proof.
  intros Henc i. rewrite <- converted_by_lookup. f_equal.
  unfold AddResults. destruct results as [|r results]; [done|].
  unfold lift_heap, bind.
  destruct (AddResults_loop_heap (r :: results) [] [] [] (w_heap w) Henc)
    as ([[a1 a2] a3] & ->).
  destruct (json_Marshal_strings a1) as [? [?|]]; [done|].
  destruct (json_Marshal_strings a2) as [? [?|]]; [done|].
  destruct (json_Marshal_strings a3) as [? [?|]]; [done|].
  unfold FastPostForm.
  destruct http as [e|code st e|code st body]; run; try reflexivity.
  destruct (json_Unmarshal_CrtDefaultResponse body) as [r0 [e|]]; run;
    [reflexivity|].
  case_decide; reflexivity.
Qed.
End CritsInPlace.

(** * Sample runs *)

Section Samples.
Import feed_cuckoo overseer parse_and_submit.

Example four_deliveries_of_one_analysis :
  let d := {| DeliveryTag := 7; RoutingKey := "failed"; Body := "a1" |} in
  let c0 := {| ServiceName := "overseer"; failed := {| qh_Queue := "failed" |} |} in
  let r := @consume sample_json sample_strconv (Overseer_init c0 "/var/dump")
             [d; d; d; d] (World_init [] 1700000000 ∅) in
  bus_events (w_events (final r)) =
    [EvPublish "submit" "a1"; EvAck 7 false;
     EvPublish "submit" "a1"; EvAck 7 false;
     EvPublish "submit" "a1"; EvAck 7 false;
     EvAck 7 false] /\
  map_to_list (w_fs (final r)) = [("/var/dump/1700000180_0", "a1")].
Proof. vm_compute. split; reflexivity. Qed.

Lemma NackOnError_contract_witness :
  exists w',
    @NackOnError sample_json sample_core (Some "boom") "Could not decode json!"
      sample_delivery (World_init [] 0 ∅) = Ok true w' /\
    bus_events (events_since (World_init [] 0 ∅) w') =
      [EvPublish "failed" "|feed_cuckoo|submit|boom|Could not decode json!|a1|";
       EvNack 7 false false].
Proof.
  exact (proj1 (@NackOnError_contract sample_json sample_core
                  "Could not decode json!" sample_delivery (World_init [] 0 ∅))
               "boom" eq_refl).
Defined.

Lemma overseer_three_retries_then_dump_witness :
  let pre := [sample_delivery; sample_delivery; sample_delivery] in
  let w := World_init [] 1700000000 ∅ in
  exists o1 w1 o2 w2,
    @consume sample_json sample_strconv (Overseer_init sample_core "/var/dump") pre w
      = Ok o1 w1 /\
    @parseMsg sample_json sample_strconv o1 sample_delivery w1 = Ok o2 w2 /\
    ((@seen sample_json "a1" pre < 3)%nat ->
     @republished sample_json sample_strconv sample_delivery w1 w2) /\
    ((3 <= @seen sample_json "a1" pre)%nat ->
     dumped "/var/dump" sample_delivery w1 w2 /\
     size (w_fs w2) = S (size (w_fs w1))).
Proof.
  apply (@overseer_three_retries_then_dump sample_json sample_strconv sample_core
           "/var/dump" [sample_delivery; sample_delivery; sample_delivery]
           sample_delivery "a1" (World_init [] 1700000000 ∅)).
  - reflexivity.
  - vm_compute. reflexivity.
  - reflexivity.
Defined.



Lemma AddResults_no_native_bool_witness :
  exists form arrResultType,
    form = @AddResults_form sample_crits
             (fst (@json_Marshal_strings sample_json (Result <$> sample_batch)))
             (fst (@json_Marshal_strings sample_json (Subtype <$> sample_batch)))
             (fst (@json_Marshal_strings sample_json arrResultType)) /\
    Forall2
      (fun r result_type =>
         forall data, Data r = Some data ->
           exists m : attrs,
             @json_Marshal_attrs sample_json m = (result_type, None) /\
             no_bool m /\
             forall k v,
               default ∅ (w_heap sample_batch_world !! data) !! k = Some v ->
               m !! k = Some (match v with
                              | VBool b => VStr (if b then "true" else "false")
                              | _ => v
                              end))
      sample_batch arrResultType.
Proof.
  eexists.
  eapply (@AddResults_no_native_bool sample_json sample_crits sample_batch
            (HttpResp 200 "200 OK" "ok") sample_batch_world
            "POST" "https://crits/api/v1/services/" _ (HttpResp 200 "200 OK" "ok")).
  vm_compute. apply list_elem_of_further, list_elem_of_here.
Defined.

Lemma AddResults_parallel_arrays_witness :
  exists form,
    requests (events_since sample_batch_world
                (final (@AddResults sample_json sample_crits sample_batch
                          (HttpResp 200 "200 OK" "ok") sample_batch_world))) =
      [EvRequest "POST" "https://crits/api/v1/services/" form
         (HttpResp 200 "200 OK" "ok")].
Proof.
  refine (proj2 (@AddResults_parallel_arrays sample_json sample_crits sample_batch
                   (HttpResp 200 "200 OK" "ok") sample_batch_world) _ _).
  - discriminate.
  - intros [(m & s & e & Hm)|(l & s & e & Hl)]; discriminate.
Defined.

Lemma processReportBehavior_api_cap_witness :
  exists res h',
    processReportBehavior 1 (Some sample_behavior) [] = Ok res h' /\
    exists ps pcs,
      default [] (Processes sample_behavior) = Some <$> ps /\
      take (Z.to_nat 1) (call_slots ps) = Some <$> pcs /\
      Forall2 (is_call_record h') (List.filter is_api_call res) pcs /\
      (0 <= 1 -> Z.of_nat (length (List.filter is_api_call res)) <= 1) /\
      (1 = 0 -> List.filter is_api_call res = []).
Proof.
  assert (Hint : 1 <= GoInt.max_int) by (vm_compute; discriminate).
  assert (Hwf : well_formed sample_behavior).
  { split; [|by eexists]. constructor; [|constructor].
    eexists. split; [reflexivity|]. by repeat constructor. }
  destruct (proj2 (processReportBehavior_api_cap 1 Hint sample_behavior) Hwf [])
    as (res & h' & Hrun).
  exists res, h'. split; [exact Hrun|].
  exact (proj1 (processReportBehavior_api_cap 1 Hint sample_behavior) [] res h' Hrun).
Defined.

Lemma handleSubmit_unguarded_status_witness :
  @handleSubmit_from sample_json sample_feeder sample_request "MZ" sample_delivery
    (None, Some "connection refused") [] (HttpResp 200 "200 OK" "1")
    (World_init [] 0 ∅)
  = Panic nil_deref (World_init [] 0 ∅).
Proof.
  exact (proj1 (proj2 (proj2 (@handleSubmit_unguarded_status sample_json
                                sample_feeder sample_request "MZ" sample_delivery)))
               _ _ _ _).
Defined.
End Samples.

(** * Sample runs of the other workers *)

Section MoreSamples.

Lemma sandbox_status_not_200_witness :
  (snd (@json_Unmarshal_CkoStatus sample_json "oops") = None ->
   (exists w', @GetStatus sample_json sample_cuckoo
                 (HttpResp 500 "500 Internal Server Error" "oops")
                 (World_init [] 0 ∅) = Panic nil_deref w') /\
   (exists w', @GetPending sample_json sample_cuckoo
                 (HttpResp 500 "500 Internal Server Error" "oops")
                 (World_init [] 0 ∅) = Panic nil_deref w')) /\
  (snd (@json_Unmarshal_CkoTasksReport sample_report "oops") = None ->
   exists w', @TaskReport sample_report sample_cuckoo 7
                (HttpResp 500 "500 Internal Server Error" "oops")
                (World_init [] 0 ∅) = Panic nil_deref w') /\
  (exists w', GetDropped sample_cuckoo 7
                (HttpResp 500 "500 Internal Server Error" "oops")
                (World_init [] 0 ∅) = Panic nil_deref w') /\
  (exists w',
      DeleteTask sample_cuckoo 7 (HttpResp 500 "500 Internal Server Error" "oops")
        (World_init [] 0 ∅) =
        Ok (Some (GoInt.Itoa 500 +:+ " - Response code not 200")) w').
Proof.
  apply (@sandbox_status_not_200 sample_json sample_report sample_cuckoo 7 500
           "500 Internal Server Error" "oops" (World_init [] 0 ∅)).
  vm_compute. discriminate.
Defined.

Lemma check_disposition_witness :
  exists w',
    @check_results.check sample_json sample_codecs sample_watcher "a1" sample_elem
      (HttpResp 200 "200 OK" "reported") (World_init [] 0 ∅) =
      Ok (check_results.set_watchMap sample_watcher
            (delete "a1" (check_results.watchMap sample_watcher))) w' /\
    bus_events (events_since (World_init [] 0 ∅) w') =
      [EvPublish "ready" "|http://cuckoo:8090|2|"; EvAck 7 false].
Proof.
  exact (@check_disposition sample_json sample_codecs sample_watcher "a1" sample_elem
           (HttpResp 200 "200 OK" "reported") (World_init [] 0 ∅) eq_refl).
Defined.

Lemma check_pass_invariant_witness :
  exists wt' w',
    @check_results.check_pass sample_json sample_codecs sample_watcher ["a1"]
      [HttpResp 200 "200 OK" "reported"] (World_init [] 0 ∅) = Ok wt' w' /\
    exists removed,
      Forall2 (check_results.tag_of sample_watcher) removed
        (check_results.settled (events_since (World_init [] 0 ∅) w')) /\
      forall k, check_results.watchMap wt' !! k =
                if decide (k ∈ removed) then None
                else check_results.watchMap sample_watcher !! k.
Proof.
  destruct (@check_pass_invariant sample_json sample_codecs sample_watcher ["a1"]
              [HttpResp 200 "200 OK" "reported"] (World_init [] 0 ∅) eq_refl)
    as [Hinv Htotal].
  destruct Htotal as (wt' & w' & Hrun).
  - constructor; [|constructor]. vm_compute. by eexists.
  - cbn. lia.
  - exists wt', w'. split; [exact Hrun|]. exact (Hinv wt' w' Hrun).
Defined.

Lemma watcher_parseMsg_holds_delivery_witness :
  @check_results.parseMsg sample_json sample_codecs sample_watcher sample_delivery
    (World_init [] 0 ∅) =
    Ok (check_results.set_watchMap sample_watcher
          (<["a1" := sample_elem]> (check_results.watchMap sample_watcher)))
       (World_init [] 0 ∅).
Proof.
  exact (@watcher_parseMsg_holds_delivery sample_json sample_codecs sample_watcher
           sample_delivery (World_init [] 0 ∅) eq_refl).
Defined.

Lemma watcher_same_analysis_replaces_witness :
  let msg2 := {| DeliveryTag := 8; RoutingKey := "pending"; Body := "a1b" |} in
  let m2 := {| fcr_TaskId := 3; fcr_CuckooURL := "http://cuckoo:8090";
               fcr_CritsData := Some (crt_Data sample_crits) |} in
  @check_results.consume sample_json sample_codecs sample_watcher
    [sample_delivery; msg2] (World_init [] 0 ∅) =
  @check_results.consume sample_json sample_codecs sample_watcher [msg2]
    (World_init [] 0 ∅) /\
  @check_results.consume sample_json sample_codecs sample_watcher [msg2]
    (World_init [] 0 ∅) =
    Ok (check_results.set_watchMap sample_watcher
          (<["a1" := {| check_results.Req := m2; check_results.Msg := msg2 |}]>
             (check_results.watchMap sample_watcher)))
       (World_init [] 0 ∅).
Proof.
  intros msg2 m2.
  exact (@watcher_same_analysis_replaces sample_json sample_codecs sample_watcher
           sample_delivery msg2 sample_handover m2 (crt_Data sample_crits)
           (crt_Data sample_crits) (World_init [] 0 ∅) eq_refl eq_refl eq_refl).
Defined.

Lemma handleSubmit_upload_disposition_witness :
  exists w',
    @feed_cuckoo.handleSubmit_upload sample_json sample_feeder sample_request "MZ"
      sample_delivery (HttpResp 200 "200 OK" "12345") (World_init [] 0 ∅) = Ok tt w' /\
    bus_events (events_since (World_init [] 0 ∅) w') =
      [EvPublish "pending" "|5|http://cuckoo:8090|"; EvAck 7 false].
Proof.
  exact (@handleSubmit_upload_disposition sample_json sample_feeder sample_request
           "MZ" sample_delivery (HttpResp 200 "200 OK" "12345") (World_init [] 0 ∅)
           eq_refl).
Defined.

Lemma feeder_parseMsg_gate_witness :
  let msg := {| DeliveryTag := 9; RoutingKey := "submit"; Body := "" |} in
  exists desc w',
    @feed_cuckoo.parseMsg sample_json sample_codecs sample_feeder msg
      [HttpResp 200 "200 OK" "x"] (HttpResp 200 "200 OK" "12345")
      (World_init [] 0 ∅) = Ok tt w' /\
    @rejected sample_json sample_core msg desc
      (bus_events (events_since (World_init [] 0 ∅) w')) /\
    Forall (fun e => feed_cuckoo.is_sandbox e = false)
           (events_since (World_init [] 0 ∅) w').
Proof.
  intros msg.
  exact (proj2 (@feeder_parseMsg_gate sample_json sample_codecs sample_feeder msg
                  [HttpResp 200 "200 OK" "x"] (HttpResp 200 "200 OK" "12345")
                  (World_init [] 0 ∅) eq_refl)).
Defined.

Lemma overseer_undecodable_dumped_witness :
  exists w',
    @overseer.parseMsg sample_json_strict sample_strconv sample_overseer
      sample_delivery (World_init [] 1700000000 ∅) = Ok sample_overseer w' /\
    overseer.dumped "/var/dump" sample_delivery (World_init [] 1700000000 ∅) w'.
Proof.
  apply (@overseer_undecodable_dumped sample_json_strict sample_strconv
           sample_overseer sample_delivery (World_init [] 1700000000 ∅)).
  - reflexivity.
  - vm_compute. reflexivity.
  - reflexivity.
Defined.


Lemma resubmitDumped_replays_witness :
  let files := [{| overseer.fi_Name := "1700000000_0"; overseer.IsDir := false |};
                {| overseer.fi_Name := "old"; overseer.IsDir := true |}] in
  let w := World_init [] 0 {["/var/dump/1700000000_0" := "a1"]} in
  exists w',
    overseer.resubmitDumped sample_overseer "failed" files w = Ok tt w' /\
    bus_events (events_since w w') =
      (fun f => EvPublish "failed"
                  (default "" (w_fs w !! overseer.dump_path sample_overseer f)))
        <$> overseer.regular files /\
    overseer.declared (events_since w w') = ["failed"] /\
    forall path,
      w_fs w' !! path =
        if decide (path ∈ overseer.dump_path sample_overseer <$> overseer.regular files)
        then None else w_fs w !! path.
Proof.
  intros files w.
  apply (resubmitDumped_replays sample_overseer "failed" files w).
  - reflexivity.
  - apply (bool_decide_unpack _). vm_compute. exact I.
Defined.

Lemma dump_then_replay_witness :
  exists name w1 w2,
    overseer.dumpMsg sample_overseer sample_delivery (World_init [] 1700000000 ∅)
      = Ok tt w1 /\
    (∅ : gmap string string) !! ("/var/dump" +:+ "/" +:+ name) = None /\
    w_fs w1 = <["/var/dump" +:+ "/" +:+ name := "a1"]> ∅ /\
    overseer.resubmitDumped sample_overseer "failed"
      [{| overseer.fi_Name := name; overseer.IsDir := false |}] w1 = Ok tt w2 /\
    bus_events (events_since w1 w2) = [EvPublish "failed" "a1"] /\
    w_fs w2 = ∅.
Proof.
  apply (dump_then_replay sample_overseer sample_delivery "failed"
           (World_init [] 1700000000 ∅)).
  - reflexivity.
  - vm_compute. reflexivity.
Defined.

Lemma resubmit_declares_once_witness :
  let failed := {| Service := "feed_cuckoo"; Queue := "submit"; Error := "boom";
                   Desc := "Could not decode json!"; Msg := "a1" |} in
  exists o1 w1 w2,
    @overseer.resubmit sample_strconv sample_overseer failed sample_delivery
      (World_init [] 0 ∅) = Ok (o1, None) w1 /\
    overseer.declared (events_since (World_init [] 0 ∅) w1) = ["submit"] /\
    @overseer.resubmit sample_strconv o1 failed sample_delivery w1
      = Ok (o1, None) w2 /\
    overseer.declared (events_since w1 w2) = [].
Proof.
  intros failed.
  exact (@resubmit_declares_once sample_strconv sample_overseer failed
           sample_delivery (World_init [] 0 ∅) eq_refl).
Defined.

Lemma testDumpDir_transparent_witness :
  let w := World_init [] 0 {["/var/dump/__test" := "stale"; "/var/dump/1_0" := "a1"]} in
  exists w',
    overseer.testDumpDir sample_overseer w = Ok tt w' /\
    bus_events (events_since w w') = [] /\
    w_fs w' = delete ("/var/dump" +:+ "/__test") (w_fs w).
Proof.
  intros w. exact (testDumpDir_transparent sample_overseer w eq_refl).
Defined.

Lemma reportToCrits_disposition_witness :
  let w := World_init [] 0 ∅ in
  let w' := final (@parse_and_submit.main.reportToCrits sample_json sample_report
                     sample_reporter sample_ready sample_delivery
                     (HttpResp 200 "200 OK" "{}") (HttpResp 200 "200 OK" "MZ")
                     [(HttpResp 200 "200 OK" "ok", HttpResp 200 "200 OK" "ok")]
                     (HttpResp 200 "200 OK" "ok") (HttpResp 200 "200 OK" "")
                     w) in
  @rejected sample_json sample_core sample_delivery
    "Couldn't load report from cuckoo!" (bus_events (events_since w w')) \/
  @rejected sample_json sample_core sample_delivery
    "Adding results to crits failed!" (bus_events (events_since w w')) \/
  bus_events (events_since w w') = [EvPublish "done" "a1"] ++ [EvAck 7 false].
Proof.
  intros w w'.
  apply (@reportToCrits_disposition sample_json sample_report sample_reporter
           sample_ready sample_delivery
           (HttpResp 200 "200 OK" "{}") (HttpResp 200 "200 OK" "MZ")
           [(HttpResp 200 "200 OK" "ok", HttpResp 200 "200 OK" "ok")]
           (HttpResp 200 "200 OK" "ok") (HttpResp 200 "200 OK" "") w w').
  - reflexivity.
  - vm_compute. reflexivity.
Defined.

Lemma processDropped_records_witness :
  exists results err w',
    @parse_and_submit.main.processDropped sample_json sample_report sample_ready
      sample_cuckoo sample_crits (HttpResp 200 "200 OK" "MZ")
      [(HttpResp 200 "200 OK" "ok", HttpResp 200 "200 OK" "ok")]
      (World_init [] 0 ∅) = Ok (results, err) w' /\
    exists hdrs ext,
      sublist hdrs
        (@parse_and_submit.main.droppable
           (@parse_and_submit.main.archive sample_report (HttpResp 200 "200 OK" "MZ"))) /\
      w_heap w' = [] ++ ext /\
      Forall2 (@parse_and_submit.main.is_dropped_record sample_report (w_heap w'))
              results hdrs.
Proof.
  destruct (@processDropped_records sample_json sample_report sample_ready
              sample_cuckoo sample_crits (HttpResp 200 "200 OK" "MZ")
              [(HttpResp 200 "200 OK" "ok", HttpResp 200 "200 OK" "ok")]
              (World_init [] 0 ∅)) as [Hrec Htotal].
  destruct Htotal as (results & err & w' & Hrun).
  - reflexivity.
  - by eexists.
  - vm_compute. lia.
  - exists results, err, w'. split; [exact Hrun|]. exact (Hrec results err w' Hrun).
Defined.

Lemma reportToCrits_nothing_enabled_witness :
  let w := World_init [] 0 ∅ in
  exists w',
    @parse_and_submit.main.reportToCrits sample_json sample_report
      sample_reporter_off sample_ready sample_delivery
      (HttpResp 200 "200 OK" "{}") (HttpFail "unused") []
      (HttpFail "unused") (HttpResp 404 "404 Not Found" "") w = Ok tt w' /\
    requests (events_since w w') = [] /\
    parse_and_submit.main.gets (events_since w w') =
      ["http://cuckoo:8090" +:+ "/tasks/report/" +:+ GoInt.Itoa 2;
       "http://cuckoo:8090" +:+ "/tasks/delete/" +:+ GoInt.Itoa 2] /\
    bus_events (events_since w w') = [EvPublish "done" "a1"] ++ [EvAck 7 false].
Proof.
  intros w.
  apply (@reportToCrits_nothing_enabled sample_json sample_report
           sample_reporter_off sample_ready sample_delivery (crt_Data sample_crits)
           "200 OK" "{}" (HttpFail "unused") [] (HttpFail "unused")
           (HttpResp 404 "404 Not Found" "") w).
  - reflexivity.
  - intros parser. reflexivity.
  - reflexivity.
  - reflexivity.
Defined.

Lemma reporter_parseMsg_gate_witness :
  let msg := {| DeliveryTag := 9; RoutingKey := "ready"; Body := "" |} in
  let w := World_init [] 0 ∅ in
  exists desc w',
    @parse_and_submit.main.parseMsg sample_json sample_codecs sample_report
      sample_reporter msg (HttpResp 200 "200 OK" "{}") (HttpResp 200 "200 OK" "MZ")
      [] (HttpResp 200 "200 OK" "ok") (HttpResp 200 "200 OK" "") w = Ok tt w' /\
    @rejected sample_json sample_core msg desc (bus_events (events_since w w')) /\
    Forall log_or_bus (events_since w w').
Proof.
  intros msg w.
  exact (proj2 (@reporter_parseMsg_gate sample_json sample_codecs sample_report
                  sample_reporter msg (HttpResp 200 "200 OK" "{}")
                  (HttpResp 200 "200 OK" "MZ") [] (HttpResp 200 "200 OK" "ok")
                  (HttpResp 200 "200 OK" "") w eq_refl)).
Defined.

Lemma NewSample_empty_file_witness :
  exists w',
    @NewSample sample_json sample_crits "" "empty.bin" (HttpFail "connection refused")
      (World_init [] 0 ∅) = Ok ("", Some "empty file") w' /\
    List.filter (fun e => negb (match e with EvLog _ _ => true | _ => false end))
                (events_since (World_init [] 0 ∅) w') =
      [EvRequest "POST" "https://crits"
         ([("log_level", "info");
           ("log_message", "Empty dropped file: " +:+ "empty.bin")]
            ++ context_fields sample_crits)
         (HttpFail "connection refused")].
Proof.
  exact (@NewSample_empty_file sample_json sample_crits "" "empty.bin"
           (HttpFail "connection refused") (World_init [] 0 ∅) eq_refl).
Defined.

Lemma processReportBehavior_layout_witness :
  exists api h',
    parse_and_submit.processReportBehavior 1 (Some sample_behavior) [] =
      Ok ([{| Subtype := "process"; Result := "a.exe"; Data := Some 0%nat |}]
          ++ api
          ++ [{| Subtype := "file"; Result := "C:\\a"; Data := None |}]
          ++ [] ++ []) h' /\
    Forall (fun r => Subtype r = "api_call") api /\
    (h' !! 0%nat ≫= (.!! "process_id")) = Some (VStr "4").
Proof.
  assert (Hint : 1 <= GoInt.max_int) by (vm_compute; discriminate).
  destruct (processReportBehavior_layout 1 Hint sample_behavior
              [{| pcs_Name := "a.exe"; pcs_Id := 4; ParentId := 1;
                  FirstSeen := "t0";
                  Calls := [Some sample_call; Some sample_call] |}]
              {| Files := Some ["C:\\a"]; Keys := None; Mutexes := None |} [])
    as (api & h' & Hrun & Hapi & Hmap & _).
  - reflexivity.
  - repeat constructor; by eexists.
  - reflexivity.
  - exists api, h'. split; [exact Hrun|]. split; [exact Hapi|].
    cbn in Hmap. rewrite Hmap. vm_compute. reflexivity.
Defined.

Lemma processReportBehavior_needs_summary_witness :
  let behavior := {| Processes := Processes sample_behavior; Summary := None |} in
  exists h',
    parse_and_submit.processReportBehavior 1 (Some behavior) [] = Panic nil_deref h'.
Proof.
  intros behavior.
  apply (proj2 (processReportBehavior_needs_summary 1 behavior [] eq_refl)).
  constructor; [|constructor]. eexists. split; [reflexivity|].
  repeat constructor; by eexists.
Defined.

Lemma AddResults_converts_in_place_witness :
  let w' := final (@AddResults sample_json sample_crits sample_batch
                     (HttpResp 500 "500 Internal Server Error" "")
                     sample_batch_world) in
  w_heap w' !! 0%nat =
    (if decide (Some 0%nat ∈ Data <$> sample_batch)
     then fmap stringify <$> (w_heap sample_batch_world !! 0%nat)
     else w_heap sample_batch_world !! 0%nat) /\
  w_heap w' !! 1%nat =
    (if decide (Some 1%nat ∈ Data <$> sample_batch)
     then fmap stringify <$> (w_heap sample_batch_world !! 1%nat)
     else w_heap sample_batch_world !! 1%nat).
Proof.
  intros w'.
  split;
    apply (@AddResults_converts_in_place sample_json sample_crits sample_batch
             (HttpResp 500 "500 Internal Server Error" "") sample_batch_world);
    intros m s e; discriminate.
Defined.
End MoreSamples.
